(** * plsdo: call-site correlation over a parsed Go package

    A shallow embedding of the three packages of the repository:
    - [pkg/ast]   the syntax-tree analyzer ([ASTProcessor]),
    - [pkg/gopls] the protocol client ([GoplsClient]),
    - [pkg/plsdo] the orchestrator ([Matcher]).

    Go's [int] and [token.Pos] are 64-bit integers, modelled by [Z] with the
    wrap-around written out where the code does arithmetic on caller-supplied
    values.  Go strings are byte sequences, modelled by [string].  The
    libraries the code calls (go/token, the traversal of go/ast, strings,
    strconv, bufio, go-glob, slices) are modelled after their sources; the
    parser, the file system and the package resolver are parameters of the
    analyzer, and the JSON encoder and decoder are parameters of the client. *)

From Stdlib Require Import ZArith String Ascii List Lia Bool Permutation Sorted.
From Stdlib Require Import DecimalString DecimalPos.
From stdpp Require Import base option gmap strings list sorting.

Import ListNotations.
Local Open Scope string_scope.
Local Open Scope list_scope.
Local Open Scope Z_scope.

Set Warnings "-register-all".

(** ** Go's 64-bit signed integers *)

Module GoInt.

Definition min_int : Z := - 2 ^ 63.
Definition max_int : Z := 2 ^ 63 - 1.

Definition in_range (z : Z) : Prop := min_int <= z <= max_int.

(** Two's-complement wrap-around of a mathematical integer. *)
Definition wrap (z : Z) : Z := (z + 2 ^ 63) mod 2 ^ 64 - 2 ^ 63.

Definition add (a b : Z) : Z := wrap (a + b).
Definition sub (a b : Z) : Z := wrap (a - b).

End GoInt.

(** ** Errors and the state-and-error monad

    Every error value the three packages can return, and the run-time panics
    the modelled code can raise.  The text of an underlying I/O or parser
    error is not kept. *)

Inductive Error : Type :=
| ErrReadFile (path : string)        (* "error reading file %s: %v" *)
| ErrParseFile (path : string)       (* "error parsing file %s: %v" *)
| ErrInvalidPosition                 (* "invalid position" *)
| ErrNoCallExpr                      (* "no corresponding call expression found" *)
| ErrInvalidCallPositions            (* "invalid call expression positions" *)
| ErrImport (pkgPath : string)       (* error of build.Import *)
| ErrTransport                       (* error of the reader or writer, io.EOF included *)
| ErrInvalidHeader                   (* "invalid header line: %s" *)
| ErrMissingContentLength            (* "missing Content-Length header" *)
| ErrInvalidContentLength            (* "invalid Content-Length: %s" *)
| ErrJSON                            (* error of json.Unmarshal *)
| ErrNoReferences                    (* "no references found" *)
| ErrInvalidReferencesFormat         (* "invalid references format" *)
| Panic (what : string).             (* a run-time panic *)

Inductive Result (A : Type) : Type :=
| Ok (a : A)
| Err (e : Error).
Arguments Ok {A} a.
Arguments Err {A} e.

(** A computation on a mutable receiver of type [S]: the state survives an
    error, as the fields of a Go object do. *)
Definition M (S A : Type) : Type := S -> Result A * S.

Definition ret {S A} (a : A) : M S A := fun s => (Ok a, s).
Definition fail {S A} (e : Error) : M S A := fun s => (Err e, s).
Definition bind {S A B} (m : M S A) (k : A -> M S B) : M S B :=
  fun s => match m s with
           | (Ok a, s') => k a s'
           | (Err e, s') => (Err e, s')
           end.
Definition get {S} : M S S := fun s => (Ok s, s).
Definition modify {S} (f : S -> S) : M S unit := fun s => (Ok tt, f s).

Notation "'let*' x ':=' m 'in' k" := (bind m (fun x => k))
  (at level 10, x pattern, m at level 100, k at level 200).

(** ** The functions of Go's [strings] package that the code calls *)

Module strings.

Definition HasPrefix (s pre : string) : bool := String.prefix pre s.

Fixpoint drop (n : nat) (s : string) : string :=
  match n, s with
  | O, _ => s
  | S n', String _ s' => drop n' s'
  | S _, EmptyString => EmptyString
  end.

Definition rev (s : string) : string :=
  string_of_list_ascii (List.rev (list_ascii_of_string s)).

Definition HasSuffix (s suf : string) : bool :=
  String.prefix (rev suf) (rev s).

Definition TrimPrefix (s pre : string) : string :=
  if HasPrefix s pre then drop (String.length pre) s else s.

Definition bytes (l : list Z) : string :=
  string_of_list_ascii (List.map (fun z => ascii_of_nat (Z.to_nat z)) l).

(** White space: the six ASCII characters, and the UTF-8 encodings of
    U+0085, U+00A0, U+1680, U+2000 to U+200A, U+2028, U+2029, U+202F, U+205F
    and U+3000. *)
Definition isAsciiSpace (c : ascii) : bool :=
  let n := nat_of_ascii c in
  ((n =? 9) || (n =? 10) || (n =? 11) || (n =? 12) || (n =? 13) || (n =? 32))%nat.

Definition unicodeSpaces : list string :=
  [ bytes [194; 133]; bytes [194; 160]; bytes [225; 154; 128];
    bytes [226; 128; 128]; bytes [226; 128; 129]; bytes [226; 128; 130];
    bytes [226; 128; 131]; bytes [226; 128; 132]; bytes [226; 128; 133];
    bytes [226; 128; 134]; bytes [226; 128; 135]; bytes [226; 128; 136];
    bytes [226; 128; 137]; bytes [226; 128; 138]; bytes [226; 128; 168];
    bytes [226; 128; 169]; bytes [226; 128; 175]; bytes [226; 129; 159];
    bytes [227; 128; 128] ].

(** The length in bytes of the white space that [s] starts with, reading
    forward ([encodings] as above) or, on a reversed string, backward
    ([encodings] reversed). *)
Definition spaceAhead (encodings : list string) (s : string) : option nat :=
  match s with
  | EmptyString => None
  | String c _ =>
      if isAsciiSpace c then Some 1%nat
      else match List.find (fun u => String.prefix u s) encodings with
           | Some u => Some (String.length u)
           | None => None
           end
  end.

Fixpoint trimAhead (fuel : nat) (encodings : list string) (s : string) : string :=
  match fuel with
  | O => s
  | S fuel' =>
      match spaceAhead encodings s with
      | Some k => trimAhead fuel' encodings (drop k s)
      | None => s
      end
  end.

(** [TrimSpace]: leading and trailing white space removed. *)
Definition TrimSpace (s : string) : string :=
  let s1 := trimAhead (String.length s) unicodeSpaces s in
  rev (trimAhead (String.length s1) (List.map rev unicodeSpaces) (rev s1)).

(** [Index s sub]: byte offset of the first occurrence, [-1] if none. *)
Definition Index (s sub : string) : Z :=
  match String.index 0 sub s with
  | Some i => Z.of_nat i
  | None => -1
  end.

(** [Cut s sep]: the text before and after the first [sep], if any. *)
Definition Cut (s sep : string) : option (string * string) :=
  match String.index 0 sep s with
  | Some i => Some (String.substring 0 i s, drop (i + String.length sep) s)
  | None => None
  end.

(** [Split s sep] for a one-byte separator. *)
Fixpoint SplitByte (s : string) (sep : ascii) : list string :=
  match s with
  | EmptyString => [EmptyString]
  | String c s' =>
      if Ascii.eqb c sep then EmptyString :: SplitByte s' sep
      else match SplitByte s' sep with
           | [] => [String c EmptyString]
           | p :: ps => String c p :: ps
           end
  end.

Fixpoint Join (elems : list string) (sep : string) : string :=
  match elems with
  | [] => EmptyString
  | [e] => e
  | e :: es => String.append e (String.append sep (Join es sep))
  end.

(** [strings.Compare]: lexicographic on bytes; -1, 0 or +1. *)
Definition Compare (a b : string) : Z :=
  match String.compare a b with
  | Lt => -1
  | Eq => 0
  | Gt => 1
  end.

End strings.

(** ** github.com/ryanuber/go-glob, v1.0.0 *)

Module glob.

Definition GLOB : string := "*".

(** [subj[k:]]; the loop below only slices at [0 <= k <= len(subj)]. *)
Definition from (subj : string) (k : Z) : string :=
  strings.drop (Z.to_nat k) subj.

(** The loop over the leading parts, [i] counting from [0]; [None] is the
    early [return false]. *)
Fixpoint leading_parts (leadingGlob : bool) (i : nat) (parts : list string)
    (subj : string) : option string :=
  match parts with
  | [] => Some subj
  | [_] => Some subj                       (* the last part is left to the caller *)
  | part :: rest =>
      let idx := strings.Index subj part in
      let stop :=
        match i with
        | O => negb leadingGlob && negb (idx =? 0)
        | _ => idx <? 0
        end in
      if stop then None
      else leading_parts leadingGlob (S i) rest
             (from subj (idx + Z.of_nat (String.length part)))
  end.

Definition Glob (pattern subj : string) : bool :=
  if String.eqb pattern "" then String.eqb subj pattern
  else if String.eqb pattern GLOB then true
  else
    let parts := strings.SplitByte pattern "*"%char in
    if (List.length parts =? 1)%nat then String.eqb subj pattern
    else
      let leadingGlob := strings.HasPrefix pattern GLOB in
      let trailingGlob := strings.HasSuffix pattern GLOB in
      match leading_parts leadingGlob 0 parts subj with
      | None => false
      | Some subj' =>
          trailingGlob || strings.HasSuffix subj' (List.last parts "")
      end.

End glob.

(** ** go/token: positions, files and file sets *)

Module token.

Definition Pos : Type := Z.
Definition NoPos : Pos := 0.

(** [token.File]: [lines] holds the offset of the first byte of each line;
    its first entry is always [0]. *)
Record File : Type := mkFile {
  name : string;
  base : Z;
  size : Z;
  lines : list Z
}.

(** [token.FileSet]: [files] in the order they were added. *)
Record FileSet : Type := mkFileSet {
  fs_base : Z;
  files : list File
}.

(** [token.Position]. *)
Record Position : Type := mkPosition {
  Filename : string;
  Offset : Z;
  Line : Z;
  Column : Z
}.

Definition NewFileSet : FileSet := {| fs_base := 1 (* 0 == NoPos *); files := [] |}.

(** [File.AddLine]: an offset is recorded only if it is larger than the
    last one recorded and smaller than the file size. *)
Definition AddLine (sz : Z) (ls : list Z) (offset : Z) : list Z :=
  if (List.last ls (-1) <? offset) && (offset <? sz) then ls ++ [offset] else ls.

(** [FileSet.AddFile filename (-1) size], followed by the [AddLine] calls
    the scanner makes while it reads the file.  The library panics when the
    next base overflows; sizes are lengths of sources held in memory, and the
    check is left out. *)
Definition AddFile (s : FileSet) (filename : string) (sz : Z) (added : list Z)
    : File * FileSet :=
  let f := {| name := filename; base := fs_base s; size := sz;
              lines := fold_left (AddLine sz) added [0] |} in
  (f, {| fs_base := fs_base s + sz + 1; files := files s ++ [f] |}).

(** [searchFiles]: the last file whose base is at most [x] (the library
    searches [files], which is sorted by base, by bisection). *)
Fixpoint searchFiles (fl : list File) (x : Z) : option File :=
  match fl with
  | [] => None
  | f :: rest =>
      match searchFiles rest x with
      | Some g => Some g
      | None => if base f <=? x then Some f else None
      end
  end.

(** [FileSet.File]: the file that contains position [p], or nil. *)
Definition FileOf (s : FileSet) (p : Pos) : option File :=
  if p =? NoPos then None
  else match searchFiles (files s) p with
       | Some f => if p <=? base f + size f then Some f else None
       | None => None
       end.

Definition LineCount (f : File) : Z := Z.of_nat (List.length (lines f)).

(** [File.LineStart]; it panics for a line outside [1 .. LineCount]. *)
Definition LineStart (f : File) (line : Z) : option Pos :=
  if (line <? 1) || (LineCount f <? line) then None
  else Some (base f + List.nth (Z.to_nat (line - 1)) (lines f) 0).

(** [searchInts]: index of the last entry of [ls] that is at most [x]. *)
Fixpoint searchInts (ls : list Z) (x : Z) : Z :=
  match ls with
  | [] => -1
  | l :: rest => if l <=? x then 1 + searchInts rest x else -1
  end.

(** [FileSet.Position], without [//line] directives. *)
Definition PositionOf (s : FileSet) (p : Pos) : Position :=
  match FileOf s p with
  | None => {| Filename := ""; Offset := 0; Line := 0; Column := 0 |}
  | Some f =>
      let offset := p - base f in
      let i := searchInts (lines f) offset in
      if 0 <=? i
      then {| Filename := name f; Offset := offset; Line := i + 1;
              Column := offset - List.nth (Z.to_nat i) (lines f) 0 + 1 |}
      else {| Filename := name f; Offset := offset; Line := 0; Column := 0 |}
  end.

(** [lineInfo]: an alternative position, recorded for the offset at which
    a [//line] directive takes effect ([File.AddLineColumnInfo]; a column of
    [0] means that the column is unknown).  The record [File] above does not
    hold the line infos of a file: the functions below take them beside the
    file, in the order they were added, which is by increasing offset. *)
Record lineInfo : Type := mkLineInfo {
  infoOffset : Z;
  infoFilename : string;
  infoLine : Z;
  infoColumn : Z
}.

(** [searchLineInfos]: index of the last entry whose offset is at most
    [x]. *)
Fixpoint searchLineInfos (a : list lineInfo) (x : Z) : Z :=
  match a with
  | [] => -1
  | i :: rest => if infoOffset i <=? x then 1 + searchLineInfos rest x else -1
  end.

(** [File.unpack]: file name, line and column of an offset; with
    [adjusted], as the [//line] directives of the file change them. *)
Definition unpack (f : File) (infos : list lineInfo) (offset : Z) (adjusted : bool)
    : string * Z * Z :=
  let i := searchInts (lines f) offset in
  let '(line, column) :=
    if 0 <=? i then (i + 1, offset - List.nth (Z.to_nat i) (lines f) 0 + 1)
    else (0, 0) in
  if adjusted && negb (Nat.eqb (List.length infos) 0) then
    let k := searchLineInfos infos offset in
    if 0 <=? k then
      let alt := List.nth (Z.to_nat k) infos (mkLineInfo 0 EmptyString 0 0) in
      let j := searchInts (lines f) (infoOffset alt) in
      if 0 <=? j then
        (* j+1 is the line at which the alternative position was recorded *)
        let d := GoInt.sub line (j + 1) in
        (infoFilename alt,
         GoInt.add (infoLine alt) d,
         if infoColumn alt =? 0 then 0
         else if d =? 0 then GoInt.add (infoColumn alt) (GoInt.sub offset (infoOffset alt))
              else column)
      else (infoFilename alt, line, column)
    else (name f, line, column)
  else (name f, line, column).

(** [FileSet.PositionFor], and [FileSet.Position], which is
    [PositionFor] with [adjusted] set and is called [PositionAt] here
    ([Position] names the record); [infosOf] gives the line infos of each
    file of the set.  On a file without line infos both agree with
    [PositionOf]. *)
Definition PositionFor (s : FileSet) (infosOf : File -> list lineInfo) (p : Pos)
    (adjusted : bool) : Position :=
  match FileOf s p with
  | None => {| Filename := ""; Offset := 0; Line := 0; Column := 0 |}
  | Some f =>
      let offset := p - base f in
      let '(filename, line, column) := unpack f (infosOf f) offset adjusted in
      {| Filename := filename; Offset := offset; Line := line; Column := column |}
  end.

Definition PositionAt (s : FileSet) (infosOf : File -> list lineInfo) (p : Pos)
    : Position :=
  PositionFor s infosOf p true.

(** The invariant of a file set: bases start at 1, every file owns the
    range [base .. base+size], ranges are disjoint and increasing, and the
    next free base lies above them all. *)
Fixpoint ranges_from (lo : Z) (fl : list File) (hi : Z) : Prop :=
  match fl with
  | [] => lo <= hi
  | f :: rest => lo <= base f /\ 0 <= size f /\ ranges_from (base f + size f + 1) rest hi
  end.

Definition wf (s : FileSet) : Prop := ranges_from 1 (files s) (fs_base s).

End token.

(** ** go/ast: the syntax tree as the traversal sees it *)

Module goast.

(** Expressions, as far as [exprToString] tells them apart; [OtherExpr]
    carries the Go type name that [%T] prints. *)
Inductive Expr : Type :=
| Ident (Name : string)
| StarExpr (X : Expr)
| SelectorExpr (X : Expr) (Sel : string)
| IndexExpr (X : Expr) (Index : Expr)
| IndexListExpr (X : Expr) (Indices : list Expr)
| ArrayType (Elt : Expr)
| MapType (Key : Expr) (Value : Expr)
| FuncType
| InterfaceType
| StructType
| OtherExpr (goType : string).

(** [ast.Field] of a receiver list. *)
Record Field : Type := mkField {
  Names : list string;
  Type_ : Expr
}.

(** What the analyzer reads of an [ast.FuncDecl]: [Name.Name],
    [Name.NamePos] and [Recv] (nil, or the fields of [Recv.List]). *)
Record FuncDeclInfo : Type := mkFuncDecl {
  Name : string;
  NamePos : token.Pos;
  Recv : option (list Field)
}.

(** The dynamic type of a node: the three the analyzer switches on, and the
    rest. *)
Inductive Kind : Type :=
| FuncDecl (fd : FuncDeclInfo)
| FuncLit
| CallExpr
| OtherNode.

(** An [ast.Node]: dynamic type, [Pos()], [End()], and the non-nil children
    in the order [ast.Walk] visits them. *)
Inductive Node : Type :=
| mkNode (kind : Kind) (pos end_ : token.Pos) (children : list Node).

Definition kind (n : Node) : Kind := let 'mkNode k _ _ _ := n in k.
Definition Pos (n : Node) : token.Pos := let 'mkNode _ p _ _ := n in p.
Definition End (n : Node) : token.Pos := let 'mkNode _ _ e _ := n in e.
Definition children (n : Node) : list Node := let 'mkNode _ _ _ c := n in c.

(** An [ast.File]; [FileName] is its field [Name]. *)
Record File : Type := mkFile {
  Doc : option Node;
  Package : token.Pos;
  FileName : Node;
  Decls : list Node
}.

(** [File.Pos] and [File.End]. *)
Definition FilePos (f : File) : token.Pos := Package f.
Definition FileEnd (f : File) : token.Pos :=
  match List.rev (Decls f) with
  | d :: _ => End d
  | [] => End (FileName f)
  end.

(** The file as the root node of a traversal; [ast.Walk] visits [Doc],
    [Name] and [Decls]. *)
Definition FileNode (f : File) : Node :=
  mkNode OtherNode (FilePos f) (FileEnd f)
         (match Doc f with Some d => [d] | None => [] end ++ FileName f :: Decls f).

(** [ast.Inspect]: [f] is called on the node; if it returns true the
    children are traversed in order and [f] is called once more with nil.
    The variables the closure [f] captures and assigns are the state [S]. *)
Section Inspect.
Context {S : Type} (f : option Node -> S -> bool * S).

Fixpoint Inspect (n : Node) (s : S) : S :=
  let '(descend, s1) := f (Some n) s in
  if descend
  then
    let fix walkList (l : list Node) (s : S) : S :=
      match l with
      | [] => s
      | c :: rest => walkList rest (Inspect c s)
      end in
    snd (f None (walkList (children n) s1))
  else s1.

Definition walkList (l : list Node) (s : S) : S :=
  fold_left (fun s c => Inspect c s) l s.
End Inspect.

(** All nodes of a tree in the order a full traversal meets them. *)
Fixpoint preorder (n : Node) : list Node :=
  n :: (fix go (l : list Node) : list Node :=
          match l with
          | [] => []
          | c :: rest => preorder c ++ go rest
          end) (children n).

Definition preorder_list (l : list Node) : list Node :=
  List.concat (List.map preorder l).

End goast.

(** ** pkg/ast: the syntax-tree analyzer *)

Module Analyzer.

(** [Match]: a definition located by [FindFuncDefinitions]. *)
Record Match : Type := mkMatch {
  Pkg : string;
  RecvType : string;
  RecvName : string;
  FuncName : string;
  Filename : string;
  OffsetLine : Z;
  OffsetCol : Z
}.

(** [ASTProcessor]: the file set and the cache of parsed files. *)
Record ASTProcessor : Type := mkASTProcessor {
  fset : token.FileSet;
  fileMap : gmap string goast.File
}.

Definition NewASTProcessor : ASTProcessor :=
  {| fset := token.NewFileSet; fileMap := ∅ |}.

(** [exprToString]. *)
Fixpoint exprToString (expr : goast.Expr) : string :=
  match expr with
  | goast.Ident n => n
  | goast.StarExpr x => String.append "*" (exprToString x)
  | goast.SelectorExpr x sel =>
      String.append (exprToString x) (String.append "." sel)
  | goast.IndexExpr x i =>
      String.append (exprToString x)
        (String.append "[" (String.append (exprToString i) "]"))
  | goast.IndexListExpr x indices =>
      String.append (exprToString x)
        (String.append "["
           (String.append (strings.Join (List.map exprToString indices) ", ") "]"))
  | goast.ArrayType elt => String.append "[]" (exprToString elt)
  | goast.MapType k v =>
      String.append "map["
        (String.append (exprToString k) (String.append "]" (exprToString v)))
  | goast.FuncType => "func"
  | goast.InterfaceType => "interface"
  | goast.StructType => "struct"
  | goast.OtherExpr goType => goType
  end.

(** [extractRecvType]. *)
Definition extractRecvType (decl : goast.FuncDeclInfo) : string * string :=
  match goast.Recv decl with
  | Some [fld] =>
      (exprToString (goast.Type_ fld),
       match goast.Names fld with
       | n :: _ => n
       | [] => ""
       end)
  | _ => ("", "")
  end.

(** [isFuncMatch]. *)
Fixpoint isFuncMatch_loop (recvType funcName : string) (funcPatterns : list string)
    : bool :=
  match funcPatterns with
  | [] => false
  | pattern :: rest =>
      match strings.Cut pattern "." with
      | Some (structName, methodName) =>
          if negb (glob.Glob structName recvType)
          then isFuncMatch_loop recvType funcName rest          (* continue *)
          else if glob.Glob methodName funcName then true
               else isFuncMatch_loop recvType funcName rest
      | None =>
          if glob.Glob pattern funcName then true
          else isFuncMatch_loop recvType funcName rest
      end
  end.

Definition isFuncMatch (node : goast.FuncDeclInfo) (funcPatterns : list string) : bool :=
  let recvType := strings.TrimPrefix (fst (extractRecvType node)) "*" in
  isFuncMatch_loop recvType (goast.Name node) funcPatterns.

(** The state of the closure of [GetEnclosingFunctionName]: the three named
    results and [found]. *)
Record Enclosing : Type := mkEnclosing {
  functionName : string;
  receiverType : string;
  receiverName : string;
  found : bool
}.

Definition enclosingVisit (position : token.Pos) (n : option goast.Node)
    (st : Enclosing) : bool * Enclosing :=
  match n with
  | None => (false, st)
  | Some n =>
      if found st then (false, st)
      else if (goast.Pos n <=? position) && (position <=? goast.End n) then
        match goast.kind n with
        | goast.FuncDecl fn =>
            let st1 :=
              match goast.Recv fn with
              | Some (fld :: _) =>
                  {| functionName := goast.Name fn;
                     receiverType := exprToString (goast.Type_ fld);
                     receiverName := match goast.Names fld with
                                     | nm :: _ => nm
                                     | [] => ""
                                     end;
                     found := found st |}
              | _ =>
                  {| functionName := goast.Name fn;
                     receiverType := receiverType st;
                     receiverName := receiverName st;
                     found := found st |}
              end in
            (false, {| functionName := functionName st1;
                       receiverType := receiverType st1;
                       receiverName := receiverName st1;
                       found := true |})
        | goast.FuncLit =>
            (false, {| functionName := "anonymous function";
                       receiverType := "";
                       receiverName := receiverName st;
                       found := true |})
        | _ => (true, st)
        end
      else (true, st)
  end.

(** The closure of [ExtractFullCall]; its state is [targetCallExpr]. *)
Definition callVisit (position : token.Pos) (n : option goast.Node)
    (targetCallExpr : option goast.Node) : bool * option goast.Node :=
  match n with
  | None => (false, targetCallExpr)
  | Some n =>
      match goast.kind n with
      | goast.CallExpr =>
          if (goast.Pos n <=? position) && (position <=? goast.End n)
          then (true, Some n)
          else (true, targetCallExpr)
      | _ => (true, targetCallExpr)
      end
  end.

Section WithEnvironment.

(** [os.ReadFile]: the content of a file, if it can be read. *)
Variable ReadFile : string -> option string.

(** [parser.ParseFile fset filename src parser.ParseComments], given the
    base the file set assigns to the file: the offsets the scanner passes
    to [AddLine], and the tree unless the source is malformed.  Positions
    in the tree are absolute. *)
Variable parser_ParseFile : string -> Z -> string -> list Z * option goast.File.

(** [build.Import pkgPath "" 0]: the directory and the Go files of a
    package. *)
Variable build_Import : string -> option (string * list string).

Variable filepath_Join : string -> string -> string.

(** [ast.IsExported]. *)
Variable IsExported : string -> bool.

(** [ParseFile]. *)
Definition ParseFile (filePath : string) : M ASTProcessor unit :=
  fun a =>
    match fileMap a !! filePath with
    | Some _ => (Ok tt, a)                  (* File already parsed *)
    | None =>
        match ReadFile filePath with
        | None => (Err (ErrReadFile filePath), a)
        | Some src =>
            let '(added, parsed) :=
              parser_ParseFile filePath (token.fs_base (fset a)) src in
            let '(_, fset') :=
              token.AddFile (fset a) filePath (Z.of_nat (String.length src)) added in
            match parsed with
            | None =>
                (Err (ErrParseFile filePath),
                 {| fset := fset'; fileMap := fileMap a |})
            | Some file =>
                (Ok tt, {| fset := fset'; fileMap := <[filePath := file]> (fileMap a) |})
            end
        end
    end.

(** [getPosition]. *)
Definition getPosition (filePath : string) (line character : Z)
    : M ASTProcessor token.Pos :=
  fun a =>
    match fileMap a !! filePath with
    | None => (Err (Panic "nil pointer dereference"), a)
    | Some f =>
        match token.FileOf (fset a) (goast.FilePos f) with
        | None => (Ok token.NoPos, a)
        | Some file =>
            if (line <? 1) || (token.LineCount file <? line) then (Ok token.NoPos, a)
            else
              match token.LineStart file line with
              | Some lineStart =>
                  (Ok (GoInt.add lineStart (GoInt.sub character 1)), a)
              | None => (Err (Panic "illegal line number"), a)
              end
        end
    end.

(** [ExtractFullCall]. *)
Definition ExtractFullCall (filePath : string) (line character : Z)
    : M ASTProcessor string :=
  let* _ := ParseFile filePath in
  let* a := get in
  let file := fileMap a !! filePath in
  match ReadFile filePath with
  | None => fail (ErrReadFile filePath)
  | Some src =>
      let* position := getPosition filePath line character in
      if position =? token.NoPos then fail ErrInvalidPosition
      else
        match file with
        | None => fail (Panic "nil pointer dereference")
        | Some file =>
            match goast.Inspect (callVisit position) (goast.FileNode file) None with
            | None => fail ErrNoCallExpr
            | Some targetCallExpr =>
                let startOffset :=
                  token.Offset (token.PositionOf (fset a) (goast.Pos targetCallExpr)) in
                let endOffset :=
                  token.Offset (token.PositionOf (fset a) (goast.End targetCallExpr)) in
                if (startOffset <? 0)
                   || (Z.of_nat (String.length src) <? endOffset)
                   || (endOffset <=? startOffset)
                then fail ErrInvalidCallPositions
                else ret (String.substring (Z.to_nat startOffset)
                            (Z.to_nat (endOffset - startOffset)) src)
            end
        end
  end.

(** [GetEnclosingFunctionName]; the result is
    [(functionName, receiverType, receiverName)]. *)
Definition GetEnclosingFunctionName (filePath : string) (line character : Z)
    : M ASTProcessor (string * string * string) :=
  let* _ := ParseFile filePath in
  let* a := get in
  match fileMap a !! filePath with
  | None => fail (Panic "nil pointer dereference")
  | Some file =>
      let* position := getPosition filePath line character in
      if position =? token.NoPos then fail ErrInvalidPosition
      else
        let st := goast.Inspect (enclosingVisit position) (goast.FileNode file)
                    {| functionName := ""; receiverType := "";
                       receiverName := ""; found := false |} in
        if negb (found st)
        then ret ("global scope", "", receiverName st)
        else ret (functionName st, receiverType st, receiverName st)
  end.

(** The loop of [FindFuncDefinitions] over the declarations of one file. *)
Fixpoint scanDecls (fs : token.FileSet) (pkgPath : string)
    (funcPattern : list string) (decls : list goast.Node) (matches : list Match)
    : list Match :=
  match decls with
  | [] => matches
  | decl :: rest =>
      let matches' :=
        match goast.kind decl with
        | goast.FuncDecl fd =>
            let funcName := goast.Name fd in
            if negb (IsExported funcName) then matches
            else if negb (isFuncMatch fd funcPattern) then matches
            else
              let pos := token.PositionOf fs (goast.NamePos fd) in
              let '(recvType, recvName) := extractRecvType fd in
              matches ++ [ {| Pkg := pkgPath;
                              RecvType := recvType;
                              RecvName := recvName;
                              FuncName := goast.Name fd;
                              Filename := token.Filename pos;
                              OffsetLine := token.Line pos;
                              OffsetCol := token.Column pos |} ]
        | _ => matches
        end in
      scanDecls fs pkgPath funcPattern rest matches'
  end.

(** The loop of [FindFuncDefinitions] over the files of the package. *)
Fixpoint scanFiles (dir pkgPath : string) (funcPattern : list string)
    (goFiles : list string) (matches : list Match) : M ASTProcessor (list Match) :=
  match goFiles with
  | [] => ret matches
  | file :: rest =>
      let fullPath := filepath_Join dir file in
      let* _ := ParseFile fullPath in
      let* a := get in
      match fileMap a !! fullPath with
      | None => fail (Panic "nil pointer dereference")
      | Some node =>
          scanFiles dir pkgPath funcPattern rest
            (scanDecls (fset a) pkgPath funcPattern (goast.Decls node) matches)
      end
  end.

(** [FindFuncDefinitions]. *)
Definition FindFuncDefinitions (pkgPath : string) (funcPattern : list string)
    : M ASTProcessor (list Match) :=
  match build_Import pkgPath with
  | None => fail (ErrImport pkgPath)
  | Some (dir, goFiles) => scanFiles dir pkgPath funcPattern goFiles []
  end.

End WithEnvironment.

End Analyzer.

(** ** strconv, bufio and io: what the frame reader calls *)

Module strconv.

(** [strconv.Itoa]. *)
Definition Itoa (z : Z) : string := NilZero.string_of_int (Z.to_int z).

Definition digit (c : ascii) : option Z :=
  let n := Z.of_nat (nat_of_ascii c) in
  if (48 <=? n) && (n <=? 57) then Some (n - 48) else None.

Fixpoint digits (s : string) (acc : Z) : option Z :=
  match s with
  | EmptyString => Some acc
  | String c s' =>
      match digit c with
      | Some d => digits s' (10 * acc + d)
      | None => None
      end
  end.

(** [strconv.Atoi]: an optional sign and at least one decimal digit, with a
    value that fits an [int]; [None] is the error. *)
Definition Atoi (s : string) : option Z :=
  let '(neg, body) :=
    match s with
    | String "-" r => (true, r)
    | String "+" r => (false, r)
    | _ => (false, s)
    end in
  match body with
  | EmptyString => None
  | _ =>
      match digits body 0 with
      | Some v =>
          let v' := if neg then - v else v in
          if (GoInt.min_int <=? v') && (v' <=? GoInt.max_int) then Some v' else None
      | None => None
      end
  end.

End strconv.

Module bufio.

(** [(Reader).ReadString delim] on the unread input: the text up to and
    including the first [delim] and the input after it; [None] when the
    input ends before a [delim] (the reader then returns an error). *)
Fixpoint ReadString (input : string) (delim : ascii) : option (string * string) :=
  match input with
  | EmptyString => None
  | String c rest =>
      if Ascii.eqb c delim then Some (String c EmptyString, rest)
      else match ReadString rest delim with
           | Some (line, rest') => Some (String c line, rest')
           | None => None
           end
  end.

(** [io.ReadFull] into a buffer of [n] bytes: the bytes and the input after
    them; [None] when the input is shorter. *)
Definition ReadFull (input : string) (n : nat) : option (string * string) :=
  if (n <=? String.length input)%nat
  then Some (String.substring 0 n input, strings.drop n input)
  else None.

End bufio.

(** ** pkg/gopls: the protocol client *)

Module Gopls.

(** A decoded JSON value ([interface{}] after [json.Unmarshal]).  A number
    is a [float64] in Go; the client only ever converts one to [int], so a
    number is kept as that integer. *)
Inductive JSON : Type :=
| JNull
| JBool (b : bool)
| JNumber (n : Z)
| JString (s : string)
| JArray (elems : list JSON)
| JObject (fields : list (string * JSON)).

(** [map[string]interface{}]. *)
Definition Msg : Type := list (string * JSON).

Fixpoint lookup (key : string) (m : Msg) : option JSON :=
  match m with
  | [] => None
  | (k, v) :: rest => if String.eqb k key then Some v else lookup key rest
  end.

(** [Match]: a reference reported by the server. *)
Record Match : Type := mkMatch {
  URI : string;
  Filename : string;
  StartLine : Z;
  StartCharacter : Z;
  EndLine : Z;
  EndCharacter : Z
}.

(** [GoplsClient].  The subprocess is represented by what the client can
    observe of it: [stdout] are the bytes it will deliver on its standard
    output and the client has not read yet (then end of file); [stdin] are
    the bytes written to its standard input; [writeFails] tells, for each
    message still to be written, whether the pipe reports an error, and a
    failure stays at its head because the error of a [bufio.Writer] is
    sticky; [waitFails] is the outcome of [cmd.Wait]. *)
Record GoplsClient : Type := mkClient {
  seq : Z;
  stdout : string;
  stdin : string;
  writeFails : list bool;
  stdinOpen : bool;
  waitFails : bool
}.

Definition set_seq (n : Z) (c : GoplsClient) : GoplsClient :=
  {| seq := n; stdout := stdout c; stdin := stdin c;
     writeFails := writeFails c; stdinOpen := stdinOpen c; waitFails := waitFails c |}.
Definition set_stdout (s : string) (c : GoplsClient) : GoplsClient :=
  {| seq := seq c; stdout := s; stdin := stdin c;
     writeFails := writeFails c; stdinOpen := stdinOpen c; waitFails := waitFails c |}.
Definition set_stdin (s : string) (w : list bool) (c : GoplsClient) : GoplsClient :=
  {| seq := seq c; stdout := stdout c; stdin := s;
     writeFails := w; stdinOpen := stdinOpen c; waitFails := waitFails c |}.
Definition close_stdin (c : GoplsClient) : GoplsClient :=
  {| seq := seq c; stdout := stdout c; stdin := stdin c;
     writeFails := writeFails c; stdinOpen := false; waitFails := waitFails c |}.

(** [pathToURI] (on a system whose path separator is the slash) and
    [uriToPath]. *)
Definition pathToURI (path : string) : string := String.append "file://" path.

Definition uriToPath (uri : string) : string :=
  match String.index 0 "file://" uri with
  | Some i =>
      String.append (String.substring 0 i uri) (strings.drop (i + 7) uri)
  | None => uri
  end.

(** [getSeq]. *)
Definition getSeq : M GoplsClient Z :=
  fun c => let n := GoInt.add (seq c) 1 in (Ok n, set_seq n c).

(** The test [id, ok := resp["id"]; ok && int(id.(float64)) == want]; the
    type assertion panics on an id that is not a number. *)
Definition idMatches (resp : Msg) (want : Z) : Result bool :=
  match lookup "id" resp with
  | None => Ok false
  | Some (JNumber n) => Ok (n =? want)
  | Some _ => Err (Panic "interface conversion")
  end.

Definition asObject (v : option JSON) : option Msg :=
  match v with Some (JObject f) => Some f | _ => None end.
Definition asNumber (v : option JSON) : option Z :=
  match v with Some (JNumber n) => Some n | _ => None end.
Definition asString (v : option JSON) : option string :=
  match v with Some (JString s) => Some s | _ => None end.

(** One round of the loop of [parseReferences]: [None] is [continue]. *)
Definition parseReference (ref : JSON) : option Match :=
  refMap ← asObject (Some ref);
  uri ← asString (lookup "uri" refMap);
  rangeMap ← asObject (lookup "range" refMap);
  start ← asObject (lookup "start" rangeMap);
  startLine ← asNumber (lookup "line" start);
  startCharacter ← asNumber (lookup "character" start);
  end_ ← asObject (lookup "end" rangeMap);
  endLine ← asNumber (lookup "line" end_);
  endCharacter ← asNumber (lookup "character" end_);
  Some {| URI := uri;
          Filename := uriToPath uri;
          StartLine := GoInt.add startLine 1;
          StartCharacter := GoInt.add startCharacter 1;
          EndLine := GoInt.add endLine 1;
          EndCharacter := GoInt.add endCharacter 1 |}.

(** [parseReferences]. *)
Definition parseReferences (resp : Msg) : Result (list Match) :=
  match lookup "result" resp with
  | None => Err ErrNoReferences
  | Some (JArray refs) => Ok (omap parseReference refs)
  | Some _ => Err ErrInvalidReferencesFormat
  end.

Definition initializeRequest (id : Z) (projectRoot : string) : Msg :=
  [ ("jsonrpc", JString "2.0");
    ("id", JNumber id);
    ("method", JString "initialize");
    ("params", JObject
       [ ("processId", JNull);
         ("rootUri", JString (pathToURI projectRoot));
         ("capabilities", JObject
            [ ("textDocument", JObject [ ("references", JObject []) ]) ]) ]) ].

Definition initializedNotification : Msg :=
  [ ("jsonrpc", JString "2.0");
    ("method", JString "initialized");
    ("params", JObject []) ].

Definition didChangeConfigNotification : Msg :=
  [ ("jsonrpc", JString "2.0");
    ("method", JString "workspace/didChangeConfiguration");
    ("params", JObject [ ("settings", JObject []) ]) ].

Definition referencesRequest (id : Z) (filename : string) (line character : Z) : Msg :=
  [ ("jsonrpc", JString "2.0");
    ("id", JNumber id);
    ("method", JString "textDocument/references");
    ("params", JObject
       [ ("textDocument", JObject [ ("uri", JString (pathToURI filename)) ]);
         ("position", JObject
            [ ("line", JNumber (GoInt.sub line 1));
              ("character", JNumber (GoInt.sub character 1)) ]);
         ("context", JObject [ ("includeDeclaration", JBool true) ]) ]) ].

Definition shutdownRequest (id : Z) : Msg :=
  [ ("jsonrpc", JString "2.0"); ("id", JNumber id); ("method", JString "shutdown") ].

Definition exitNotification : Msg :=
  [ ("jsonrpc", JString "2.0"); ("method", JString "exit") ].

(** The line ending of a header, and the header that [sendMessage] writes. *)
Definition crlf : string :=
  String (ascii_of_nat 13) (String (ascii_of_nat 10) EmptyString).

Definition header (len : nat) : string :=
  String.append "Content-Length: "
    (String.append (strconv.Itoa (Z.of_nat len)) (String.append crlf crlf)).

Section WithJSON.

(** [json.Marshal] of a message, and [json.Unmarshal] of a payload into a
    [map[string]interface{}] ([None] is its error). *)
Variable json_Marshal : Msg -> string.
Variable json_Unmarshal : string -> option Msg.

(** [sendMessage]: the header and the payload go to the subprocess in one
    flush. *)
Definition sendMessage (msg : Msg) : M GoplsClient unit :=
  fun c =>
    let data := json_Marshal msg in
    let packet := String.append (header (String.length data)) data in
    if negb (stdinOpen c) then (Err ErrTransport, set_stdin (stdin c) [true] c)
    else
      match writeFails c with
      | true :: _ => (Err ErrTransport, c)
      | false :: w => (Ok tt, set_stdin (String.append (stdin c) packet) w c)
      | [] => (Ok tt, set_stdin (String.append (stdin c) packet) [] c)
      end.

(** The header loop of [readMessage].  Every round reads a line, which is at
    least one byte, so [fuel] above the length of the input is never used
    up. *)
Fixpoint readHeaders (fuel : nat) (headers : gmap string string)
    : M GoplsClient (gmap string string) :=
  match fuel with
  | O => fail (Panic "out of fuel")
  | S fuel' =>
      fun c =>
        match bufio.ReadString (stdout c) (ascii_of_nat 10) with
        | None => (Err ErrTransport, set_stdout EmptyString c)       (* io.EOF *)
        | Some (line, rest) =>
            let c := set_stdout rest c in
            let line := strings.TrimSpace line in
            if String.eqb line "" then (Ok headers, c)
            else
              match strings.Cut line ":" with                       (* SplitN line ":" 2 *)
              | None => (Err ErrInvalidHeader, c)
              | Some (k, v) =>
                  readHeaders fuel'
                    (<[strings.TrimSpace k := strings.TrimSpace v]> headers) c
              end
        end
  end.

(** [readMessage]. *)
Definition readMessage : M GoplsClient Msg :=
  let* c := get in
  let* headers := readHeaders (S (String.length (stdout c))) ∅ in
  match headers !! "Content-Length" with
  | None => fail ErrMissingContentLength
  | Some contentLengthStr =>
      match strconv.Atoi contentLengthStr with
      | None => fail ErrInvalidContentLength
      | Some contentLength =>
          if contentLength <? 0 then fail (Panic "makeslice: len out of range")
          else
            fun c =>
              match bufio.ReadFull (stdout c) (Z.to_nat contentLength) with
              | None => (Err ErrTransport, set_stdout EmptyString c)
              | Some (content, rest) =>
                  match json_Unmarshal content with
                  | None => (Err ErrJSON, set_stdout rest c)
                  | Some msg => (Ok msg, set_stdout rest c)
                  end
              end
      end
  end.

(** The loop [for { resp, err := c.readMessage(); ... }] of [FindReferences]
    and [Close]: frames are read until one bears the awaited id.  Every
    round consumes input or ends the loop, so [fuel] above the length of
    the input is never used up. *)
Fixpoint awaitResponse (fuel : nat) (want : Z) : M GoplsClient Msg :=
  match fuel with
  | O => fail (Panic "out of fuel")
  | S fuel' =>
      let* resp := readMessage in
      match idMatches resp want with
      | Err e => fail e
      | Ok true => ret resp
      | Ok false => awaitResponse fuel' want
      end
  end.

Definition enoughFuel (c : GoplsClient) : nat := S (String.length (stdout c)).

(** [initialize]. *)
Definition initialize (projectRoot : string) : M GoplsClient unit :=
  let* id := getSeq in
  let* _ := sendMessage (initializeRequest id projectRoot) in
  (* Read Initialize response *)
  let* _ := readMessage in
  let* _ := sendMessage initializedNotification in
  sendMessage didChangeConfigNotification.

(** [FindReferences]. *)
Definition FindReferences (filename : string) (line character : Z)
    : M GoplsClient (list Match) :=
  let* referencesRequestID := getSeq in
  let* _ := sendMessage (referencesRequest referencesRequestID filename line character) in
  let* c := get in
  let* resp := awaitResponse (enoughFuel c) referencesRequestID in
  match parseReferences resp with
  | Ok matches => ret matches
  | Err e => fail e
  end.

(** [Close]. *)
Definition Close : M GoplsClient unit :=
  let* shutdownRequestID := getSeq in
  let* _ := sendMessage (shutdownRequest shutdownRequestID) in
  let* c := get in
  let* _ := awaitResponse (enoughFuel c) shutdownRequestID in
  let* _ := sendMessage exitNotification in
  let* _ := modify close_stdin in
  let* c := get in
  if waitFails c then fail ErrTransport else ret tt.

(** The client as [NewGoplsClient] builds it once the subprocess runs, and
    [NewGoplsClient] from there on. *)
Definition started (output : string) (writes : list bool) (wait : bool)
    : GoplsClient :=
  {| seq := 0; stdout := output; stdin := EmptyString; writeFails := writes;
     stdinOpen := true; waitFails := wait |}.

Definition NewGoplsClient (projectRoot : string) (output : string)
    (writes : list bool) (wait : bool) : Result GoplsClient :=
  match initialize projectRoot (started output writes wait) with
  | (Ok _, client) => Ok client
  | (Err e, _) => Err e
  end.

End WithJSON.

End Gopls.

(** ** slices.SortStableFunc

    The library sorts a slice of at most 20 elements by the insertion sort
    below, and a longer one by sorting blocks of 20 that way and merging
    neighbouring blocks with a stable in-place merge.  For a comparison that
    is a weak order, there is one stable sorted arrangement of a slice
    ([stable_sorted_unique] below), so the insertion sort stands for the
    library function at every length. *)

Module slices.

Section SortStable.
Context {E : Type} (cmp : E -> E -> Z).

(** The inner loop of [insertionSortCmpFunc]: [data[j]] is swapped with
    its left neighbour while [cmp(data[j], data[j-1]) < 0].  The sorted
    prefix is given last element first, as the loop walks it. *)
Fixpoint siftLeft (x : E) (prefix_rev : list E) : list E :=
  match prefix_rev with
  | [] => [x]
  | y :: rest => if cmp x y <? 0 then y :: siftLeft x rest else x :: y :: rest
  end.

Definition insertionSortCmpFunc (data : list E) : list E :=
  List.rev (fold_left (fun prefix_rev x => siftLeft x prefix_rev) data []).

Definition SortStableFunc (x : list E) : list E := insertionSortCmpFunc x.
End SortStable.

End slices.

(** ** cmp.Compare, on integers *)

Module cmp.

Definition Compare (a b : Z) : Z :=
  if a <? b then -1 else if b <? a then 1 else 0.

End cmp.

(** ** io.Writer *)

Module io.

(** A writer as the code observes it: the writes it has accepted, in order,
    and for each write still to come whether it fails; a write that fails
    delivers nothing. *)
Record Writer : Type := mkWriter {
  written : list string;
  failing : list bool
}.

Definition Write (p : string) : M Writer unit :=
  fun w =>
    match failing w with
    | true :: f => (Err ErrTransport, {| written := written w; failing := f |})
    | false :: f => (Ok tt, {| written := written w ++ [p]; failing := f |})
    | [] => (Ok tt, {| written := written w ++ [p]; failing := [] |})
    end.

End io.

(** ** pkg/plsdo: the orchestrator *)

Module Plsdo.

Record matchEntry : Type := mkEntry {
  Filename : string;
  Line : Z;
  EncRecvType : string;
  EncRecvName : string;
  EncFuncName : string;
  OrgSource : string;
  PrettySource : string
}.

(** [Matcher]; [pls] is nil after [Close]. *)
Record Matcher : Type := mkMatcher {
  refs : list matchEntry;
  pls : option Gopls.GoplsClient
}.

(** The comparison function passed to [slices.SortStableFunc] by [sort]. *)
Definition compareEntries (a b : matchEntry) : Z :=
  let v := strings.Compare (Filename a) (Filename b) in
  if negb (v =? 0) then v
  else cmp.Compare (Line a) (Line b).

(** [sort]. *)
Definition sort : M Matcher unit :=
  fun m => (Ok tt, {| refs := slices.SortStableFunc compareEntries (refs m);
                      pls := pls m |}).

Section WithEnvironment.

Variable ReadFile : string -> option string.
Variable parser_ParseFile : string -> Z -> string -> list Z * option goast.File.
Variable build_Import : string -> option (string * list string).
Variable filepath_Join : string -> string -> string.
Variable IsExported : string -> bool.

(** [ast.Format] of pkg/ast, which prints through go/printer. *)
Variable Format : string -> string.

Variable json_Marshal : Gopls.Msg -> string.
Variable json_Unmarshal : string -> option Gopls.Msg.

(** The value of [filepath.Abs(".")]: the absolute working directory, or
    the empty string when it cannot be determined (the error is dropped). *)
Variable pwd : string.

Definition GetEnclosingFunctionName :=
  Analyzer.GetEnclosingFunctionName ReadFile parser_ParseFile.
Definition ExtractFullCall :=
  Analyzer.ExtractFullCall ReadFile parser_ParseFile.
Definition FindFuncDefinitions :=
  Analyzer.FindFuncDefinitions ReadFile parser_ParseFile build_Import
    filepath_Join IsExported.

(** The state of [FindFuncReferences] while it runs: its local analyzer
    [ap] and the receiver [m]. *)
Definition Run : Type := (Analyzer.ASTProcessor * Matcher)%type.

Definition onAnalyzer {A} (c : M Analyzer.ASTProcessor A) : M Run A :=
  fun '(ap, m) => let '(r, ap') := c ap in (r, (ap', m)).

Definition onClient {A} (c : M Gopls.GoplsClient A) : M Run A :=
  fun '(ap, m) =>
    match pls m with
    | None => (Err (Panic "nil pointer dereference"), (ap, m))
    | Some cl =>
        let '(r, cl') := c cl in
        (r, (ap, {| refs := refs m; pls := Some cl' |}))
    end.

Definition appendRef (me : matchEntry) : M Run unit :=
  fun '(ap, m) => (Ok tt, (ap, {| refs := refs m ++ [me]; pls := pls m |})).

(** The inner loop of [FindFuncReferences], over the references to one
    definition. *)
Fixpoint eachMatch (matches : list Gopls.Match) : M Run unit :=
  match matches with
  | [] => ret tt
  | match_ :: rest =>
      if negb (strings.HasPrefix (Gopls.Filename match_) pwd)
      then eachMatch rest                                        (* continue *)
      else
        let* enc :=
          onAnalyzer (GetEnclosingFunctionName (Gopls.Filename match_)
                        (Gopls.StartLine match_) (Gopls.StartCharacter match_)) in
        let '(functionName, receiverType, receiverName) := enc in
        let* src :=
          onAnalyzer (ExtractFullCall (Gopls.Filename match_)
                        (Gopls.StartLine match_) (Gopls.StartCharacter match_)) in
        let me := {| Filename := Gopls.Filename match_;
                     Line := Gopls.StartLine match_;
                     EncRecvType := receiverType;
                     EncRecvName := receiverName;
                     EncFuncName := functionName;
                     OrgSource := src;
                     PrettySource := Format src |} in
        let* _ := appendRef me in
        eachMatch rest
  end.

(** The outer loop, over the matching definitions. *)
Fixpoint eachDef (defs : list Analyzer.Match) : M Run unit :=
  match defs with
  | [] => ret tt
  | def :: rest =>
      let* matches :=
        onClient (Gopls.FindReferences json_Marshal json_Unmarshal
                    (Analyzer.Filename def)
                    (Analyzer.OffsetLine def) (Analyzer.OffsetCol def)) in
      let* _ := eachMatch matches in
      eachDef rest
  end.

(** [FindFuncReferences]; what it prints to [DebugWriter] is left out. *)
Definition FindFuncReferences (pkgName : string) (patterns : list string)
    : M Matcher unit :=
  fun m =>
    let ap := Analyzer.NewASTProcessor in
    match FindFuncDefinitions pkgName patterns ap with
    | (Err e, _) => (Err e, m)
    | (Ok defs, ap') =>
        let '(r, (_, m')) := eachDef defs (ap', m) in (r, m')
    end.

End WithEnvironment.

(** [fmtEnc]. *)
Definition fmtEnc (me : matchEntry) : string :=
  if negb (String.eqb (EncRecvType me) "") then
    if negb (String.eqb (EncRecvName me) "") then
      String.append "("
        (String.append (EncRecvName me)
           (String.append " "
              (String.append (EncRecvType me)
                 (String.append ") " (String.append (EncFuncName me) "(...)")))))
    else
      String.append "("
        (String.append (EncRecvType me)
           (String.append ") " (String.append (EncFuncName me) "(...)")))
  else String.append (EncFuncName me) "(...)".

Definition newline : string := String (ascii_of_nat 10) EmptyString.

(** The five print statements of [PrettyPrint], each one write, and the
    bytes each hands to the writer:
    [Fprintln(w)], [Fprintf(w, "+++ %s:%d\n", ...)], [Fprintln(w, enc)],
    [Fprintln(w, "...")] and [Fprintf(w, "%5d  %s\n", ...)]. *)
Inductive Chunk : Type :=
| Blank
| FileHeader (filename : string) (line : Z)
| Enclosing (enc : string)
| Ellipsis
| SourceLine (number : Z) (text : string).

(** The verb [%5d]: padded with spaces on the left to five characters. *)
Fixpoint spaces (n : nat) : string :=
  match n with
  | O => EmptyString
  | S n' => String " " (spaces n')
  end.

Definition pad5 (n : Z) : string :=
  let s := strconv.Itoa n in
  String.append (spaces (5 - String.length s)) s.

Definition render (c : Chunk) : string :=
  match c with
  | Blank => newline
  | FileHeader filename line =>
      String.append "+++ "
        (String.append filename
           (String.append ":" (String.append (strconv.Itoa line) newline)))
  | Enclosing enc => String.append enc newline
  | Ellipsis => String.append "..." newline
  | SourceLine number text =>
      String.append (pad5 number)
        (String.append "  " (String.append text newline))
  end.

(** The loop [for i, line := range formattedLines]. *)
Fixpoint sourceLines (line i : Z) (formattedLines : list string) : list Chunk :=
  match formattedLines with
  | [] => []
  | l :: rest => SourceLine (GoInt.add line i) l :: sourceLines line (i + 1) rest
  end.

Section WithOutput.

(** Syntax highlighting by chroma, for a style name and a source text: the
    Go lexer (or the fallback lexer), the named style (or the fallback
    style) and the formatter [TTY16m]; [None] when tokenising or
    formatting fails. *)
Variable highlight : string -> string -> option string.

(** What [json.Encoder.Encode], with the indent of two spaces, writes for
    an entry: the document and a line feed, in one write. *)
Variable json_Encode : matchEntry -> string.

Variable json_Marshal : Gopls.Msg -> string.
Variable json_Unmarshal : string -> option Gopls.Msg.

(** The lines printed for the source of one entry. *)
Definition formattedLines (style : string) (ref : matchEntry) : list string :=
  let plain := strings.SplitByte (PrettySource ref) (ascii_of_nat 10) in
  if negb (String.eqb style "") && negb (String.eqb style "none") then
    match highlight style (PrettySource ref) with
    | Some formatted => strings.SplitByte formatted (ascii_of_nat 10)
    | None => plain
    end
  else plain.

(** The loop of [PrettyPrint] over the sorted entries. *)
Fixpoint printRefs (style : string) (refs : list matchEntry)
    (lastFilename lastEnc : string) : list Chunk :=
  match refs with
  | [] => []
  | ref :: rest =>
      let newFile := negb (String.eqb (Filename ref) lastFilename) in
      let header := if newFile then [Blank; FileHeader (Filename ref) (Line ref)] else [] in
      let lastFilename := if newFile then Filename ref else lastFilename in
      let lastEnc := if newFile then EmptyString else lastEnc in
      let enc := fmtEnc ref in
      let heading :=
        if negb (String.eqb lastEnc enc) then [Blank; Enclosing enc] else [Ellipsis] in
      header ++ heading ++ sourceLines (Line ref) 0 (formattedLines style ref)
      ++ printRefs style rest lastFilename enc
  end.

(** Writes whose errors the caller drops. *)
Definition writeAll (chunks : list Chunk) (w : io.Writer) : io.Writer :=
  fold_left (fun w c => snd (io.Write (render c) w)) chunks w.

(** [PrettyPrint]; it returns nothing. *)
Definition PrettyPrint (style : string) : M (Matcher * io.Writer) unit :=
  fun '(m, w) =>
    let m := snd (sort m) in
    (Ok tt, (m, writeAll (printRefs style (refs m) EmptyString EmptyString) w)).

(** The loop of [Json]: it stops at the first write that fails. *)
Fixpoint encodeAll (refs : list matchEntry) : M io.Writer unit :=
  match refs with
  | [] => ret tt
  | me :: rest =>
      let* _ := io.Write (json_Encode me) in
      encodeAll rest
  end.

(** [Json]. *)
Definition Json : M (Matcher * io.Writer) unit :=
  fun '(m, w) =>
    let m := snd (sort m) in
    let '(r, w) := encodeAll (refs m) w in
    (r, (m, w)).

(** [Close].  The method returns nothing; the value given here is what it
    drops: the outcome of the client's [Close] and the client as that
    leaves it, if the matcher had a client. *)
Definition Close : M Matcher (option (Result unit * Gopls.GoplsClient)) :=
  fun m =>
    (Ok match pls m with
        | Some c => Some (Gopls.Close json_Marshal json_Unmarshal c)
        | None => None
        end,
     {| refs := refs m; pls := None |}).

End WithOutput.

End Plsdo.


(** ** A sample workspace

    One package, [example.com/proj/pkg], of one file, under the workspace
    root [/work/proj]:
<<
    package p

    func F() {
    	func() {
    		G()
    	}()
    }

    func G() {}

    func (s *T) M() { G() }
>>
    with the tree the Go parser builds for it. *)

Module Sample.

Definition nl : string := String (ascii_of_nat 10) EmptyString.
Definition tab : string := String (ascii_of_nat 9) EmptyString.

Definition src : string :=
  String.concat nl
    [ "package p";
      "";
      "func F() {";
      String.append tab "func() {";
      String.append tab (String.append tab "G()");
      String.append tab "}()";
      "}";
      "";
      "func G() {}";
      "";
      "func (s *T) M() { G() }";
      "" ].

Definition path : string := "/work/proj/pkg/a.go".
Definition root : string := "/work/proj".
Definition pkgPath : string := "example.com/proj/pkg".

(** A node spanning the byte offsets [from .. to) of a file based at [b]. *)
Definition node (b : Z) (k : goast.Kind) (from to : Z) (ch : list goast.Node)
    : goast.Node :=
  goast.mkNode k (b + from) (b + to) ch.

Definition other (b from to : Z) (ch : list goast.Node) : goast.Node :=
  node b goast.OtherNode from to ch.

(** The call [G()] on line 5, and the function literal around it. *)
Definition innerCall (b : Z) : goast.Node :=
  node b goast.CallExpr 34 37 [ other b 34 35 [] ].

Definition declF (b : Z) : goast.Node :=
  node b (goast.FuncDecl {| goast.Name := "F"; goast.NamePos := b + 16;
                            goast.Recv := None |}) 11 44
    [ other b 16 17 [];                                   (* Name *)
      other b 11 19 [ other b 17 19 [] ];                 (* Type, Params *)
      other b 20 44                                       (* Body *)
        [ other b 23 42                                   (* ExprStmt *)
            [ node b goast.CallExpr 23 42
                [ node b goast.FuncLit 23 40
                    [ other b 23 29 [ other b 27 29 [] ];
                      other b 30 40
                        [ other b 34 37 [ innerCall b ] ] ] ] ] ] ].

Definition declG (b : Z) : goast.Node :=
  node b (goast.FuncDecl {| goast.Name := "G"; goast.NamePos := b + 51;
                            goast.Recv := None |}) 46 57
    [ other b 51 52 [];
      other b 46 54 [ other b 52 54 [] ];
      other b 55 57 [] ].

Definition declM (b : Z) : goast.Node :=
  node b (goast.FuncDecl
            {| goast.Name := "M"; goast.NamePos := b + 71;
               goast.Recv :=
                 Some [ {| goast.Names := ["s"];
                           goast.Type_ := goast.StarExpr (goast.Ident "T") |} ] |})
    59 82
    [ other b 64 70                                       (* Recv *)
        [ other b 65 69 [ other b 65 66 []; other b 67 69 [ other b 68 69 [] ] ] ];
      other b 71 72 [];
      other b 59 74 [ other b 72 74 [] ];
      other b 75 82
        [ other b 77 80 [ node b goast.CallExpr 77 80 [ other b 77 78 [] ] ] ] ].

Definition file (b : Z) : goast.File :=
  {| goast.Doc := None;
     goast.Package := b + 0;
     goast.FileName := other b 8 9 [];
     goast.Decls := [ declF b; declG b; declM b ] |}.

(** The offset that follows each line feed, as the scanner reports them. *)
Fixpoint lineFeeds (s : string) (offset : Z) : list Z :=
  match s with
  | EmptyString => []
  | String c s' =>
      if Ascii.eqb c (ascii_of_nat 10) then (offset + 1) :: lineFeeds s' (offset + 1)
      else lineFeeds s' (offset + 1)
  end.

(** A parser that knows this one source text and rejects every other. *)
Definition parser_ParseFile (filename : string) (b : Z) (text : string)
    : list Z * option goast.File :=
  if String.eqb text src then (lineFeeds text 0, Some (file b))
  else (lineFeeds text 0, None).

Definition ReadFile (p : string) : option string :=
  if String.eqb p path then Some src
  else if String.eqb p "/work/proj/pkg/bad.go" then Some "package"  (* badPath *)
  else None.

Definition build_Import (p : string) : option (string * list string) :=
  if String.eqb p pkgPath then Some ("/work/proj/pkg", ["a.go"]) else None.

Definition filepath_Join (dir f : string) : string :=
  String.append dir (String.append "/" f).

(** [ast.IsExported] on names that start with an ASCII letter. *)
Definition IsExported (n : string) : bool :=
  match n with
  | String c _ => (65 <=? Z.of_nat (nat_of_ascii c)) && (Z.of_nat (nat_of_ascii c) <=? 90)
  | EmptyString => false
  end.

Definition Format (s : string) : string := s.

(** A file whose source the parser rejects. *)
Definition badPath : string := "/work/proj/pkg/bad.go".

(** The analyzer after it has parsed the sample file. *)
Definition parsed : Analyzer.ASTProcessor :=
  snd (Analyzer.ParseFile ReadFile parser_ParseFile path Analyzer.NewASTProcessor).

(** The [token.File] of the sample file in that analyzer. *)
Definition tokenFile : token.File :=
  {| token.name := path; token.base := 1; token.size := 83;
     token.lines := [0; 10; 11; 22; 32; 38; 43; 45; 46; 58; 59] |}.

(** The analyzer after a failed attempt on [badPath]. *)
Definition afterBad : Analyzer.ASTProcessor :=
  snd (Analyzer.ParseFile ReadFile parser_ParseFile badPath parsed).

(** A log notification, a response, and a location as the server reports
    it. *)
Definition logMessage : Gopls.Msg :=
  [ ("jsonrpc", Gopls.JString "2.0");
    ("method", Gopls.JString "window/logMessage");
    ("params", Gopls.JObject
       [ ("type", Gopls.JNumber 3); ("message", Gopls.JString "starting") ]) ].

Definition response (id : Z) (result : Gopls.JSON) : Gopls.Msg :=
  [ ("jsonrpc", Gopls.JString "2.0"); ("id", Gopls.JNumber id); ("result", result) ].

Definition location (uri : string) (line character len : Z) : Gopls.JSON :=
  Gopls.JObject
    [ ("uri", Gopls.JString uri);
      ("range", Gopls.JObject
         [ ("start", Gopls.JObject
              [ ("line", Gopls.JNumber line); ("character", Gopls.JNumber character) ]);
           ("end", Gopls.JObject
              [ ("line", Gopls.JNumber line);
                ("character", Gopls.JNumber (character + len)) ]) ]) ].

(** The references to [G] a server may report: the two calls in the sample
    file, and one in a file of another module. *)
Definition referencesToG : Gopls.JSON :=
  Gopls.JArray
    [ location "file:///work/proj/pkg/a.go" 4 2 1;
      location "file:///home/go/pkg/mod/other/x.go" 9 1 1;
      location "file:///work/proj/pkg/a.go" 10 18 1 ].

(** An encoder for values whose strings need no escaping; fields are written
    in the order given. *)
Definition quoted (s : string) : string :=
  String (ascii_of_nat 34) (String.append s (String (ascii_of_nat 34) EmptyString)).

Fixpoint encode (v : Gopls.JSON) : string :=
  match v with
  | Gopls.JNull => "null"
  | Gopls.JBool true => "true"
  | Gopls.JBool false => "false"
  | Gopls.JNumber n => strconv.Itoa n
  | Gopls.JString s => quoted s
  | Gopls.JArray elems =>
      String.append "[" (String.append (strings.Join (List.map encode elems) ",") "]")
  | Gopls.JObject fields =>
      String.append "{"
        (String.append
           (strings.Join
              (List.map (fun kv => String.append (quoted (fst kv))
                                     (String.append ":" (encode (snd kv)))) fields)
              ",")
           "}")
  end.

Definition json_Marshal (m : Gopls.Msg) : string := encode (Gopls.JObject m).

(** A decoder that knows the messages of the sample exchange. *)
Definition serverMessages : list Gopls.Msg :=
  [ logMessage; response 1 (Gopls.JObject []); response 1 referencesToG ].

Definition json_Unmarshal (payload : string) : option Gopls.Msg :=
  List.find (fun m => String.eqb (json_Marshal m) payload) serverMessages.

(** A message as the server frames it. *)
Definition frame (m : Gopls.Msg) : string :=
  String.append (Gopls.header (String.length (json_Marshal m))) (json_Marshal m).

(** A client whose server sends a log notification before the response to
    the first request. *)
Definition talkative : Gopls.GoplsClient :=
  Gopls.started
    (String.append (frame logMessage) (frame (response 1 (Gopls.JObject []))))
    [] false.

(** A matcher whose server answers the first request with [referencesToG],
    after a log notification. *)
Definition matcher : Plsdo.Matcher :=
  {| Plsdo.refs := [];
     Plsdo.pls := Some (Gopls.started
                          (String.append (frame logMessage)
                             (frame (response 1 referencesToG)))
                          [] false) |}.

End Sample.

(** ** A file with nested calls

    A second file of the package,
<<
    package p

    var x = f(g(), 1)
>>
    with its tree. *)

Module Nested.

Definition src : string :=
  String.concat Sample.nl [ "package p"; ""; "var x = f(g(), 1)"; "" ].

Definition path : string := "/work/proj/pkg/b.go".

(** The calls [g()] and [f(g(), 1)]. *)
Definition inner (b : Z) : goast.Node :=
  Sample.node b goast.CallExpr 21 24 [ Sample.other b 21 22 [] ].

Definition outer (b : Z) : goast.Node :=
  Sample.node b goast.CallExpr 19 28
    [ Sample.other b 19 20 []; inner b; Sample.other b 26 27 [] ].

Definition file (b : Z) : goast.File :=
  {| goast.Doc := None;
     goast.Package := b + 0;
     goast.FileName := Sample.other b 8 9 [];
     goast.Decls :=
       [ Sample.other b 11 28                              (* GenDecl *)
           [ Sample.other b 15 28                          (* ValueSpec *)
               [ Sample.other b 15 16 []; outer b ] ] ] |}.

Definition ReadFile (p : string) : option string :=
  if String.eqb p path then Some src else None.

Definition parser_ParseFile (filename : string) (b : Z) (text : string)
    : list Z * option goast.File :=
  if String.eqb text src then (Sample.lineFeeds text 0, Some (file b))
  else (Sample.lineFeeds text 0, None).

Definition parsed : Analyzer.ASTProcessor :=
  snd (Analyzer.ParseFile ReadFile parser_ParseFile path Analyzer.NewASTProcessor).

End Nested.

(** ** A file with a line directive

    A generated file,
<<
    package p
    //line foo.y:100
    func F() {}
>>
    with its tree and the line info the scanner records for the directive:
    from offset 27 on, the file is [foo.y] of the same directory and the
    line is 100; the directive names no column. *)

Module Generated.

Definition src : string :=
  String.concat Sample.nl [ "package p"; "//line foo.y:100"; "func F() {}"; "" ].

Definition path : string := "/work/proj/pkg/y.go".

Definition file (b : Z) : goast.File :=
  {| goast.Doc := None;
     goast.Package := b + 0;
     goast.FileName := Sample.other b 8 9 [];
     goast.Decls :=
       [ Sample.node b (goast.FuncDecl {| goast.Name := "F"; goast.NamePos := b + 32;
                                          goast.Recv := None |}) 27 38
           [ Sample.other b 32 33 [];
             Sample.other b 27 35 [ Sample.other b 33 35 [] ];
             Sample.other b 36 38 [] ] ] |}.

Definition ReadFile (p : string) : option string :=
  if String.eqb p path then Some src else None.

Definition parser_ParseFile (filename : string) (b : Z) (text : string)
    : list Z * option goast.File :=
  if String.eqb text src then (Sample.lineFeeds text 0, Some (file b))
  else (Sample.lineFeeds text 0, None).

Definition parsed : Analyzer.ASTProcessor :=
  snd (Analyzer.ParseFile ReadFile parser_ParseFile path Analyzer.NewASTProcessor).

Definition tokenFile : token.File :=
  {| token.name := path; token.base := 1; token.size := 39;
     token.lines := [0; 10; 27] |}.

Definition infosOf (f : token.File) : list token.lineInfo :=
  if String.eqb (token.name f) path
  then [ token.mkLineInfo 27 "/work/proj/pkg/foo.y" 100 0 ]
  else [].

End Generated.


(** * Notions used in the statements *)

(** The [token.File] that [getPosition] resolves for a cached file. *)
Definition tokenFileOf (a : Analyzer.ASTProcessor) (filePath : string) : option token.File :=
  match Analyzer.fileMap a !! filePath with
  | Some f => token.FileOf (Analyzer.fset a) (goast.FilePos f)
  | None => None
  end.


(** What a call that misses the cache does. *)
Definition readAndParse
    (ReadFile : string -> option string)
    (parser_ParseFile : string -> Z -> string -> list Z * option goast.File)
    (filePath : string) (a : Analyzer.ASTProcessor)
    : Result unit * Analyzer.ASTProcessor :=
  match ReadFile filePath with
  | None => (Err (ErrReadFile filePath), a)
  | Some src =>
      let r := parser_ParseFile filePath (token.fs_base (Analyzer.fset a)) src in
      let fset' :=
        snd (token.AddFile (Analyzer.fset a) filePath
               (Z.of_nat (String.length src)) (fst r)) in
      match snd r with
      | None =>
          (Err (ErrParseFile filePath),
           {| Analyzer.fset := fset'; Analyzer.fileMap := Analyzer.fileMap a |})
      | Some file =>
          (Ok tt,
           {| Analyzer.fset := fset';
              Analyzer.fileMap := <[filePath := file]> (Analyzer.fileMap a) |})
      end
  end.


(** The result [GetEnclosingFunctionName] builds from the final state of its
    closure, and the state the closure starts from. *)
Definition enclosingResult (st : Analyzer.Enclosing) : string * string * string :=
  if negb (Analyzer.found st)
  then ("global scope", "", Analyzer.receiverName st)
  else (Analyzer.functionName st, Analyzer.receiverType st, Analyzer.receiverName st).

Definition enclosingInit : Analyzer.Enclosing :=
  {| Analyzer.functionName := ""; Analyzer.receiverType := "";
     Analyzer.receiverName := ""; Analyzer.found := false |}.


(** A position that is one of the bytes of a node: [End] is the position
    that follows the last byte. *)
Definition occupies (n : goast.Node) (position : token.Pos) : bool :=
  (goast.Pos n <=? position) && (position <? goast.End n).

(** Containment of a position in the span of a node, the node kinds the two
    queries look for, and the action of each closure on one node. *)
Definition spans (n : goast.Node) (position : token.Pos) : bool :=
  (goast.Pos n <=? position) && (position <=? goast.End n).

Definition isCall (n : goast.Node) : bool :=
  match goast.kind n with goast.CallExpr => true | _ => false end.


Definition callStep (position : token.Pos) (target : option goast.Node) (n : goast.Node)
    : option goast.Node :=
  if isCall n && spans n position then Some n else target.




(** A pattern [<receiverGlob>.<methodGlob>] whose receiver glob does not match
    the empty string. *)
Definition needsReceiver (pattern : string) : Prop :=
  exists structName methodName,
    strings.Cut pattern "." = Some (structName, methodName) /\
    glob.Glob structName "" = false.

(** An entry made for a reference that passed the workspace test of
    [FindFuncReferences]. *)
Definition entryOfLocalReference (pwd : string) (matches : list Gopls.Match)
    (e : Plsdo.matchEntry) : Prop :=
  exists match_,
    In match_ matches /\
    strings.HasPrefix (Gopls.Filename match_) pwd = true /\
    Plsdo.Filename e = Gopls.Filename match_ /\
    Plsdo.Line e = Gopls.StartLine match_.

Definition inWorkspace (pwd : string) (e : Plsdo.matchEntry) : Prop :=
  strings.HasPrefix (Plsdo.Filename e) pwd = true.

(** The order and the equivalence that a comparison function induces. *)
Definition cmpLe {E : Type} (cmp : E -> E -> Z) (a b : E) : Prop := cmp a b <= 0.

Definition cmpGe {E : Type} (cmp : E -> E -> Z) (a b : E) : Prop := cmp b a <= 0.

Definition cmpEq {E : Type} (cmp : E -> E -> Z) (a b : E) : bool := cmp a b =? 0.

(** Ordered by file path, then by line. *)
Definition entryLe (a b : Plsdo.matchEntry) : Prop :=
  String.compare (Plsdo.Filename a) (Plsdo.Filename b) = Lt \/
  (Plsdo.Filename a = Plsdo.Filename b /\ Plsdo.Line a <= Plsdo.Line b).

(** The entries of one file and line. *)
Definition sameKey (f : string) (ln : Z) (e : Plsdo.matchEntry) : bool :=
  String.eqb (Plsdo.Filename e) f && (Plsdo.Line e =? ln).

(** An entry with the given file and line, and a call of the given text. *)
Definition entry (f : string) (ln : Z) (call : string) : Plsdo.matchEntry :=
  {| Plsdo.Filename := f; Plsdo.Line := ln; Plsdo.EncRecvType := "";
     Plsdo.EncRecvName := ""; Plsdo.EncFuncName := "main";
     Plsdo.OrgSource := call; Plsdo.PrettySource := call |}.

(** Decimal digits, and strings made of them. *)
Definition isDigit (c : ascii) : bool :=
  match strconv.digit c with Some _ => true | None => false end.

Fixpoint numeral (s : string) : bool :=
  match s with
  | EmptyString => true
  | String c s' => isDigit c && numeral s'
  end.

(** Bytes that [TrimSpace] keeps wherever they stand: ASCII and not white
    space. *)
Definition plain (c : ascii) : bool :=
  negb (strings.isAsciiSpace c) && (nat_of_ascii c <? 128)%nat.

Fixpoint asciiSpaces (s : string) : bool :=
  match s with
  | EmptyString => true
  | String c s' => strings.isAsciiSpace c && asciiSpaces s'
  end.

Definition startsPlain (s : string) : bool :=
  match s with String c _ => plain c | EmptyString => false end.

(** The bytes [sendMessage] writes for a payload: the header and the
    payload. *)
Definition packet (data : string) : string :=
  String.append (Gopls.header (String.length data)) data.

(** The client once [sendMessage] has written a message. *)
Definition sent (json_Marshal : Gopls.Msg -> string) (msg : Gopls.Msg)
    (c : Gopls.GoplsClient) : Gopls.GoplsClient :=
  Gopls.set_stdin (String.append (Gopls.stdin c) (packet (json_Marshal msg)))
    (List.tl (Gopls.writeFails c)) c.

(** A server that sends a log notification and then answers request 1 with
    the references to [G], and what [FindReferences] returns from it. *)
Definition answering : Gopls.GoplsClient :=
  Gopls.started
    (String.append (Sample.frame Sample.logMessage)
       (Sample.frame (Sample.response 1 Sample.referencesToG)))
    [] false.




(** A server that answers the shutdown request, and the client after
    [Close]. *)
Definition closing : Gopls.GoplsClient :=
  Gopls.started (Sample.frame (Sample.response 1 (Gopls.JObject []))) [] false.

Definition closed : Gopls.GoplsClient :=
  Gopls.close_stdin
    (sent Sample.json_Marshal Gopls.exitNotification
       (Gopls.set_stdout EmptyString
          (sent Sample.json_Marshal (Gopls.shutdownRequest 1)
             (Gopls.set_seq 1 closing)))).

(** A server that has ended without a word. *)
Definition silent : Gopls.GoplsClient := Gopls.started EmptyString [] false.


(** How an analyzer relates to the analyzer an operation leaves: the cache
    has kept its entries, and positions that lay in a file of the file set
    still resolve as they did. *)
Definition keepsCache (a a' : Analyzer.ASTProcessor) : Prop :=
  forall filePath file,
    Analyzer.fileMap a !! filePath = Some file ->
    Analyzer.fileMap a' !! filePath = Some file.

Definition keepsPositions (a a' : Analyzer.ASTProcessor) : Prop :=
  forall p tf,
    token.FileOf (Analyzer.fset a) p = Some tf ->
    token.FileOf (Analyzer.fset a') p = Some tf /\
    token.PositionOf (Analyzer.fset a') p = token.PositionOf (Analyzer.fset a) p.

Definition grows (a a' : Analyzer.ASTProcessor) : Prop :=
  keepsCache a a' /\
  (exists more,
     token.files (Analyzer.fset a') = token.files (Analyzer.fset a) ++ more) /\
  (token.wf (Analyzer.fset a) -> token.wf (Analyzer.fset a')).

(** What identifies a definition apart from its position, and the
    definition a top-level declaration gives rise to under
    [FindFuncDefinitions]. *)
Definition signature (m : Analyzer.Match) : string * string * string * string :=
  (Analyzer.Pkg m, Analyzer.RecvType m, Analyzer.RecvName m, Analyzer.FuncName m).

Definition definitionIn (IsExported : string -> bool) (pkgPath : string)
    (funcPattern : list string) (decl : goast.Node)
    : option (string * string * string * string) :=
  match goast.kind decl with
  | goast.FuncDecl fd =>
      if IsExported (goast.Name fd) && Analyzer.isFuncMatch fd funcPattern
      then Some (pkgPath, fst (Analyzer.extractRecvType fd),
                 snd (Analyzer.extractRecvType fd), goast.Name fd)
      else None
  | _ => None
  end.

(** The top-level declarations of a cached file. *)
Definition declsOf (a : Analyzer.ASTProcessor) (filePath : string) : list goast.Node :=
  match Analyzer.fileMap a !! filePath with
  | Some file => goast.Decls file
  | None => []
  end.

(** A package made of the sample file and of a file the parser rejects. *)
Definition importWithBad (p : string) : option (string * list string) :=
  Some ("/work/proj/pkg", ["a.go"; "bad.go"; "c.go"]).

(** The line table of a file as [AddFile] and the scanner leave it: it
    starts with offset [0] and holds no negative offset. *)
Definition linesOk (f : token.File) : Prop :=
  List.hd_error (token.lines f) = Some 0 /\ Forall (fun l => 0 <= l) (token.lines f).

(** The key the result entries are ordered by. *)
Definition entryKey (e : Plsdo.matchEntry) : string * Z :=
  (Plsdo.Filename e, Plsdo.Line e).

(** The packets [FindFuncReferences] writes for a list of definitions, on a
    client whose sequence number is [seq]: one references request for each,
    with consecutive ids. *)
Fixpoint requestsFor (json_Marshal : Gopls.Msg -> string) (seq : Z)
    (defs : list Analyzer.Match) : string :=
  match defs with
  | [] => EmptyString
  | def :: rest =>
      let id := GoInt.add seq 1 in
      String.append
        (packet (json_Marshal
                   (Gopls.referencesRequest id (Analyzer.Filename def)
                      (Analyzer.OffsetLine def) (Analyzer.OffsetCol def))))
        (requestsFor json_Marshal id rest)
  end.


(** The file headers among the chunks [PrettyPrint] writes. *)
Definition isFileHeader (c : Plsdo.Chunk) : bool :=
  match c with Plsdo.FileHeader _ _ => true | _ => false end.

(** The distinct file names of a result set, the empty name apart. *)
Definition filesOf (refs : list Plsdo.matchEntry) : gset string :=
  list_to_set (List.map Plsdo.Filename refs) ∖ {[ EmptyString ]}.

(** A writer that accepts [k] writes and fails at the next. *)
Definition failsAfter (k : nat) (out : list string) (rest : list bool) : io.Writer :=
  {| io.written := out; io.failing := List.repeat false k ++ true :: rest |}.

(** Three results, as they are found. *)
Definition found3 : list Plsdo.matchEntry :=
  [ entry "b.go" 1 "f()"; entry "a.go" 5 "g()"; entry "a.go" 2 "h()" ].


(** * Properties *)

(** ** Integer arithmetic *)

Lemma GoInt_wrap_id z : GoInt.in_range z -> GoInt.wrap z = z.
Proof.
  unfold GoInt.in_range, GoInt.min_int, GoInt.max_int, GoInt.wrap. intros H.
  rewrite Z.mod_small; lia.
Qed.


(** ** The parsed-file cache *)

Section ParseFileFacts.

Variable ReadFile : string -> option string.
Variable parser_ParseFile : string -> Z -> string -> list Z * option goast.File.

Lemma ParseFile_hit filePath a file :
  Analyzer.fileMap a !! filePath = Some file ->
  Analyzer.ParseFile ReadFile parser_ParseFile filePath a = (Ok tt, a).
Proof. intros H. unfold Analyzer.ParseFile. rewrite H. reflexivity. Qed.

Lemma ParseFile_miss filePath a :
  Analyzer.fileMap a !! filePath = None ->
  Analyzer.ParseFile ReadFile parser_ParseFile filePath a = readAndParse ReadFile parser_ParseFile filePath a.
Proof.
  intros H. unfold Analyzer.ParseFile, readAndParse. rewrite H.
  destruct (ReadFile filePath) as [src|]; [|reflexivity].
  destruct (parser_ParseFile _ _ _) as [added parsed]. simpl.
  destruct parsed; reflexivity.
Qed.

Lemma readAndParse_ok filePath a a1 :
  readAndParse ReadFile parser_ParseFile filePath a = (Ok tt, a1) ->
  exists file, Analyzer.fileMap a1 !! filePath = Some file.
Proof.
  unfold readAndParse. destruct (ReadFile filePath) as [src|]; [|discriminate].
  cbv zeta. destruct (snd _) as [file|]; [|discriminate].
  intros [= <-]. exists file. simpl. apply lookup_insert_eq.
Qed.

Lemma readAndParse_err filePath a e a1 :
  readAndParse ReadFile parser_ParseFile filePath a = (Err e, a1) ->
  Analyzer.fileMap a1 = Analyzer.fileMap a.
Proof.
  unfold readAndParse. destruct (ReadFile filePath) as [src|].
  - cbv zeta. destruct (snd _) as [file|]; [discriminate|].
    intros [= _ <-]. reflexivity.
  - intros [= _ <-]. reflexivity.
Qed.

Lemma ParseFile_ok filePath a a1 :
  Analyzer.ParseFile ReadFile parser_ParseFile filePath a = (Ok tt, a1) ->
  exists file, Analyzer.fileMap a1 !! filePath = Some file.
Proof.
  destruct (Analyzer.fileMap a !! filePath) as [file|] eqn:E.
  - rewrite (ParseFile_hit _ _ _ E). intros [= <-]. eauto.
  - rewrite (ParseFile_miss _ _ E). apply readAndParse_ok.
Qed.

Lemma ParseFile_err filePath a e a1 :
  Analyzer.ParseFile ReadFile parser_ParseFile filePath a = (Err e, a1) ->
  Analyzer.fileMap a !! filePath = None /\ Analyzer.fileMap a1 = Analyzer.fileMap a.
Proof.
  destruct (Analyzer.fileMap a !! filePath) as [file|] eqn:E.
  - rewrite (ParseFile_hit _ _ _ E). discriminate.
  - rewrite (ParseFile_miss _ _ E). intros H. split; [reflexivity|].
    eapply readAndParse_err, H.
Qed.

End ParseFileFacts.

(** C8. When [ParseFile] has succeeded on a path, the path has a cache entry,
    and a second [ParseFile] on the same path succeeds and leaves the
    analyzer, its cache entry included, exactly as the first call left it,
    whatever the file system and the parser would answer by then: the file is
    neither read nor parsed again. *)
Theorem ParseFile_again_is_cached
    (ReadFile : string -> option string)
    (parser_ParseFile : string -> Z -> string -> list Z * option goast.File)
    (filePath : string) (a a1 : Analyzer.ASTProcessor) :
  Analyzer.ParseFile ReadFile parser_ParseFile filePath a = (Ok tt, a1) ->
  (exists file, Analyzer.fileMap a1 !! filePath = Some file) /\
  forall ReadFile' parser_ParseFile',
    Analyzer.ParseFile ReadFile' parser_ParseFile' filePath a1 = (Ok tt, a1).
Proof.
  intros H. destruct (ParseFile_ok _ _ _ _ _ H) as [file Hfile].
  split; [eauto|]. intros R' P'. eapply ParseFile_hit, Hfile.
Qed.

Lemma ParseFile_again_is_cached_witness :
  Analyzer.ParseFile Sample.ReadFile Sample.parser_ParseFile Sample.path
    Analyzer.NewASTProcessor = (Ok tt, Sample.parsed) /\
  ((exists file, Analyzer.fileMap Sample.parsed !! Sample.path = Some file) /\
   forall ReadFile' parser_ParseFile',
     Analyzer.ParseFile ReadFile' parser_ParseFile' Sample.path Sample.parsed
     = (Ok tt, Sample.parsed)).
Proof.
  split; [reflexivity|].
  apply (ParseFile_again_is_cached Sample.ReadFile Sample.parser_ParseFile
           Sample.path Analyzer.NewASTProcessor Sample.parsed).
  reflexivity.
Defined.

(** C9. When [ParseFile] fails, the cache [fileMap] is as it was before the
    call and has no entry for the path, and the next [ParseFile] on the path
    reads and parses again: it fails on an unreadable file, fails on a
    malformed source, and otherwise succeeds and records the tree. *)
Theorem ParseFile_failure_not_cached
    (ReadFile : string -> option string)
    (parser_ParseFile : string -> Z -> string -> list Z * option goast.File)
    (filePath : string) (a a1 : Analyzer.ASTProcessor) (e : Error) :
  Analyzer.ParseFile ReadFile parser_ParseFile filePath a = (Err e, a1) ->
  Analyzer.fileMap a1 = Analyzer.fileMap a /\
  Analyzer.fileMap a1 !! filePath = None /\
  forall ReadFile' parser_ParseFile',
    Analyzer.ParseFile ReadFile' parser_ParseFile' filePath a1
    = match ReadFile' filePath with
      | None => (Err (ErrReadFile filePath), a1)
      | Some src =>
          let r := parser_ParseFile' filePath (token.fs_base (Analyzer.fset a1)) src in
          let fset' :=
            snd (token.AddFile (Analyzer.fset a1) filePath
                   (Z.of_nat (String.length src)) (fst r)) in
          match snd r with
          | None =>
              (Err (ErrParseFile filePath),
               {| Analyzer.fset := fset'; Analyzer.fileMap := Analyzer.fileMap a1 |})
          | Some file =>
              (Ok tt,
               {| Analyzer.fset := fset';
                  Analyzer.fileMap := <[filePath := file]> (Analyzer.fileMap a1) |})
          end
      end.
Proof.
  intros H. destruct (ParseFile_err _ _ _ _ _ _ H) as [Hnone Hsame].
  split; [exact Hsame|]. split; [rewrite Hsame; exact Hnone|].
  intros R' P'. rewrite ParseFile_miss by (rewrite Hsame; exact Hnone).
  reflexivity.
Qed.

Lemma ParseFile_failure_not_cached_witness :
  Analyzer.ParseFile Sample.ReadFile Sample.parser_ParseFile Sample.badPath Sample.parsed
  = (Err (ErrParseFile Sample.badPath), Sample.afterBad) /\
  Analyzer.fileMap Sample.afterBad = Analyzer.fileMap Sample.parsed /\
  Analyzer.fileMap Sample.afterBad !! Sample.badPath = None /\
  fst (Analyzer.ParseFile Sample.ReadFile Sample.parser_ParseFile Sample.badPath
         Sample.afterBad) = Err (ErrParseFile Sample.badPath).
Proof.
  assert (Hr : Analyzer.ParseFile Sample.ReadFile Sample.parser_ParseFile Sample.badPath
                 Sample.parsed = (Err (ErrParseFile Sample.badPath), Sample.afterBad))
    by reflexivity.
  split; [exact Hr|].
  destruct (ParseFile_failure_not_cached Sample.ReadFile Sample.parser_ParseFile
              Sample.badPath Sample.parsed Sample.afterBad (ErrParseFile Sample.badPath) Hr)
    as (H1 & H2 & H3).
  split; [exact H1|]. split; [exact H2|].
  rewrite H3. reflexivity.
Defined.

(** ** Positions *)

Section PositionFacts.

Variable ReadFile : string -> option string.
Variable parser_ParseFile : string -> Z -> string -> list Z * option goast.File.

Lemma LineStart_in_range tf line :
  1 <= line <= token.LineCount tf ->
  token.LineStart tf line
  = Some (token.base tf + List.nth (Z.to_nat (line - 1)) (token.lines tf) 0).
Proof.
  intros H. unfold token.LineStart.
  destruct (line <? 1) eqn:E1; [lia|].
  destruct (token.LineCount tf <? line) eqn:E2; [lia|]. reflexivity.
Qed.

Lemma getPosition_in_range filePath line character a tf :
  tokenFileOf a filePath = Some tf ->
  1 <= line <= token.LineCount tf ->
  Analyzer.getPosition filePath line character a
  = (Ok (GoInt.add (token.base tf + List.nth (Z.to_nat (line - 1)) (token.lines tf) 0)
           (GoInt.sub character 1)), a).
Proof.
  unfold tokenFileOf, Analyzer.getPosition. intros Htf Hline.
  destruct (Analyzer.fileMap a !! filePath) as [f|]; [|discriminate].
  rewrite Htf.
  destruct (line <? 1) eqn:E1; [lia|].
  destruct (token.LineCount tf <? line) eqn:E2; [lia|]. simpl.
  rewrite LineStart_in_range by lia. reflexivity.
Qed.

Lemma getPosition_out_of_range filePath line character a file :
  Analyzer.fileMap a !! filePath = Some file ->
  (line < 1 \/
   match tokenFileOf a filePath with
   | Some tf => token.LineCount tf < line
   | None => True
   end) ->
  Analyzer.getPosition filePath line character a = (Ok token.NoPos, a).
Proof.
  unfold tokenFileOf, Analyzer.getPosition. intros Hf H. rewrite Hf in *.
  destruct (token.FileOf _ _) as [tf|]; [|reflexivity].
  destruct (line <? 1) eqn:E1; [reflexivity|].
  destruct (token.LineCount tf <? line) eqn:E2; [reflexivity|]. lia.
Qed.

Lemma ExtractFullCall_parsed filePath line character a a1 file :
  Analyzer.ParseFile ReadFile parser_ParseFile filePath a = (Ok tt, a1) ->
  Analyzer.fileMap a1 !! filePath = Some file ->
  Analyzer.ExtractFullCall ReadFile parser_ParseFile filePath line character a
  = match ReadFile filePath with
    | None => (Err (ErrReadFile filePath), a1)
    | Some src =>
        match Analyzer.getPosition filePath line character a1 with
        | (Err e, a2) => (Err e, a2)
        | (Ok position, a2) =>
            if position =? token.NoPos then (Err ErrInvalidPosition, a2)
            else
              match goast.Inspect (Analyzer.callVisit position) (goast.FileNode file) None with
              | None => (Err ErrNoCallExpr, a2)
              | Some targetCallExpr =>
                  let startOffset :=
                    token.Offset (token.PositionOf (Analyzer.fset a1) (goast.Pos targetCallExpr)) in
                  let endOffset :=
                    token.Offset (token.PositionOf (Analyzer.fset a1) (goast.End targetCallExpr)) in
                  if (startOffset <? 0)
                     || (Z.of_nat (String.length src) <? endOffset)
                     || (endOffset <=? startOffset)
                  then (Err ErrInvalidCallPositions, a2)
                  else (Ok (String.substring (Z.to_nat startOffset)
                              (Z.to_nat (endOffset - startOffset)) src), a2)
              end
        end
    end.
Proof.
  intros HP Hf. unfold Analyzer.ExtractFullCall, bind, get, fail, ret.
  rewrite HP, Hf.
  destruct (ReadFile filePath) as [src|]; [|reflexivity].
  destruct (Analyzer.getPosition filePath line character a1) as [[position|e] a2];
    [|reflexivity].
  destruct (position =? token.NoPos); [reflexivity|].
  destruct (goast.Inspect _ _ _); [|reflexivity].
  cbv zeta. destruct (_ || _); reflexivity.
Qed.

Lemma GetEnclosingFunctionName_parsed filePath line character a a1 file :
  Analyzer.ParseFile ReadFile parser_ParseFile filePath a = (Ok tt, a1) ->
  Analyzer.fileMap a1 !! filePath = Some file ->
  Analyzer.GetEnclosingFunctionName ReadFile parser_ParseFile filePath line character a
  = match Analyzer.getPosition filePath line character a1 with
    | (Err e, a2) => (Err e, a2)
    | (Ok position, a2) =>
        if position =? token.NoPos then (Err ErrInvalidPosition, a2)
        else (Ok (enclosingResult
                    (goast.Inspect (Analyzer.enclosingVisit position)
                       (goast.FileNode file) enclosingInit)), a2)
    end.
Proof.
  intros HP Hf. unfold Analyzer.GetEnclosingFunctionName, bind, get, fail, ret.
  rewrite HP, Hf.
  destruct (Analyzer.getPosition filePath line character a1) as [[position|e] a2];
    [|reflexivity].
  destruct (position =? token.NoPos); [reflexivity|].
  unfold enclosingResult, enclosingInit. destruct (negb _); reflexivity.
Qed.

End PositionFacts.

(** C7. On a file that has been parsed and can still be read, a positional
    query for line 0, a negative line, or a line above the file's line count
    fails with the position error: both [ExtractFullCall] and
    [GetEnclosingFunctionName] return [ErrInvalidPosition], which is neither a
    panic nor a zero-value result. *)
Theorem line_out_of_range_is_position_error
    (ReadFile : string -> option string)
    (parser_ParseFile : string -> Z -> string -> list Z * option goast.File)
    (filePath : string) (line character : Z) (a a1 : Analyzer.ASTProcessor) :
  Analyzer.ParseFile ReadFile parser_ParseFile filePath a = (Ok tt, a1) ->
  is_Some (ReadFile filePath) ->
  (line < 1 \/
   match tokenFileOf a1 filePath with
   | Some tf => token.LineCount tf < line
   | None => True
   end) ->
  Analyzer.ExtractFullCall ReadFile parser_ParseFile filePath line character a
  = (Err ErrInvalidPosition, a1) /\
  Analyzer.GetEnclosingFunctionName ReadFile parser_ParseFile filePath line character a
  = (Err ErrInvalidPosition, a1).
Proof.
  intros HP [src Hsrc] Hline.
  destruct (ParseFile_ok _ _ _ _ _ HP) as [file Hfile].
  pose proof (getPosition_out_of_range filePath line character a1 file Hfile Hline) as Hpos.
  split.
  - rewrite (ExtractFullCall_parsed _ _ _ _ _ _ _ _ HP Hfile), Hsrc, Hpos. reflexivity.
  - rewrite (GetEnclosingFunctionName_parsed _ _ _ _ _ _ _ _ HP Hfile), Hpos. reflexivity.
Qed.

Lemma line_out_of_range_is_position_error_witness :
  Analyzer.ParseFile Sample.ReadFile Sample.parser_ParseFile Sample.path
    Analyzer.NewASTProcessor = (Ok tt, Sample.parsed) /\
  is_Some (Sample.ReadFile Sample.path) /\
  tokenFileOf Sample.parsed Sample.path = Some Sample.tokenFile /\
  token.LineCount Sample.tokenFile < 12 /\
  Analyzer.ExtractFullCall Sample.ReadFile Sample.parser_ParseFile Sample.path 12 1
    Analyzer.NewASTProcessor = (Err ErrInvalidPosition, Sample.parsed) /\
  Analyzer.GetEnclosingFunctionName Sample.ReadFile Sample.parser_ParseFile Sample.path 12 1
    Analyzer.NewASTProcessor = (Err ErrInvalidPosition, Sample.parsed).
Proof.
  assert (H1 : Analyzer.ParseFile Sample.ReadFile Sample.parser_ParseFile Sample.path
                 Analyzer.NewASTProcessor = (Ok tt, Sample.parsed)) by reflexivity.
  assert (H2 : is_Some (Sample.ReadFile Sample.path)) by (eexists; reflexivity).
  assert (H3 : 12 < 1 \/
               match tokenFileOf Sample.parsed Sample.path with
               | Some tf => token.LineCount tf < 12
               | None => True
               end) by (right; vm_compute; reflexivity).
  split; [exact H1|]. split; [exact H2|]. split; [reflexivity|].
  split; [reflexivity|].
  exact (line_out_of_range_is_position_error Sample.ReadFile Sample.parser_ParseFile
           Sample.path 12 1 Analyzer.NewASTProcessor Sample.parsed H1 H2 H3).
Defined.

(** C10, as the code has it.  On a parsed file and a line within its line
    range, [getPosition] does not look at the column: the position is the
    start of the line plus [character - 1] in Go's integer arithmetic, which
    is the plain sum when nothing overflows.  Every column for which that
    position differs from [token.NoPos] passes the position check of both
    queries: [GetEnclosingFunctionName] succeeds, and [ExtractFullCall] does
    not fail with the position error. *)
Theorem column_checked_only_against_NoPos
    (ReadFile : string -> option string)
    (parser_ParseFile : string -> Z -> string -> list Z * option goast.File)
    (filePath : string) (line character : Z) (a a1 : Analyzer.ASTProcessor)
    (tf : token.File) :
  Analyzer.ParseFile ReadFile parser_ParseFile filePath a = (Ok tt, a1) ->
  tokenFileOf a1 filePath = Some tf ->
  1 <= line <= token.LineCount tf ->
  exists lineStart,
    token.LineStart tf line = Some lineStart /\
    Analyzer.getPosition filePath line character a1
    = (Ok (GoInt.add lineStart (GoInt.sub character 1)), a1) /\
    (GoInt.in_range (character - 1) ->
     GoInt.in_range (lineStart + (character - 1)) ->
     GoInt.add lineStart (GoInt.sub character 1) = lineStart + (character - 1)) /\
    (GoInt.add lineStart (GoInt.sub character 1) <> token.NoPos ->
     (exists r,
        Analyzer.GetEnclosingFunctionName ReadFile parser_ParseFile filePath line
          character a = (Ok r, a1)) /\
     fst (Analyzer.ExtractFullCall ReadFile parser_ParseFile filePath line character a)
     <> Err ErrInvalidPosition).
Proof.
  intros HP Htf Hline.
  destruct (ParseFile_ok _ _ _ _ _ HP) as [file Hfile].
  eexists. split; [apply LineStart_in_range, Hline|].
  pose proof (getPosition_in_range filePath line character a1 tf Htf Hline) as Hpos.
  split; [exact Hpos|]. split.
  - intros H1 H2. unfold GoInt.add, GoInt.sub.
    rewrite (GoInt_wrap_id (character - 1)) by exact H1.
    apply GoInt_wrap_id, H2.
  - intros Hne. apply Z.eqb_neq in Hne. split.
    + rewrite (GetEnclosingFunctionName_parsed _ _ _ _ _ _ _ _ HP Hfile), Hpos, Hne.
      eauto.
    + rewrite (ExtractFullCall_parsed _ _ _ _ _ _ _ _ HP Hfile), Hpos, Hne.
      destruct (ReadFile filePath); [|simpl; discriminate].
      destruct (goast.Inspect _ _ _); [|simpl; discriminate].
      cbv zeta. destruct (_ || _); simpl; discriminate.
Qed.

Lemma column_checked_only_against_NoPos_witness :
  Analyzer.ParseFile Sample.ReadFile Sample.parser_ParseFile Sample.path
    Analyzer.NewASTProcessor = (Ok tt, Sample.parsed) /\
  tokenFileOf Sample.parsed Sample.path = Some Sample.tokenFile /\
  1 <= 5 <= token.LineCount Sample.tokenFile /\
  token.LineStart Sample.tokenFile 5 = Some 33 /\
  Analyzer.getPosition Sample.path 5 40 Sample.parsed = (Ok 72, Sample.parsed) /\
  Analyzer.getPosition Sample.path 5 (-3) Sample.parsed = (Ok 29, Sample.parsed).
Proof.
  assert (H1 : Analyzer.ParseFile Sample.ReadFile Sample.parser_ParseFile Sample.path
                 Analyzer.NewASTProcessor = (Ok tt, Sample.parsed)) by reflexivity.
  assert (H2 : tokenFileOf Sample.parsed Sample.path = Some Sample.tokenFile)
    by reflexivity.
  assert (H3 : 1 <= 5 <= token.LineCount Sample.tokenFile)
    by (vm_compute; split; discriminate).
  split; [exact H1|]. split; [exact H2|]. split; [exact H3|]. split; [reflexivity|].
  split.
  - destruct (column_checked_only_against_NoPos Sample.ReadFile Sample.parser_ParseFile
                Sample.path 5 40 Analyzer.NewASTProcessor Sample.parsed Sample.tokenFile
                H1 H2 H3) as (ls & Hls & Hpos & _).
    injection Hls as <-. exact Hpos.
  - destruct (column_checked_only_against_NoPos Sample.ReadFile Sample.parser_ParseFile
                Sample.path 5 (-3) Analyzer.NewASTProcessor Sample.parsed Sample.tokenFile
                H1 H2 H3) as (ls & Hls & Hpos & _).
    injection Hls as <-. exact Hpos.
Defined.

(** C10 as stated fails: line 1 of the first file of a file set starts at
    position 1, so column 0 of line 1 is position 0, which is [token.NoPos],
    and both queries answer with the position error. *)
Lemma column_zero_of_first_line_rejected :
  tokenFileOf Sample.parsed Sample.path = Some Sample.tokenFile /\
  1 <= 1 <= token.LineCount Sample.tokenFile /\
  fst (Analyzer.ExtractFullCall Sample.ReadFile Sample.parser_ParseFile Sample.path 1 0
         Analyzer.NewASTProcessor) = Err ErrInvalidPosition /\
  fst (Analyzer.GetEnclosingFunctionName Sample.ReadFile Sample.parser_ParseFile
         Sample.path 1 0 Analyzer.NewASTProcessor) = Err ErrInvalidPosition.
Proof.
  split; [reflexivity|]. split; [vm_compute; split; discriminate|].
  split; reflexivity.
Qed.

(** ** Traversal *)

(** Induction on a tree, with the hypothesis for every child. *)
Lemma Node_rect_children (P : goast.Node -> Prop) :
  (forall k p e ch, Forall P ch -> P (goast.mkNode k p e ch)) ->
  forall n, P n.
Proof.
  intros step. fix IH 1. intros [k p e ch]. apply step.
  induction ch as [|c ch IHch]; constructor; [apply IH | exact IHch].
Qed.

Lemma preorder_eq n :
  goast.preorder n = n :: goast.preorder_list (goast.children n).
Proof.
  destruct n as [k p e ch]. simpl. f_equal.
  unfold goast.preorder_list.
  induction ch as [|c ch IH]; simpl; [reflexivity|]. rewrite IH. reflexivity.
Qed.

Lemma preorder_list_cons c ch :
  goast.preorder_list (c :: ch) = goast.preorder c ++ goast.preorder_list ch.
Proof. reflexivity. Qed.

Section InspectFacts.
Context {S : Type} (f : option goast.Node -> S -> bool * S).

Lemma Inspect_eq n s :
  goast.Inspect f n s
  = (if fst (f (Some n) s)
     then snd (f None (goast.walkList f (goast.children n) (snd (f (Some n) s))))
     else snd (f (Some n) s)).
Proof.
  destruct n as [k p e ch]. simpl.
  destruct (f (Some (goast.mkNode k p e ch)) s) as [descend s1]. simpl.
  destruct descend; [|reflexivity].
  replace (goast.walkList f ch s1) with
    ((fix walkList (l : list goast.Node) (s0 : S) {struct l} : S :=
        match l with
        | [] => s0
        | c :: rest => walkList rest (goast.Inspect f c s0)
        end) ch s1); [reflexivity|].
  unfold goast.walkList. revert s1.
  induction ch as [|c ch IH]; intros s1; simpl; [reflexivity|]. apply IH.
Qed.

Lemma walkList_cons c ch s :
  goast.walkList f (c :: ch) s = goast.walkList f ch (goast.Inspect f c s).
Proof. reflexivity. Qed.

(** A closure that (1) leaves its state alone when called with nil and (2)
    behaves on a subtree it does not enter as if it had entered it, acts on
    the nodes one by one in traversal order. *)
Variable step : S -> goast.Node -> S.
Hypothesis Hnode : forall n s, snd (f (Some n) s) = step s n.
Hypothesis Hnil : forall s, snd (f None s) = s.
Hypothesis Hskip : forall n s,
  fst (f (Some n) s) = false ->
  fold_left step (goast.preorder_list (goast.children n)) (step s n) = step s n.

Lemma Inspect_fold n : forall s,
  goast.Inspect f n s = fold_left step (goast.preorder n) s.
Proof.
  induction n as [k p e ch IH] using Node_rect_children. intros s.
  rewrite Inspect_eq, preorder_eq. simpl fold_left.
  destruct (fst (f (Some (goast.mkNode k p e ch)) s)) eqn:E.
  - rewrite Hnil, Hnode. simpl goast.children.
    generalize (step s (goast.mkNode k p e ch)). clear E.
    induction IH as [|c ch Hc _ IHch]; intros s1; [reflexivity|].
    rewrite walkList_cons, preorder_list_cons, fold_left_app, Hc. apply IHch.
  - rewrite Hnode. symmetry. apply (Hskip (goast.mkNode k p e ch) s E).
Qed.

End InspectFacts.

Lemma callVisit_fold position n target :
  goast.Inspect (Analyzer.callVisit position) n target
  = fold_left (callStep position) (goast.preorder n) target.
Proof.
  apply Inspect_fold.
  - intros m s. unfold Analyzer.callVisit, callStep, isCall, spans.
    destruct (goast.kind m); try reflexivity.
    destruct (_ && _); reflexivity.
  - reflexivity.
  - intros m s. unfold Analyzer.callVisit.
    destruct (goast.kind m); try discriminate.
    destruct (_ && _); discriminate.
Qed.

Lemma callStep_none position l target :
  (forall D, In D l -> isCall D = true -> spans D position = false) ->
  fold_left (callStep position) l target = target.
Proof.
  revert target. induction l as [|n l IH]; intros target H; [reflexivity|].
  simpl. unfold callStep at 2.
  destruct (isCall n) eqn:E.
  - rewrite (H n) by (simpl; auto). simpl. apply IH. intros D HD. apply H. simpl; auto.
  - simpl. apply IH. intros D HD. apply H. simpl; auto.
Qed.




(** ** Enclosing function *)




(** ** File sets *)

Lemma ranges_from_lower fl : forall lo hi g,
  token.ranges_from lo fl hi -> In g fl -> lo <= token.base g.
Proof.
  induction fl as [|f fl IH]; intros lo hi g H Hin; [destruct Hin|].
  destruct H as (H1 & H2 & H3). destruct Hin as [<-|Hin]; [exact H1|].
  specialize (IH _ _ g H3 Hin). lia.
Qed.

Lemma ranges_from_app fl : forall lo hi f,
  token.ranges_from lo fl hi -> token.base f = hi -> 0 <= token.size f ->
  token.ranges_from lo (fl ++ [f]) (hi + token.size f + 1).
Proof.
  induction fl as [|g fl IH]; intros lo hi f H Hb Hs; simpl in *.
  - repeat split; lia.
  - destruct H as (H1 & H2 & H3). repeat split; [exact H1|exact H2|].
    apply IH; assumption.
Qed.

Lemma searchFiles_above fl x :
  (forall g, In g fl -> x < token.base g) -> token.searchFiles fl x = None.
Proof.
  induction fl as [|f fl IH]; intros H; [reflexivity|]. simpl.
  rewrite IH by (intros g Hg; apply H; simpl; auto).
  destruct (token.base f <=? x) eqn:E; [|reflexivity].
  specialize (H f (or_introl eq_refl)). lia.
Qed.

Lemma searchFiles_In fl x f :
  token.searchFiles fl x = Some f -> In f fl.
Proof.
  induction fl as [|g fl IH]; [discriminate|]. simpl.
  destruct (token.searchFiles fl x) as [h|].
  - intros [= <-]. right. apply IH. reflexivity.
  - destruct (token.base g <=? x); [|discriminate]. intros [= <-]. left. reflexivity.
Qed.

Lemma searchFiles_owner fl : forall lo hi tf x,
  token.ranges_from lo fl hi -> In tf fl ->
  token.base tf <= x <= token.base tf + token.size tf ->
  token.searchFiles fl x = Some tf.
Proof.
  induction fl as [|f fl IH]; intros lo hi tf x H Hin Hx; [destruct Hin|].
  destruct H as (H1 & H2 & H3). simpl. destruct Hin as [->|Hin].
  - rewrite searchFiles_above.
    + destruct (token.base tf <=? x) eqn:E; [reflexivity|lia].
    + intros g Hg. pose proof (ranges_from_lower _ _ _ _ H3 Hg). lia.
  - rewrite (IH _ _ tf x H3 Hin Hx). reflexivity.
Qed.

Lemma FileOf_owner s tf p :
  token.wf s -> In tf (token.files s) ->
  token.base tf <= p <= token.base tf + token.size tf ->
  token.FileOf s p = Some tf.
Proof.
  unfold token.wf, token.FileOf. intros Hwf Hin Hp.
  pose proof (ranges_from_lower _ _ _ _ Hwf Hin) as Hlo.
  destruct (p =? token.NoPos) eqn:E; [unfold token.NoPos in E; lia|].
  rewrite (searchFiles_owner _ _ _ _ _ Hwf Hin Hp).
  destruct (p <=? token.base tf + token.size tf) eqn:E2; [reflexivity|lia].
Qed.

Lemma FileOf_In s p tf :
  token.FileOf s p = Some tf -> In tf (token.files s).
Proof.
  unfold token.FileOf. destruct (p =? token.NoPos); [discriminate|].
  destruct (token.searchFiles (token.files s) p) as [f|] eqn:E; [|discriminate].
  destruct (p <=? token.base f + token.size f); [|discriminate].
  intros [= <-]. eapply searchFiles_In, E.
Qed.

Lemma PositionOf_Offset s p tf :
  token.FileOf s p = Some tf ->
  token.Offset (token.PositionOf s p) = p - token.base tf.
Proof.
  intros H. unfold token.PositionOf. rewrite H.
  destruct (0 <=? _); reflexivity.
Qed.

Lemma NewFileSet_wf : token.wf token.NewFileSet.
Proof. unfold token.wf. simpl. lia. Qed.

Lemma AddFile_wf s filename sz added :
  token.wf s -> 0 <= sz -> token.wf (snd (token.AddFile s filename sz added)).
Proof.
  unfold token.wf. intros H Hsz. simpl.
  apply (ranges_from_app (token.files s) 1 (token.fs_base s)
           {| token.name := filename; token.base := token.fs_base s;
              token.size := sz;
              token.lines := fold_left (token.AddLine sz) added [0] |});
    [exact H|reflexivity|exact Hsz].
Qed.

Lemma ParseFile_wf ReadFile parser_ParseFile filePath a :
  token.wf (Analyzer.fset a) ->
  token.wf (Analyzer.fset
              (snd (Analyzer.ParseFile ReadFile parser_ParseFile filePath a))).
Proof.
  intros H. unfold Analyzer.ParseFile.
  destruct (Analyzer.fileMap a !! filePath); [exact H|].
  destruct (ReadFile filePath) as [src|]; [|exact H].
  destruct (parser_ParseFile _ _ _) as [added parsed].
  pose proof (AddFile_wf (Analyzer.fset a) filePath (Z.of_nat (String.length src))
                added H ltac:(lia)) as Hwf.
  destruct (token.AddFile _ _ _ _) as [f fset']. simpl in Hwf.
  destruct parsed; exact Hwf.
Qed.

(** ** Call expression at a position *)

(** C4.  Let [C] be a call expression of a parsed file, and let the position
    denoted by (line, column) lie strictly inside [C] ([Pos C < position <
    End C]) and in the span of no call expression nested within [C], the
    span of a node running from [Pos] to [End], the position that follows
    its last byte, both included: that is the test the traversal applies.
    Then [ExtractFullCall] returns the bytes of the source file from [Pos C]
    up to [End C]: the text of [C], unchanged.  Call expressions that enclose
    [C] may contain the position as well: they are met before [C] and [C]
    replaces them, so the innermost call is the one returned.  The claim
    asks less of the position, that it be inside no nested call, and fails
    at the position that follows a nested call, which is no byte of that
    call and yet in its span; the lemma after the witness shows it.  The
    assumptions on the tree are those of a parsed Go file: a call met after
    [C] and its subtree starts at or after the end of [C], and the span of
    [C] lies in the file. *)
Theorem innermost_call_text
    (ReadFile : string -> option string)
    (parser_ParseFile : string -> Z -> string -> list Z * option goast.File)
    (filePath : string) (line character : Z) (a a1 : Analyzer.ASTProcessor)
    (file : goast.File) (src : string) (tf : token.File) (position : token.Pos)
    (before after : list goast.Node) (C : goast.Node) :
  token.wf (Analyzer.fset a) ->
  Analyzer.ParseFile ReadFile parser_ParseFile filePath a = (Ok tt, a1) ->
  Analyzer.fileMap a1 !! filePath = Some file ->
  ReadFile filePath = Some src ->
  tokenFileOf a1 filePath = Some tf ->
  token.size tf = Z.of_nat (String.length src) ->
  Analyzer.getPosition filePath line character a1 = (Ok position, a1) ->
  goast.preorder (goast.FileNode file) = before ++ goast.preorder C ++ after ->
  isCall C = true ->
  token.base tf <= goast.Pos C ->
  goast.End C <= token.base tf + token.size tf ->
  goast.Pos C < position < goast.End C ->
  (forall D, In D (goast.preorder_list (goast.children C)) ->
             isCall D = true -> spans D position = false) ->
  (forall D, In D after -> isCall D = true -> goast.End C <= goast.Pos D) ->
  Analyzer.ExtractFullCall ReadFile parser_ParseFile filePath line character a
  = (Ok (String.substring (Z.to_nat (goast.Pos C - token.base tf))
           (Z.to_nat (goast.End C - goast.Pos C)) src), a1).
Proof.
  intros Hwf HP Hfile Hsrc Htf Hsize Hpos Hsplit HC Hlo Hhi Hin Hnested Hafter.
  assert (Hwf1 : token.wf (Analyzer.fset a1)).
  { pose proof (ParseFile_wf ReadFile parser_ParseFile filePath a Hwf) as H.
    rewrite HP in H. exact H. }
  assert (Hmem : In tf (token.files (Analyzer.fset a1))).
  { unfold tokenFileOf in Htf. rewrite Hfile in Htf. eapply FileOf_In, Htf. }
  pose proof (ranges_from_lower _ _ _ _ Hwf1 Hmem) as Hbase.
  rewrite (ExtractFullCall_parsed _ _ _ _ _ _ _ _ HP Hfile), Hsrc, Hpos.
  destruct (position =? token.NoPos) eqn:E; [unfold token.NoPos in E; lia|].
  rewrite callVisit_fold, Hsplit, (preorder_eq C), !fold_left_app.
  simpl fold_left. unfold callStep at 3.
  assert (Hspan : spans C position = true).
  { unfold spans. apply andb_true_intro. split; apply Z.leb_le; lia. }
  rewrite HC, Hspan. simpl andb. cbv iota.
  rewrite (callStep_none position _ (Some C) Hnested).
  rewrite callStep_none.
  2:{ intros D HD HDc. specialize (Hafter D HD HDc). unfold spans.
      apply andb_false_intro1. apply Z.leb_gt. lia. }
  cbv zeta.
  rewrite (PositionOf_Offset _ _ tf) by (apply FileOf_owner; [assumption..|lia]).
  rewrite (PositionOf_Offset _ _ tf) by (apply FileOf_owner; [assumption..|lia]).
  destruct (goast.Pos C - token.base tf <? 0) eqn:E1; [lia|].
  destruct (Z.of_nat (String.length src) <? goast.End C - token.base tf) eqn:E2; [lia|].
  destruct (goast.End C - token.base tf <=? goast.Pos C - token.base tf) eqn:E3; [lia|].
  simpl. do 3 f_equal. lia.
Qed.

Lemma innermost_call_text_witness :
  Analyzer.getPosition Sample.path 5 4 Sample.parsed = (Ok 36, Sample.parsed) /\
  isCall (Sample.innerCall 1) = true /\
  goast.Pos (Sample.innerCall 1) < 36 < goast.End (Sample.innerCall 1) /\
  length (filter (fun D => isCall D && spans D 36)
            (goast.preorder (goast.FileNode (Sample.file 1)))) = 2%nat /\
  Analyzer.ExtractFullCall Sample.ReadFile Sample.parser_ParseFile Sample.path 5 4
    Analyzer.NewASTProcessor = (Ok "G()", Sample.parsed).
Proof.
  split; [reflexivity|]. split; [reflexivity|].
  split; [vm_compute; split; reflexivity|]. split; [reflexivity|].
  apply (innermost_call_text Sample.ReadFile Sample.parser_ParseFile Sample.path
           5 4 Analyzer.NewASTProcessor Sample.parsed (Sample.file 1) Sample.src
           Sample.tokenFile 36
           (firstn 14 (goast.preorder (goast.FileNode (Sample.file 1))))
           (skipn 16 (goast.preorder (goast.FileNode (Sample.file 1))))
           (Sample.innerCall 1)).
  - apply NewFileSet_wf.
  - reflexivity.
  - reflexivity.
  - reflexivity.
  - reflexivity.
  - reflexivity.
  - reflexivity.
  - reflexivity.
  - reflexivity.
  - vm_compute. discriminate.
  - vm_compute. discriminate.
  - vm_compute. split; reflexivity.
  - intros D HD. vm_compute in HD. destruct HD as [<-|[]]. discriminate.
  - intros D HD HDc. vm_compute in HD.
    repeat (destruct HD as [<-|HD]; [try discriminate HDc; vm_compute; discriminate|]).
    destruct HD.
Defined.

(** C4 as worded fails.  In [var x = f(g(), 1)], line 3, column 14 is the
    comma that follows [g()]: position 25.  It lies strictly inside the call
    [f(g(), 1)] and is a byte of no call nested within it, the last byte of
    [g()] being at position 24; but 25 is [End] of [g()], the span test of
    the traversal holds for [g()], and the query answers [g()], not the
    text of the outer call.  One column further it answers the outer
    call. *)
Lemma position_after_nested_call_returns_nested_call :
  In (Nested.outer 1) (goast.preorder (goast.FileNode (Nested.file 1))) /\
  isCall (Nested.outer 1) = true /\
  Analyzer.getPosition Nested.path 3 14 Nested.parsed = (Ok 25, Nested.parsed) /\
  String.substring 24 1 Nested.src = "," /\
  goast.Pos (Nested.outer 1) < 25 < goast.End (Nested.outer 1) /\
  (forall D, In D (goast.preorder_list (goast.children (Nested.outer 1))) ->
             isCall D = true -> occupies D 25 = false) /\
  spans (Nested.inner 1) 25 = true /\
  String.substring (Z.to_nat (goast.Pos (Nested.outer 1) - 1))
    (Z.to_nat (goast.End (Nested.outer 1) - goast.Pos (Nested.outer 1))) Nested.src
  = "f(g(), 1)" /\
  Analyzer.ExtractFullCall Nested.ReadFile Nested.parser_ParseFile Nested.path 3 14
    Analyzer.NewASTProcessor = (Ok "g()", Nested.parsed) /\
  fst (Analyzer.ExtractFullCall Nested.ReadFile Nested.parser_ParseFile Nested.path 3 14
         Analyzer.NewASTProcessor) <> Ok "f(g(), 1)" /\
  Analyzer.ExtractFullCall Nested.ReadFile Nested.parser_ParseFile Nested.path 3 15
    Analyzer.NewASTProcessor = (Ok "f(g(), 1)", Nested.parsed).
Proof.
  split; [vm_compute; do 5 right; left; reflexivity|].
  split; [reflexivity|]. split; [reflexivity|]. split; [reflexivity|].
  split; [vm_compute; split; reflexivity|].
  split.
  { intros D HD HDc. vm_compute in HD.
    repeat (destruct HD as [<-|HD]; [try discriminate HDc; reflexivity|]).
    destruct HD. }
  split; [reflexivity|]. split; [reflexivity|]. split; [reflexivity|].
  split; [vm_compute; discriminate|reflexivity].
Qed.

(** The span test includes [End], the position that follows the last byte of
    a node: line 5, column 6 of the sample file is the line feed after [G()],
    position 38, and the query answers [G()] there too. *)
Example position_at_end_of_call :
  goast.End (Sample.innerCall 1) = 38 /\
  Analyzer.getPosition Sample.path 5 6 Sample.parsed = (Ok 38, Sample.parsed) /\
  Analyzer.ExtractFullCall Sample.ReadFile Sample.parser_ParseFile Sample.path 5 6
    Analyzer.NewASTProcessor = (Ok "G()", Sample.parsed).
Proof. repeat split; reflexivity. Qed.

(** ** Definitions that match a pattern *)

Lemma Glob_star subj : glob.Glob "*" subj = true.
Proof. reflexivity. Qed.

Lemma Glob_empty_empty : glob.Glob "" "" = true.
Proof. reflexivity. Qed.

Lemma isFuncMatch_loop_needsReceiver funcName funcPatterns :
  Forall needsReceiver funcPatterns ->
  Analyzer.isFuncMatch_loop "" funcName funcPatterns = false.
Proof.
  induction 1 as [|pattern rest (s & m & Hcut & Hglob) _ IH]; [reflexivity|].
  simpl. rewrite Hcut, Hglob. simpl. exact IH.
Qed.

Lemma extractRecvType_nil fd :
  goast.Recv fd = None -> Analyzer.extractRecvType fd = ("", "").
Proof. unfold Analyzer.extractRecvType. intros ->. reflexivity. Qed.

Section FindFuncDefinitionsFacts.

Variable ReadFile : string -> option string.
Variable parser_ParseFile : string -> Z -> string -> list Z * option goast.File.
Variable build_Import : string -> option (string * list string).
Variable filepath_Join : string -> string -> string.
Variable IsExported : string -> bool.

(** Every definition the scan adds passed [isFuncMatch]. *)
Lemma scanDecls_matched (Q : Analyzer.Match -> Prop) fs pkgPath funcPattern :
  (forall fd, Analyzer.isFuncMatch fd funcPattern = true ->
     forall m, Analyzer.RecvType m = fst (Analyzer.extractRecvType fd) ->
               Analyzer.FuncName m = goast.Name fd -> Q m) ->
  forall decls matches,
    Forall Q matches ->
    Forall Q (Analyzer.scanDecls IsExported fs pkgPath funcPattern decls matches).
Proof.
  intros HQ. induction decls as [|decl rest IH]; intros matches Hm; [exact Hm|].
  simpl. apply IH.
  destruct (goast.kind decl) as [fd| | |]; try exact Hm.
  destruct (negb (IsExported (goast.Name fd))); [exact Hm|].
  destruct (negb (Analyzer.isFuncMatch fd funcPattern)) eqn:E; [exact Hm|].
  apply negb_false_iff in E.
  destruct (Analyzer.extractRecvType fd) as [recvType recvName] eqn:Er.
  apply Forall_app. split; [exact Hm|]. constructor; [|constructor].
  apply (HQ fd E); simpl; [rewrite Er|]; reflexivity.
Qed.

Lemma scanFiles_matched (Q : Analyzer.Match -> Prop) dir pkgPath funcPattern :
  (forall fd, Analyzer.isFuncMatch fd funcPattern = true ->
     forall m, Analyzer.RecvType m = fst (Analyzer.extractRecvType fd) ->
               Analyzer.FuncName m = goast.Name fd -> Q m) ->
  forall goFiles matches a result a1,
    Forall Q matches ->
    Analyzer.scanFiles ReadFile parser_ParseFile filepath_Join IsExported
      dir pkgPath funcPattern goFiles matches a = (Ok result, a1) ->
    Forall Q result.
Proof.
  intros HQ. induction goFiles as [|f rest IH]; intros matches a result a1 Hm.
  - intros [= <- _]. exact Hm.
  - simpl. unfold bind, get, fail.
    destruct (Analyzer.ParseFile _ _ _ a) as [[[]|e] a'] eqn:EP; [|discriminate].
    destruct (Analyzer.fileMap a' !! filepath_Join dir f) as [node|]; [|discriminate].
    apply IH. apply scanDecls_matched; assumption.
Qed.

End FindFuncDefinitionsFacts.

(** C2, as the code has it.  For a declaration without receiver the receiver
    glob of a pattern [<receiverGlob>.<methodGlob>] is matched against the
    empty string: the declaration matches the pattern exactly when the
    receiver glob matches the empty string and the method glob matches the
    function name.  So when every pattern is receiver-qualified with a
    receiver glob that does not match the empty string, no definition that
    [FindFuncDefinitions] returns is without receiver type. *)
Theorem receiverless_declaration_and_qualified_pattern
    (ReadFile : string -> option string)
    (parser_ParseFile : string -> Z -> string -> list Z * option goast.File)
    (build_Import : string -> option (string * list string))
    (filepath_Join : string -> string -> string)
    (IsExported : string -> bool) :
  (forall fd pattern structName methodName,
     goast.Recv fd = None ->
     strings.Cut pattern "." = Some (structName, methodName) ->
     Analyzer.isFuncMatch fd [pattern]
     = glob.Glob structName "" && glob.Glob methodName (goast.Name fd)) /\
  (forall pkgPath funcPattern a matches a1,
     Forall needsReceiver funcPattern ->
     Analyzer.FindFuncDefinitions ReadFile parser_ParseFile build_Import filepath_Join
       IsExported pkgPath funcPattern a = (Ok matches, a1) ->
     Forall (fun m => Analyzer.RecvType m <> "") matches).
Proof.
  split.
  - intros fd pattern s m Hrecv Hcut. unfold Analyzer.isFuncMatch.
    rewrite (extractRecvType_nil fd Hrecv). simpl. rewrite Hcut.
    change (strings.TrimPrefix "" "*") with "".
    destruct (glob.Glob s ""); simpl; [|reflexivity].
    destruct (glob.Glob m (goast.Name fd)); reflexivity.
  - intros pkgPath funcPattern a matches a1 Hpat.
    unfold Analyzer.FindFuncDefinitions.
    destruct (build_Import pkgPath) as [[dir goFiles]|]; [|discriminate].
    apply scanFiles_matched; [|constructor].
    intros fd Hmatch m Hm _ Hempty. rewrite Hm in Hempty.
    unfold Analyzer.isFuncMatch in Hmatch. rewrite Hempty in Hmatch.
    change (strings.TrimPrefix "" "*") with "" in Hmatch.
    rewrite isFuncMatch_loop_needsReceiver in Hmatch by exact Hpat. discriminate.
Qed.

Lemma receiverless_declaration_and_qualified_pattern_witness :
  strings.Cut "T.*" "." = Some ("T", "*") /\
  Analyzer.isFuncMatch
    {| goast.Name := "F"; goast.NamePos := 17; goast.Recv := None |} ["T.*"]
  = glob.Glob "T" "" && glob.Glob "*" "F" /\
  Forall needsReceiver ["T.*"] /\
  Analyzer.FindFuncDefinitions Sample.ReadFile Sample.parser_ParseFile Sample.build_Import
    Sample.filepath_Join Sample.IsExported Sample.pkgPath ["T.*"]
    Analyzer.NewASTProcessor
  = (Ok [ {| Analyzer.Pkg := Sample.pkgPath; Analyzer.RecvType := "*T";
             Analyzer.RecvName := "s"; Analyzer.FuncName := "M";
             Analyzer.Filename := Sample.path;
             Analyzer.OffsetLine := 11; Analyzer.OffsetCol := 13 |} ], Sample.parsed) /\
  Forall (fun m => Analyzer.RecvType m <> "")
    [ {| Analyzer.Pkg := Sample.pkgPath; Analyzer.RecvType := "*T";
         Analyzer.RecvName := "s"; Analyzer.FuncName := "M";
         Analyzer.Filename := Sample.path;
         Analyzer.OffsetLine := 11; Analyzer.OffsetCol := 13 |} ].
Proof.
  assert (H0 : strings.Cut "T.*" "." = Some ("T", "*")) by reflexivity.
  assert (H1 : Forall needsReceiver ["T.*"]).
  { constructor; [|constructor]. exists "T", "*". split; reflexivity. }
  assert (H2 : Analyzer.FindFuncDefinitions Sample.ReadFile Sample.parser_ParseFile
                 Sample.build_Import Sample.filepath_Join Sample.IsExported
                 Sample.pkgPath ["T.*"] Analyzer.NewASTProcessor
               = (Ok [ {| Analyzer.Pkg := Sample.pkgPath; Analyzer.RecvType := "*T";
                          Analyzer.RecvName := "s"; Analyzer.FuncName := "M";
                          Analyzer.Filename := Sample.path;
                          Analyzer.OffsetLine := 11; Analyzer.OffsetCol := 13 |} ],
                  Sample.parsed)) by reflexivity.
  split; [exact H0|].
  split.
  { exact (proj1 (receiverless_declaration_and_qualified_pattern Sample.ReadFile
                    Sample.parser_ParseFile Sample.build_Import Sample.filepath_Join
                    Sample.IsExported)
             {| goast.Name := "F"; goast.NamePos := 17; goast.Recv := None |}
             "T.*" "T" "*" eq_refl H0). }
  split; [exact H1|]. split; [exact H2|].
  exact (proj2 (receiverless_declaration_and_qualified_pattern Sample.ReadFile
                  Sample.parser_ParseFile Sample.build_Import Sample.filepath_Join
                  Sample.IsExported)
           Sample.pkgPath ["T.*"] Analyzer.NewASTProcessor _ Sample.parsed H1 H2).
Defined.

(** C2 as stated fails: [F] of the sample package is exported and has no
    receiver, and [FindFuncDefinitions] returns it for the pattern [*.F],
    whose receiver glob is the universal glob. *)
Lemma receiverless_declaration_matches_star_pattern :
  strings.Cut "*.F" "." = Some ("*", "F") /\
  In (Sample.declF 1) (goast.Decls (Sample.file 1)) /\
  (exists fd, goast.kind (Sample.declF 1) = goast.FuncDecl fd /\
              goast.Recv fd = None /\ goast.Name fd = "F" /\
              Sample.IsExported (goast.Name fd) = true) /\
  fst (Analyzer.FindFuncDefinitions Sample.ReadFile Sample.parser_ParseFile
         Sample.build_Import Sample.filepath_Join Sample.IsExported Sample.pkgPath
         ["*.F"] Analyzer.NewASTProcessor)
  = Ok [ {| Analyzer.Pkg := Sample.pkgPath; Analyzer.RecvType := "";
            Analyzer.RecvName := ""; Analyzer.FuncName := "F";
            Analyzer.Filename := Sample.path;
            Analyzer.OffsetLine := 3; Analyzer.OffsetCol := 6 |} ].
Proof.
  split; [reflexivity|]. split; [left; reflexivity|].
  split; [|reflexivity].
  eexists. split; [reflexivity|]. split; [reflexivity|]. split; reflexivity.
Qed.

(** ** The protocol client *)

Lemma ReadString_shorter input delim line rest :
  bufio.ReadString input delim = Some (line, rest) ->
  (String.length rest < String.length input)%nat.
Proof.
  revert line rest. induction input as [|c input IH]; intros line rest; [discriminate|].
  simpl. destruct (Ascii.eqb c delim).
  - intros [= _ <-]. lia.
  - destruct (bufio.ReadString input delim) as [[l r]|]; [|discriminate].
    intros [= _ <-]. specialize (IH l r eq_refl). lia.
Qed.

Lemma ReadFull_shorter input n content rest :
  bufio.ReadFull input n = Some (content, rest) ->
  (String.length rest <= String.length input)%nat.
Proof.
  unfold bufio.ReadFull. destruct (n <=? String.length input)%nat; [|discriminate].
  intros [= _ <-]. clear. revert input.
  induction n as [|n IH]; intros [|c input]; simpl; try lia.
  specialize (IH input). lia.
Qed.

Section ClientFacts.

Variable json_Marshal : Gopls.Msg -> string.
Variable json_Unmarshal : string -> option Gopls.Msg.

(** The frame reader only reads the subprocess output: what it returns and
    what it leaves unread depend on the unread output alone. *)
Lemma readHeaders_reads fuel : forall headers c,
  exists r s,
    Gopls.readHeaders fuel headers c = (r, Gopls.set_stdout s c) /\
    (forall c', Gopls.stdout c' = Gopls.stdout c ->
                Gopls.readHeaders fuel headers c' = (r, Gopls.set_stdout s c')) /\
    (r <> Err (Panic "out of fuel") -> forall h, r = Ok h ->
       (String.length s < String.length (Gopls.stdout c))%nat) /\
    ((String.length (Gopls.stdout c) < fuel)%nat -> r <> Err (Panic "out of fuel")).
Proof.
  induction fuel as [|fuel IH]; intros headers c.
  - exists (Err (Panic "out of fuel")), (Gopls.stdout c). simpl. unfold fail.
    split; [destruct c; reflexivity|]. split.
    + intros c' E. rewrite <- E. destruct c'; reflexivity.
    + split; [intros H; contradiction|lia].
  - simpl.
    destruct (bufio.ReadString (Gopls.stdout c) (ascii_of_nat 10)) as [[line rest]|] eqn:ER.
    + pose proof (ReadString_shorter _ _ _ _ ER) as Hlen.
      destruct (String.eqb (strings.TrimSpace line) "") eqn:Eblank.
      * exists (Ok headers), rest. split; [reflexivity|]. split.
        { intros c' E. rewrite E, ER, Eblank. reflexivity. }
        split; [intros _ h _; exact Hlen|discriminate].
      * destruct (strings.Cut (strings.TrimSpace line) ":") as [[k v]|] eqn:Ecut.
        { destruct (IH (<[strings.TrimSpace k := strings.TrimSpace v]> headers)
                      (Gopls.set_stdout rest c)) as (r & s & H1 & H2 & H3 & H4).
          exists r, s. split; [rewrite H1; reflexivity|]. split.
          - intros c' E. rewrite E, ER, Eblank, Ecut.
            rewrite (H2 (Gopls.set_stdout rest c') eq_refl). reflexivity.
          - split.
            + intros Hr h Hh. specialize (H3 Hr h Hh). simpl in H3. lia.
            + intros Hf. apply H4. simpl. lia. }
        { exists (Err ErrInvalidHeader), rest. split; [reflexivity|]. split.
          - intros c' E. rewrite E, ER, Eblank, Ecut. reflexivity.
          - split; [intros _ h [=]|discriminate]. }
    + exists (Err ErrTransport), EmptyString. split; [reflexivity|]. split.
      * intros c' E. rewrite E, ER. reflexivity.
      * split; [intros _ h [=]|discriminate].
Qed.

Lemma readMessage_reads c :
  exists r s,
    Gopls.readMessage json_Unmarshal c = (r, Gopls.set_stdout s c) /\
    (forall c', Gopls.stdout c' = Gopls.stdout c ->
                Gopls.readMessage json_Unmarshal c' = (r, Gopls.set_stdout s c')) /\
    (forall m, r = Ok m -> (String.length s < String.length (Gopls.stdout c))%nat) /\
    r <> Err (Panic "out of fuel").
Proof.
  unfold Gopls.readMessage, bind, get, fail.
  destruct (readHeaders_reads (S (String.length (Gopls.stdout c))) ∅ c)
    as (r & s & H1 & H2 & H3 & H4).
  specialize (H4 ltac:(lia)).
  rewrite H1. destruct r as [headers|e].
  2:{ exists (Err e), s. split; [reflexivity|]. split.
      - intros c' E. rewrite E, (H2 c' E). reflexivity.
      - split; [intros m [=]|].
        intros [= Heq]. apply H4. rewrite Heq. reflexivity. }
  specialize (H3 H4 headers eq_refl).
  assert (Hrest : forall (r' : Result Gopls.Msg) s',
            (forall m, r' = Ok m -> (String.length s' <= String.length s)%nat) ->
            r' <> Err (Panic "out of fuel") ->
            forall m, r' = Ok m ->
              (String.length s' < String.length (Gopls.stdout c))%nat).
  { intros r' s' Hle _ m Hm. specialize (Hle m Hm). lia. }
  destruct (headers !! "Content-Length") as [contentLengthStr|] eqn:Ecl.
  2:{ exists (Err ErrMissingContentLength), s. split; [reflexivity|]. split.
      - intros c' E. rewrite E, (H2 c' E), Ecl. reflexivity.
      - split; [intros m [=]|discriminate]. }
  destruct (strconv.Atoi contentLengthStr) as [contentLength|] eqn:Eatoi.
  2:{ exists (Err ErrInvalidContentLength), s. split; [reflexivity|]. split.
      - intros c' E. rewrite E, (H2 c' E), Ecl, Eatoi. reflexivity.
      - split; [intros m [=]|discriminate]. }
  destruct (contentLength <? 0) eqn:Eneg.
  { exists (Err (Panic "makeslice: len out of range")), s. split; [reflexivity|]. split.
    - intros c' E. rewrite E, (H2 c' E), Ecl, Eatoi, Eneg. reflexivity.
    - split; [intros m [=]|discriminate]. }
  simpl Gopls.stdout.
  destruct (bufio.ReadFull s (Z.to_nat contentLength)) as [[content rest]|] eqn:Efull.
  2:{ exists (Err ErrTransport), EmptyString. split; [reflexivity|]. split.
      - intros c' E. rewrite E, (H2 c' E), Ecl, Eatoi, Eneg. simpl. rewrite Efull.
        reflexivity.
      - split; [intros m [=]|discriminate]. }
  pose proof (ReadFull_shorter _ _ _ _ Efull) as Hle.
  destruct (json_Unmarshal content) as [msg|] eqn:Ejson.
  - exists (Ok msg), rest. split; [reflexivity|]. split.
    + intros c' E. rewrite E, (H2 c' E), Ecl, Eatoi, Eneg. simpl. rewrite Efull, Ejson.
      reflexivity.
    + split; [intros m _; lia|discriminate].
  - exists (Err ErrJSON), rest. split; [reflexivity|]. split.
    + intros c' E. rewrite E, (H2 c' E), Ecl, Eatoi, Eneg. simpl. rewrite Efull, Ejson.
      reflexivity.
    + split; [intros m [=]|discriminate].
Qed.

Lemma awaitResponse_step fuel want c :
  Gopls.awaitResponse json_Unmarshal (S fuel) want c
  = match Gopls.readMessage json_Unmarshal c with
    | (Ok resp, c1) =>
        match Gopls.idMatches resp want with
        | Err e => (Err e, c1)
        | Ok true => (Ok resp, c1)
        | Ok false => Gopls.awaitResponse json_Unmarshal fuel want c1
        end
    | (Err e, c1) => (Err e, c1)
    end.
Proof.
  cbn [Gopls.awaitResponse]. unfold bind.
  destruct (Gopls.readMessage json_Unmarshal c) as [[resp|e] c1]; [|reflexivity].
  destruct (Gopls.idMatches resp want) as [[|]|e]; reflexivity.
Qed.

(** The loop of [FindReferences] and [Close] returns a frame only if it bears
    the awaited id. *)
Lemma awaitResponse_matches fuel want : forall c resp c',
  Gopls.awaitResponse json_Unmarshal fuel want c = (Ok resp, c') ->
  Gopls.idMatches resp want = Ok true.
Proof.
  induction fuel as [|fuel IH]; intros c resp c'; [discriminate|].
  rewrite awaitResponse_step.
  destruct (Gopls.readMessage json_Unmarshal c) as [[m|e] c1]; [|discriminate].
  destruct (Gopls.idMatches m want) as [[|]|e] eqn:E; [| |discriminate].
  - intros [= <- _]. exact E.
  - apply IH.
Qed.

(** The loop ends before its fuel does. *)
Lemma awaitResponse_fuel fuel want : forall c,
  (String.length (Gopls.stdout c) < fuel)%nat ->
  fst (Gopls.awaitResponse json_Unmarshal fuel want c) <> Err (Panic "out of fuel").
Proof.
  induction fuel as [|fuel IH]; intros c Hlen; [inversion Hlen|].
  rewrite awaitResponse_step.
  destruct (readMessage_reads c) as (r & s & H1 & _ & H3 & H4). rewrite H1.
  destruct r as [m|e]; [|exact H4].
  specialize (H3 m eq_refl).
  destruct (Gopls.idMatches m want) as [[|]|e] eqn:E; simpl.
  - discriminate.
  - apply IH. simpl. lia.
  - unfold Gopls.idMatches in E.
    destruct (Gopls.lookup "id" m) as [[]|]; try discriminate; injection E as <-;
      discriminate.
Qed.

(** [initialize] takes whatever frame comes first: when the first read on
    the subprocess output succeeds, with any message, [initialize] succeeds
    and has read that frame and nothing more. *)
Lemma initialize_takes_first_frame projectRoot c m c' :
  Gopls.stdinOpen c = true ->
  Gopls.writeFails c = [] ->
  Gopls.readMessage json_Unmarshal c = (Ok m, c') ->
  fst (Gopls.initialize json_Marshal json_Unmarshal projectRoot c) = Ok tt /\
  Gopls.stdout (snd (Gopls.initialize json_Marshal json_Unmarshal projectRoot c))
  = Gopls.stdout c'.
Proof.
  intros Ho Hw Hread.
  destruct (readMessage_reads c) as (r & s & H1 & H2 & _). rewrite H1 in Hread.
  injection Hread as -> <-.
  assert (H : exists cf,
            Gopls.initialize json_Marshal json_Unmarshal projectRoot c = (Ok tt, cf) /\
            Gopls.stdout cf = s).
  { unfold Gopls.initialize, bind, Gopls.getSeq.
    unfold Gopls.sendMessage at 1.
    cbn [Gopls.writeFails Gopls.stdinOpen Gopls.set_seq]. rewrite Ho, Hw. cbn [negb].
    rewrite (H2 (Gopls.set_stdin _ _ (Gopls.set_seq _ c)) eq_refl).
    unfold Gopls.sendMessage.
    repeat (cbn [Gopls.writeFails Gopls.stdinOpen Gopls.set_seq Gopls.set_stdin
                 Gopls.set_stdout negb]; rewrite ?Ho).
    eexists. split; reflexivity. }
  destruct H as (cf & -> & Hcf). split; [reflexivity|exact Hcf].
Qed.

End ClientFacts.

(** C3 fails on the code.  The server of [Sample.talkative] sends a
    notification, which bears no id, and then the response with id 1.
    [initialize] sends its request with id 1, reads the notification and
    returns without error: the response with id 1 is still unread, and the
    two notifications that end the handshake have been sent. *)
Theorem initialize_returns_on_notification :
  Gopls.stdout Sample.talkative
  = String.append (Sample.frame Sample.logMessage)
      (Sample.frame (Sample.response 1 (Gopls.JObject []))) /\
  Gopls.lookup "id" Sample.logMessage = None /\
  Gopls.idMatches Sample.logMessage 1 = Ok false /\
  fst (Gopls.initialize Sample.json_Marshal Sample.json_Unmarshal Sample.root
         Sample.talkative) = Ok tt /\
  Gopls.stdout (snd (Gopls.initialize Sample.json_Marshal Sample.json_Unmarshal
                       Sample.root Sample.talkative))
  = Sample.frame (Sample.response 1 (Gopls.JObject [])) /\
  Gopls.stdin (snd (Gopls.initialize Sample.json_Marshal Sample.json_Unmarshal
                      Sample.root Sample.talkative))
  = String.append (Sample.frame (Gopls.initializeRequest 1 Sample.root))
      (String.append (Sample.frame Gopls.initializedNotification)
         (Sample.frame Gopls.didChangeConfigNotification)).
Proof. repeat split; vm_compute; reflexivity. Qed.

(** On the same input the loop of [FindReferences] skips the notification
    and takes the frame with the awaited id. *)
Example awaitResponse_skips_notification :
  Gopls.awaitResponse Sample.json_Unmarshal (Gopls.enoughFuel Sample.talkative) 1
    Sample.talkative
  = (Ok (Sample.response 1 (Gopls.JObject [])),
     Gopls.set_stdout EmptyString Sample.talkative).
Proof. vm_compute. reflexivity. Qed.

(** ** The workspace filter *)

Section FindFuncReferencesFacts.

Variable ReadFile : string -> option string.
Variable parser_ParseFile : string -> Z -> string -> list Z * option goast.File.
Variable build_Import : string -> option (string * list string).
Variable filepath_Join : string -> string -> string.
Variable IsExported : string -> bool.
Variable Format : string -> string.
Variable json_Marshal : Gopls.Msg -> string.
Variable json_Unmarshal : string -> option Gopls.Msg.
Variable pwd : string.

Lemma eachMatch_added matches : forall ap m,
  exists added,
    Plsdo.refs (snd (snd (Plsdo.eachMatch ReadFile parser_ParseFile Format pwd
                            matches (ap, m))))
    = Plsdo.refs m ++ added /\
    Forall (entryOfLocalReference pwd matches) added.
Proof.
  induction matches as [|match_ rest IH]; intros ap m.
  - exists []. simpl. rewrite app_nil_r. auto.
  - assert (Hweaken : forall added,
              Forall (entryOfLocalReference pwd rest) added ->
              Forall (entryOfLocalReference pwd (match_ :: rest)) added).
    { intros added. apply List.Forall_impl. intros e (mt & H1 & H2).
      exists mt. split; [right; exact H1|exact H2]. }
    simpl.
    destruct (strings.HasPrefix (Gopls.Filename match_) pwd) eqn:Epre; simpl.
    + unfold bind at 1. unfold Plsdo.onAnalyzer at 1.
      destruct (Plsdo.GetEnclosingFunctionName _ _ _ _ _ ap) as [[enc|e] ap1].
      2:{ exists []. simpl. rewrite app_nil_r. auto. }
      destruct enc as [[functionName receiverType] receiverName].
      unfold bind at 1. unfold Plsdo.onAnalyzer at 1.
      destruct (Plsdo.ExtractFullCall _ _ _ _ _ ap1) as [[src|e] ap2].
      2:{ exists []. simpl. rewrite app_nil_r. auto. }
      unfold bind at 1. unfold Plsdo.appendRef at 1.
      destruct (IH ap2 {| Plsdo.refs := Plsdo.refs m ++
                            [ {| Plsdo.Filename := Gopls.Filename match_;
                                 Plsdo.Line := Gopls.StartLine match_;
                                 Plsdo.EncRecvType := receiverType;
                                 Plsdo.EncRecvName := receiverName;
                                 Plsdo.EncFuncName := functionName;
                                 Plsdo.OrgSource := src;
                                 Plsdo.PrettySource := Format src |} ];
                          Plsdo.pls := Plsdo.pls m |}) as (added & Hadd & Hall).
      eexists (_ :: added). split.
      * rewrite Hadd. simpl. rewrite <- app_assoc. reflexivity.
      * constructor; [|apply Hweaken, Hall].
        exists match_. simpl. auto.
    + destruct (IH ap m) as (added & Hadd & Hall).
      exists added. split; [exact Hadd|apply Hweaken, Hall].
Qed.

Lemma entryOfLocalReference_inWorkspace matches e :
  entryOfLocalReference pwd matches e -> inWorkspace pwd e.
Proof. intros (mt & _ & H & E & _). unfold inWorkspace. rewrite E. exact H. Qed.

Lemma onClient_refs {A} (c : M Gopls.GoplsClient A) ap m :
  Plsdo.refs (snd (snd (Plsdo.onClient c (ap, m)))) = Plsdo.refs m.
Proof.
  unfold Plsdo.onClient. destruct (Plsdo.pls m) as [cl|]; [|reflexivity].
  destruct (c cl). reflexivity.
Qed.

Lemma eachDef_added defs : forall ap m,
  exists added,
    Plsdo.refs (snd (snd (Plsdo.eachDef ReadFile parser_ParseFile Format json_Marshal json_Unmarshal pwd
                            defs (ap, m))))
    = Plsdo.refs m ++ added /\
    Forall (inWorkspace pwd) added.
Proof.
  induction defs as [|def rest IH]; intros ap m.
  - exists []. simpl. rewrite app_nil_r. auto.
  - simpl. unfold bind at 1.
    pose proof (onClient_refs
                  (Gopls.FindReferences json_Marshal json_Unmarshal
                     (Analyzer.Filename def) (Analyzer.OffsetLine def)
                     (Analyzer.OffsetCol def)) ap m) as Hcl.
    destruct (Plsdo.onClient _ (ap, m)) as [[matches|e] [ap1 m1]]; simpl in Hcl.
    2:{ exists []. simpl. rewrite Hcl, app_nil_r. auto. }
    unfold bind at 1.
    destruct (eachMatch_added matches ap1 m1) as (added1 & Hadd1 & Hall1).
    destruct (Plsdo.eachMatch _ _ _ _ matches (ap1, m1)) as [[[]|e] [ap2 m2]];
      simpl in Hadd1.
    + destruct (IH ap2 m2) as (added2 & Hadd2 & Hall2).
      exists (added1 ++ added2). split.
      * rewrite Hadd2, Hadd1, Hcl, app_assoc. reflexivity.
      * apply Forall_app. split; [|exact Hall2].
        eapply List.Forall_impl; [|exact Hall1].
        intros e0. apply entryOfLocalReference_inWorkspace.
    + exists added1. simpl. split; [rewrite Hadd1, Hcl; reflexivity|].
      eapply List.Forall_impl; [|exact Hall1].
      intros e'. apply entryOfLocalReference_inWorkspace.
Qed.

End FindFuncReferencesFacts.

(** C5.  Whatever the server reports, and whether or not the operation ends
    in an error: the result set after [FindFuncReferences] is the one before
    it followed by new entries, and the file of every new entry has the
    workspace root as a prefix of its path.  In the loop over the
    references to one definition, each new entry is the entry of a reference
    that passed the prefix test, with that reference's file and line; a
    reference whose path does not start with the workspace root gets no
    entry. *)
Theorem references_outside_workspace_dropped
    (ReadFile : string -> option string)
    (parser_ParseFile : string -> Z -> string -> list Z * option goast.File)
    (build_Import : string -> option (string * list string))
    (filepath_Join : string -> string -> string)
    (IsExported : string -> bool)
    (Format : string -> string)
    (json_Marshal : Gopls.Msg -> string)
    (json_Unmarshal : string -> option Gopls.Msg)
    (pwd : string) :
  (forall pkgName patterns m,
     exists added,
       Plsdo.refs (snd (Plsdo.FindFuncReferences ReadFile parser_ParseFile build_Import
                          filepath_Join IsExported Format json_Marshal json_Unmarshal
                          pwd pkgName patterns m))
       = Plsdo.refs m ++ added /\
       Forall (fun e => strings.HasPrefix (Plsdo.Filename e) pwd = true) added) /\
  (forall matches ap m,
     exists added,
       Plsdo.refs (snd (snd (Plsdo.eachMatch ReadFile parser_ParseFile Format pwd
                               matches (ap, m))))
       = Plsdo.refs m ++ added /\
       Forall (fun e =>
                 exists match_,
                   In match_ matches /\
                   strings.HasPrefix (Gopls.Filename match_) pwd = true /\
                   Plsdo.Filename e = Gopls.Filename match_ /\
                   Plsdo.Line e = Gopls.StartLine match_) added).
Proof.
  split.
  - intros pkgName patterns m. unfold Plsdo.FindFuncReferences.
    destruct (Plsdo.FindFuncDefinitions _ _ _ _ _ _ _ _) as [[defs|e] ap].
    + destruct (eachDef_added ReadFile parser_ParseFile Format json_Marshal
                  json_Unmarshal pwd defs ap m) as (added & Hadd & Hall).
      destruct (Plsdo.eachDef _ _ _ _ _ _ defs (ap, m)) as [r [ap' m']].
      exists added. split; [exact Hadd|exact Hall].
    + exists []. simpl. rewrite app_nil_r. auto.
  - intros matches ap m. apply eachMatch_added.
Qed.

(** A run on the sample workspace: of the three references the server
    reports for [G], the one in another module is dropped and the two calls
    in the workspace are recorded with their enclosing function and text. *)
Example sample_run :
  let r := Plsdo.FindFuncReferences Sample.ReadFile Sample.parser_ParseFile
             Sample.build_Import Sample.filepath_Join Sample.IsExported Sample.Format
             Sample.json_Marshal Sample.json_Unmarshal Sample.root Sample.pkgPath ["G"]
             Sample.matcher in
  fst r = Ok tt /\
  Plsdo.refs (snd r)
  = [ {| Plsdo.Filename := Sample.path; Plsdo.Line := 5; Plsdo.EncRecvType := "";
         Plsdo.EncRecvName := ""; Plsdo.EncFuncName := "F";
         Plsdo.OrgSource := "G()"; Plsdo.PrettySource := "G()" |};
      {| Plsdo.Filename := Sample.path; Plsdo.Line := 11; Plsdo.EncRecvType := "*T";
         Plsdo.EncRecvName := "s"; Plsdo.EncFuncName := "M";
         Plsdo.OrgSource := "G()"; Plsdo.PrettySource := "G()" |} ].
Proof. vm_compute. split; reflexivity. Qed.

(** ** Stable sorting *)

Section StableSort.

Context {E : Type} (cmp : E -> E -> Z).

(** A comparison function that is a weak order. *)
Hypothesis cmp_antisym : forall a b, cmp a b < 0 <-> 0 < cmp b a.
Hypothesis cmp_trans : forall a b c, cmp a b <= 0 -> cmp b c <= 0 -> cmp a c <= 0.

Lemma cmp_refl a : cmp a a = 0.
Proof. destruct (cmp_antisym a a) as [H1 H2]. lia. Qed.

Lemma cmp_ge_le a b : 0 <= cmp a b -> cmp b a <= 0.
Proof. destruct (cmp_antisym a b) as [H1 H2]. lia. Qed.

Lemma siftLeft_Permutation x l :
  Permutation (slices.siftLeft cmp x l) (x :: l).
Proof.
  induction l as [|y l IH]; simpl; [reflexivity|].
  destruct (cmp x y <? 0); [|reflexivity].
  rewrite IH. apply perm_swap.
Qed.

Lemma siftLeft_descending x l :
  StronglySorted (cmpGe cmp) l -> StronglySorted (cmpGe cmp) (slices.siftLeft cmp x l).
Proof.
  induction 1 as [|y l Hl IH Hy]; simpl.
  - constructor; constructor.
  - destruct (cmp x y <? 0) eqn:Elt.
    + constructor; [exact IH|].
      apply (Permutation_Forall (Permutation_sym (siftLeft_Permutation x l))).
      constructor; [unfold cmpGe; lia|exact Hy].
    + constructor; [constructor; assumption|].
      assert (Hxy : (cmpGe cmp) x y) by (apply cmp_ge_le; lia).
      constructor; [exact Hxy|].
      eapply List.Forall_impl; [|exact Hy].
      intros z Hz. unfold cmpGe in *. eapply cmp_trans; eassumption.
Qed.

Lemma fold_siftLeft_Permutation l : forall acc,
  Permutation (fold_left (fun p x => slices.siftLeft cmp x p) l acc) (l ++ acc).
Proof.
  induction l as [|x l IH]; intros acc; simpl; [reflexivity|].
  rewrite IH, siftLeft_Permutation. symmetry. apply Permutation_middle.
Qed.

Lemma fold_siftLeft_descending l : forall acc,
  StronglySorted (cmpGe cmp) acc ->
  StronglySorted (cmpGe cmp) (fold_left (fun p x => slices.siftLeft cmp x p) l acc).
Proof.
  induction l as [|x l IH]; intros acc H; simpl; [exact H|].
  apply IH, siftLeft_descending, H.
Qed.

Lemma descending_rev l :
  StronglySorted (cmpGe cmp) l -> StronglySorted (cmpLe cmp) (List.rev l).
Proof.
  induction 1 as [|y l Hl IH Hy]; simpl; [constructor|].
  apply StronglySorted_app_2.
  - intros x1 x2 Hx1 Hx2. apply list_elem_of_In in Hx1, Hx2.
    destruct Hx2 as [<-|[]]. apply in_rev in Hx1.
    rewrite List.Forall_forall in Hy. apply (Hy x1 Hx1).
  - exact IH.
  - constructor; constructor.
Qed.

(** The sort yields a sorted arrangement of its input. *)
Lemma SortStableFunc_sorted l :
  StronglySorted (cmpLe cmp) (slices.SortStableFunc cmp l).
Proof.
  unfold slices.SortStableFunc, slices.insertionSortCmpFunc.
  apply descending_rev, fold_siftLeft_descending. constructor.
Qed.

Lemma SortStableFunc_Permutation l :
  Permutation l (slices.SortStableFunc cmp l).
Proof.
  unfold slices.SortStableFunc, slices.insertionSortCmpFunc.
  rewrite <- Permutation_rev, fold_siftLeft_Permutation, app_nil_r. reflexivity.
Qed.

(** Stability: an element only moves past elements that compare greater, so
    elements of a class closed under comparing equal keep their order. *)
Section Stable.
Variable P : E -> bool.
Hypothesis P_class : forall x y, P x = true -> P y = true -> cmp x y = 0.

Lemma siftLeft_filter x l :
  List.filter P (slices.siftLeft cmp x l) = List.filter P (x :: l).
Proof.
  induction l as [|y l IH]; [reflexivity|]. simpl slices.siftLeft.
  destruct (cmp x y <? 0) eqn:Elt; [|reflexivity].
  simpl in *. rewrite IH.
  destruct (P x) eqn:Ex, (P y) eqn:Ey; try reflexivity.
  pose proof (P_class x y Ex Ey). lia.
Qed.

Lemma fold_siftLeft_filter l : forall acc,
  List.filter P (fold_left (fun p x => slices.siftLeft cmp x p) l acc)
  = List.filter P (List.rev l ++ acc).
Proof.
  induction l as [|x l IH]; intros acc; [reflexivity|]. simpl fold_left.
  rewrite IH, !List.filter_app, siftLeft_filter. simpl List.rev.
  rewrite List.filter_app, <- app_assoc.
  change (x :: acc) with ([x] ++ acc). rewrite List.filter_app. reflexivity.
Qed.

Lemma SortStableFunc_stable l :
  List.filter P (slices.SortStableFunc cmp l) = List.filter P l.
Proof.
  unfold slices.SortStableFunc, slices.insertionSortCmpFunc.
  rewrite List.filter_rev, fold_siftLeft_filter, app_nil_r, <- List.filter_rev,
    List.rev_involutive. reflexivity.
Qed.
End Stable.

(** A sorted slice is left as it is. *)
Lemma fold_siftLeft_sorted l : forall acc,
  StronglySorted (cmpLe cmp) l ->
  (forall y x, In y acc -> In x l -> (cmpLe cmp) y x) ->
  fold_left (fun p x => slices.siftLeft cmp x p) l acc = List.rev l ++ acc.
Proof.
  induction l as [|x l IH]; intros acc Hl Hacc; [reflexivity|].
  apply StronglySorted_inv in Hl. destruct Hl as [Hl Hx].
  simpl fold_left.
  assert (Hs : slices.siftLeft cmp x acc = x :: acc).
  { destruct acc as [|y acc]; [reflexivity|]. simpl.
    destruct (cmp x y <? 0) eqn:Elt; [|reflexivity].
    assert ((cmpLe cmp) y x) by (apply Hacc; simpl; auto).
    unfold cmpLe in *. destruct (cmp_antisym x y) as [A1 A2]. lia. }
  rewrite Hs, IH.
  - simpl. rewrite <- app_assoc. reflexivity.
  - exact Hl.
  - intros y z [<-|Hy] Hz.
    + rewrite List.Forall_forall in Hx. apply Hx, Hz.
    + apply Hacc; simpl; auto.
Qed.

Lemma SortStableFunc_of_sorted l :
  StronglySorted (cmpLe cmp) l -> slices.SortStableFunc cmp l = l.
Proof.
  intros H. unfold slices.SortStableFunc, slices.insertionSortCmpFunc.
  rewrite fold_siftLeft_sorted, app_nil_r, List.rev_involutive;
    [reflexivity|exact H|intros y x []].
Qed.

Lemma SortStableFunc_idempotent l :
  slices.SortStableFunc cmp (slices.SortStableFunc cmp l) = slices.SortStableFunc cmp l.
Proof. apply SortStableFunc_of_sorted, SortStableFunc_sorted. Qed.

(** There is one stable sorted arrangement: two sorted lists in which the
    elements of every class of equal-comparing elements appear in the same
    order are equal. *)
Lemma cmpEq_refl x : (cmpEq cmp) x x = true.
Proof. unfold cmpEq. rewrite cmp_refl. reflexivity. Qed.

Lemma stable_sorted_unique l1 : forall l2,
  StronglySorted (cmpLe cmp) l1 -> StronglySorted (cmpLe cmp) l2 ->
  (forall x, List.filter ((cmpEq cmp) x) l1 = List.filter ((cmpEq cmp) x) l2) ->
  l1 = l2.
Proof.
  induction l1 as [|x l1 IH]; intros l2 H1 H2 Hf.
  - destruct l2 as [|y l2]; [reflexivity|].
    specialize (Hf y). simpl in Hf. rewrite cmpEq_refl in Hf. discriminate.
  - destruct l2 as [|y l2].
    { specialize (Hf x). simpl in Hf. rewrite cmpEq_refl in Hf. discriminate. }
    apply StronglySorted_inv in H1, H2.
    destruct H1 as [H1 Hx], H2 as [H2 Hy].
    rewrite List.Forall_forall in Hx, Hy.
    assert (Hxy : (cmpEq cmp) x y = true).
    { destruct ((cmpEq cmp) x y) eqn:Exy; [reflexivity|exfalso].
      assert (Eyx : (cmpEq cmp) y x = false).
      { unfold cmpEq in *. apply Z.eqb_neq in Exy. apply Z.eqb_neq.
        destruct (cmp_antisym x y) as [A1 A2]; destruct (cmp_antisym y x) as [A3 A4].
        lia. }
      pose proof (Hf x) as Fx. pose proof (Hf y) as Fy. simpl in Fx, Fy.
      rewrite cmpEq_refl, Exy in Fx. rewrite cmpEq_refl, Eyx in Fy.
      assert (Hx2 : In x l2).
      { eapply (proj1 (List.filter_In ((cmpEq cmp) x) x l2)). rewrite <- Fx. left. reflexivity. }
      assert (Hy1 : In y l1).
      { eapply (proj1 (List.filter_In ((cmpEq cmp) y) y l1)). rewrite Fy. left. reflexivity. }
      pose proof (Hx y Hy1) as Lxy. pose proof (Hy x Hx2) as Lyx.
      unfold cmpLe, cmpEq in *. apply Z.eqb_neq in Exy.
      destruct (cmp_antisym x y) as [A1 A2]. lia. }
    assert (Exy : x = y).
    { pose proof (Hf x) as Fx. simpl in Fx.
      rewrite cmpEq_refl, Hxy in Fx. congruence. }
    subst y. f_equal. apply IH; [exact H1|exact H2|].
    intros z. specialize (Hf z). simpl in Hf.
    destruct ((cmpEq cmp) z x); congruence.
Qed.

End StableSort.

(** ** The order of result entries *)

Lemma Ascii_compare_refl c : Ascii.compare c c = Eq.
Proof. unfold Ascii.compare. apply N.compare_refl. Qed.

Lemma Ascii_compare_lt_trans a b c :
  Ascii.compare a b = Lt -> Ascii.compare b c = Lt -> Ascii.compare a c = Lt.
Proof.
  unfold Ascii.compare. rewrite !N.compare_lt_iff. apply N.lt_trans.
Qed.

Lemma String_compare_refl s : String.compare s s = Eq.
Proof.
  induction s as [|c s IH]; [reflexivity|]. simpl.
  rewrite Ascii_compare_refl. exact IH.
Qed.

Lemma String_compare_eq a b : String.compare a b = Eq <-> a = b.
Proof.
  split; [apply String.compare_eq_iff|]. intros ->. apply String_compare_refl.
Qed.

Lemma String_compare_lt_trans a : forall b c,
  String.compare a b = Lt -> String.compare b c = Lt -> String.compare a c = Lt.
Proof.
  induction a as [|x a IH]; intros [|y b] [|z c]; simpl; try discriminate; try reflexivity.
  destruct (Ascii.compare x y) eqn:Exy; try discriminate.
  - apply Ascii.compare_eq_iff in Exy. subst y.
    destruct (Ascii.compare x z); try discriminate; [apply IH|reflexivity].
  - intros _. destruct (Ascii.compare y z) eqn:Eyz; try discriminate.
    + apply Ascii.compare_eq_iff in Eyz. subst z. rewrite Exy. reflexivity.
    + rewrite (Ascii_compare_lt_trans _ _ _ Exy Eyz). reflexivity.
Qed.

Lemma cmp_Compare_le a b : cmp.Compare a b <= 0 <-> a <= b.
Proof.
  unfold cmp.Compare.
  destruct (a <? b) eqn:E1; [lia|]. destruct (b <? a) eqn:E2; lia.
Qed.

Lemma compareEntries_le a b : Plsdo.compareEntries a b <= 0 <-> entryLe a b.
Proof.
  unfold Plsdo.compareEntries, entryLe, strings.Compare.
  destruct (String.compare (Plsdo.Filename a) (Plsdo.Filename b)) eqn:Ec.
  - change (negb (0 =? 0)) with false. cbv iota. rewrite cmp_Compare_le.
    apply String.compare_eq_iff in Ec.
    split; [intros H; right; auto|].
    intros [H|[_ H]]; [discriminate|exact H].
  - change (negb (-1 =? 0)) with true. cbv iota. split; [auto|lia].
  - change (negb (1 =? 0)) with true. cbv iota. split; [lia|].
    intros [H|[H _]]; [discriminate|].
    apply String_compare_eq in H. congruence.
Qed.

Lemma compareEntries_antisym a b :
  Plsdo.compareEntries a b < 0 <-> 0 < Plsdo.compareEntries b a.
Proof.
  unfold Plsdo.compareEntries, strings.Compare, cmp.Compare.
  rewrite (String.compare_antisym (Plsdo.Filename b) (Plsdo.Filename a)).
  destruct (String.compare (Plsdo.Filename a) (Plsdo.Filename b)); simpl; try lia.
  destruct (Plsdo.Line a <? Plsdo.Line b) eqn:E1,
           (Plsdo.Line b <? Plsdo.Line a) eqn:E2; lia.
Qed.

Lemma entryLe_trans a b c : entryLe a b -> entryLe b c -> entryLe a c.
Proof.
  unfold entryLe. intros [H1|[E1 L1]] [H2|[E2 L2]].
  - left. eapply String_compare_lt_trans; eassumption.
  - left. rewrite <- E2. exact H1.
  - left. rewrite E1. exact H2.
  - right. split; [congruence|lia].
Qed.

Lemma compareEntries_trans a b c :
  Plsdo.compareEntries a b <= 0 -> Plsdo.compareEntries b c <= 0 ->
  Plsdo.compareEntries a c <= 0.
Proof. rewrite !compareEntries_le. apply entryLe_trans. Qed.

Lemma sameKey_class f ln x y :
  sameKey f ln x = true -> sameKey f ln y = true -> Plsdo.compareEntries x y = 0.
Proof.
  unfold sameKey. rewrite !andb_true_iff, !String.eqb_eq, !Z.eqb_eq.
  intros [Fx Lx] [Fy Ly].
  unfold Plsdo.compareEntries, strings.Compare, cmp.Compare.
  rewrite Fx, Fy, Lx, Ly, String_compare_refl, Z.ltb_irrefl. reflexivity.
Qed.

Lemma StronglySorted_mono {A} (R1 R2 : A -> A -> Prop) l :
  (forall a b, R1 a b -> R2 a b) -> StronglySorted R1 l -> StronglySorted R2 l.
Proof.
  intros H. induction 1 as [|a l Hl IH Ha]; constructor; [exact IH|].
  eapply List.Forall_impl; [|exact Ha]. intros b. apply H.
Qed.

(** C6.  [sort] leaves the entries sorted by file path and then by line
    number; it only rearranges them; entries with the same file and line
    keep the order in which they were found; and sorting a second time
    changes nothing.  Entries found as (b.go, 1), (a.go, 5), (a.go, 2) come
    out as (a.go, 2), (a.go, 5), (b.go, 1). *)
Theorem sort_stable_by_file_and_line :
  (forall m,
     fst (Plsdo.sort m) = Ok tt /\
     StronglySorted entryLe (Plsdo.refs (snd (Plsdo.sort m))) /\
     Permutation (Plsdo.refs m) (Plsdo.refs (snd (Plsdo.sort m))) /\
     (forall f ln,
        List.filter (sameKey f ln) (Plsdo.refs (snd (Plsdo.sort m)))
        = List.filter (sameKey f ln) (Plsdo.refs m)) /\
     snd (Plsdo.sort (snd (Plsdo.sort m))) = snd (Plsdo.sort m)) /\
  (forall c1 c2 c3 client,
     Plsdo.refs (snd (Plsdo.sort
                        {| Plsdo.refs := [ entry "b.go" 1 c1; entry "a.go" 5 c2;
                                           entry "a.go" 2 c3 ];
                           Plsdo.pls := client |}))
     = [ entry "a.go" 2 c3; entry "a.go" 5 c2; entry "b.go" 1 c1 ]).
Proof.
  split; [|reflexivity].
  intros m. unfold Plsdo.sort. simpl. split; [reflexivity|]. split; [|split; [|split]].
  - eapply StronglySorted_mono;
      [|apply (SortStableFunc_sorted Plsdo.compareEntries compareEntries_antisym
                 compareEntries_trans)].
    intros a b. unfold cmpLe. apply compareEntries_le.
  - apply SortStableFunc_Permutation.
  - intros f ln. apply SortStableFunc_stable. apply sameKey_class.
  - f_equal. apply (SortStableFunc_idempotent Plsdo.compareEntries compareEntries_antisym
                      compareEntries_trans).
Qed.

(** * Further properties *)

(** ** Resource locators *)

Lemma drop_append (pre s : string) :
  strings.drop (String.length pre) (String.append pre s) = s.
Proof. induction pre as [|c pre IH]; [reflexivity|exact IH]. Qed.

Lemma prefix_append (pre s : string) : String.prefix pre (String.append pre s) = true.
Proof.
  induction pre as [|c pre IH]; simpl; [destruct s; reflexivity|].
  destruct (ascii_dec c c); [exact IH|contradiction].
Qed.

Lemma prefix_split (pre s : string) :
  String.prefix pre s = true ->
  s = String.append pre (strings.drop (String.length pre) s).
Proof.
  revert s. induction pre as [|c pre IH]; intros s; [reflexivity|].
  destruct s as [|d s]; simpl; [discriminate|].
  destruct (ascii_dec c d) as [<-|]; [|discriminate].
  intros H. change (String c s = String c (String.append pre (strings.drop (String.length pre) s))). f_equal. apply IH, H.
Qed.

Lemma uriToPath_pathToURI (path : string) :
  Gopls.uriToPath (Gopls.pathToURI path) = path.
Proof.
  unfold Gopls.uriToPath, Gopls.pathToURI.
  change (String.index 0 "file://" (String.append "file://" path))
    with (if String.prefix "file://" (String.append "file://" path)
          then Some 0%nat
          else match String.index 0 "file://" (String.append "ile://" path) with
               | Some n => Some (S n) | None => None end).
  rewrite prefix_append. reflexivity.
Qed.

(** X1.  [uriToPath] undoes [pathToURI] on every path, and [pathToURI]
    undoes [uriToPath] on every locator that starts with the scheme. *)
Theorem uri_path_round_trip (path uri : string) :
  Gopls.uriToPath (Gopls.pathToURI path) = path /\
  (strings.HasPrefix uri "file://" = true ->
   Gopls.pathToURI (Gopls.uriToPath uri) = uri).
Proof.
  split; [apply uriToPath_pathToURI|].
  unfold strings.HasPrefix. intros H.
  rewrite (prefix_split _ _ H) at 2.
  unfold Gopls.uriToPath, Gopls.pathToURI.
  destruct uri as [|c uri]; [discriminate|].
  unfold String.index. rewrite H. reflexivity.
Qed.

Lemma uri_path_round_trip_witness :
  strings.HasPrefix "file:///work/proj/pkg/a.go" "file://" = true /\
  Gopls.uriToPath (Gopls.pathToURI Sample.path) = Sample.path /\
  Gopls.pathToURI (Gopls.uriToPath "file:///work/proj/pkg/a.go")
  = "file:///work/proj/pkg/a.go".
Proof.
  split; [reflexivity|]. split.
  - exact (proj1 (uri_path_round_trip Sample.path "file:///work/proj/pkg/a.go")).
  - exact (proj2 (uri_path_round_trip Sample.path "file:///work/proj/pkg/a.go") eq_refl).
Defined.

(** ** Decimal numerals *)

Ltac eval_digit :=
  match goal with
  | |- context [strconv.digit ?c] =>
      let v := eval vm_compute in (strconv.digit c) in
      change (strconv.digit c) with v; cbv iota beta
  end.

Lemma digits_of_uint_acc (d : Decimal.uint) : forall acc : positive,
  strconv.digits (NilEmpty.string_of_uint d) (Z.pos acc)
  = Some (Z.pos (Pos.of_uint_acc d acc)).
Proof.
  induction d; intros acc; cbn [NilEmpty.string_of_uint strconv.digits Pos.of_uint_acc];
    [reflexivity|..]; eval_digit;
    match goal with
    | |- strconv.digits _ ?z = Some (Z.pos (Pos.of_uint_acc _ ?p)) =>
        replace z with (Z.pos p) by lia
    end; apply IHd.
Qed.

Lemma digits_of_uint (d : Decimal.uint) :
  strconv.digits (NilEmpty.string_of_uint d) 0 = Some (Z.of_N (Pos.of_uint d)).
Proof.
  induction d; cbn [NilEmpty.string_of_uint strconv.digits Pos.of_uint];
    [reflexivity|..]; eval_digit; [exact IHd|..]; apply digits_of_uint_acc.
Qed.

(** A string of the bytes [0] to [9]. *)
Lemma string_of_uint_numeral (d : Decimal.uint) :
  numeral (NilEmpty.string_of_uint d) = true.
Proof. induction d; simpl; auto. Qed.

Lemma string_of_uint_nonempty (d : Decimal.uint) :
  d <> Decimal.Nil -> NilEmpty.string_of_uint d <> EmptyString.
Proof. destruct d; simpl; congruence. Qed.

Lemma Itoa_numeral (n : nat) :
  numeral (strconv.Itoa (Z.of_nat n)) = true /\ strconv.Itoa (Z.of_nat n) <> EmptyString.
Proof.
  unfold strconv.Itoa. destruct (Z.of_nat n) as [|p|p] eqn:E; [split; [reflexivity|discriminate]| |lia].
  cbn [Z.to_int NilZero.string_of_int]. unfold NilZero.string_of_uint.
  pose proof (Unsigned.to_uint_nonnil p) as Hn.
  destruct (Pos.to_uint p) eqn:Eu; [contradiction|..];
    (split; [rewrite <- Eu at 1 || idtac; apply (string_of_uint_numeral (_ _))
            |apply string_of_uint_nonempty; discriminate]).
Qed.

Lemma Atoi_numeral (s : string) v :
  numeral s = true -> s <> EmptyString ->
  strconv.digits s 0 = Some v -> v <= GoInt.max_int ->
  0 <= v -> strconv.Atoi s = Some v.
Proof.
  intros Hnum Hne Hd Hmax Hpos. unfold strconv.Atoi.
  destruct s as [|c s]; [contradiction|].
  assert (Hc : isDigit c = true) by (simpl in Hnum; apply andb_true_iff in Hnum; tauto).
  destruct c as [[] [] [] [] [] [] [] []]; try discriminate Hc;
    (rewrite Hd;
     replace ((GoInt.min_int <=? v) && (v <=? GoInt.max_int)) with true;
     [reflexivity|symmetry; apply andb_true_iff; split; apply Z.leb_le;
                  [unfold GoInt.min_int; lia|exact Hmax]]).
Qed.

(** [Atoi] reads back what [Itoa] prints of a length. *)
Lemma Atoi_Itoa (n : nat) :
  Z.of_nat n <= GoInt.max_int ->
  strconv.Atoi (strconv.Itoa (Z.of_nat n)) = Some (Z.of_nat n).
Proof.
  intros Hmax. destruct (Itoa_numeral n) as [Hnum Hne].
  apply Atoi_numeral; [exact Hnum|exact Hne| |exact Hmax|lia].
  unfold strconv.Itoa. destruct (Z.of_nat n) as [|p|p] eqn:E; [reflexivity| |lia].
  cbn [Z.to_int NilZero.string_of_int]. unfold NilZero.string_of_uint.
  pose proof (Unsigned.to_uint_nonnil p) as Hn.
  pose proof (digits_of_uint (Pos.to_uint p)) as Hd.
  rewrite DecimalPos.Unsigned.of_to in Hd.
  destruct (Pos.to_uint p); [contradiction|..]; exact Hd.
Qed.

(** ** Strings *)

Lemma append_assoc (a b c : string) :
  String.append (String.append a b) c = String.append a (String.append b c).
Proof. induction a as [|x a IH]; [reflexivity|exact (f_equal (String x) IH)]. Qed.

Lemma append_nil_r (a : string) : String.append a EmptyString = a.
Proof. induction a as [|x a IH]; [reflexivity|exact (f_equal (String x) IH)]. Qed.

Lemma length_append (a b : string) :
  String.length (String.append a b) = (String.length a + String.length b)%nat.
Proof. induction a as [|x a IH]; [reflexivity|exact (f_equal S IH)]. Qed.

Lemma list_ascii_of_string_append (a b : string) :
  list_ascii_of_string (String.append a b)
  = list_ascii_of_string a ++ list_ascii_of_string b.
Proof. induction a as [|x a IH]; [reflexivity|exact (f_equal (cons x) IH)]. Qed.

Lemma string_of_list_ascii_app (l1 l2 : list ascii) :
  string_of_list_ascii (l1 ++ l2)
  = String.append (string_of_list_ascii l1) (string_of_list_ascii l2).
Proof. induction l1 as [|x l1 IH]; [reflexivity|exact (f_equal (String x) IH)]. Qed.

Lemma rev_append (a b : string) :
  strings.rev (String.append a b) = String.append (strings.rev b) (strings.rev a).
Proof.
  unfold strings.rev.
  rewrite list_ascii_of_string_append, List.rev_app_distr, string_of_list_ascii_app.
  reflexivity.
Qed.

Lemma rev_rev (s : string) : strings.rev (strings.rev s) = s.
Proof.
  unfold strings.rev.
  rewrite list_ascii_of_string_of_list_ascii, List.rev_involutive.
  apply string_of_list_ascii_of_string.
Qed.

Lemma length_rev (s : string) : String.length (strings.rev s) = String.length s.
Proof.
  unfold strings.rev. rewrite <- (string_of_list_ascii_of_string s) at 2.
  generalize (list_ascii_of_string s). intros l.
  assert (H : forall l, String.length (string_of_list_ascii l) = List.length l).
  { clear. induction l as [|x l IH]; simpl; [reflexivity|rewrite IH; reflexivity]. }
  rewrite !H. apply List.length_rev.
Qed.

Lemma asciiSpaces_rev (s : string) : asciiSpaces s = true -> asciiSpaces (strings.rev s) = true.
Proof.
  induction s as [|c s IH]; [reflexivity|].
  simpl. intros H. apply andb_true_iff in H as [Hc Hs].
  change (String c s) with (String.append (String c EmptyString) s).
  rewrite rev_append.
  specialize (IH Hs). revert IH. generalize (strings.rev s). intros r.
  induction r as [|d r IHr]; simpl.
  - intros _. unfold strings.rev. simpl. rewrite Hc. reflexivity.
  - intros H. apply andb_true_iff in H as [Hd Hr]. rewrite Hd. simpl. apply IHr, Hr.
Qed.

(** White space is found neither before a plain byte nor, reading
    backward, behind one. *)
Lemma find_prefix_plain (c : ascii) (s : string) (encodings : list string) :
  plain c = true ->
  Forall (fun u => startsPlain u = false /\ u <> EmptyString) encodings ->
  List.find (fun u => String.prefix u (String c s)) encodings = None.
Proof.
  intros Hc. induction 1 as [|u us [Hu Hne] _ IH]; [reflexivity|].
  cbn [List.find]. destruct u as [|a u]; [contradiction|].
  cbn [String.prefix]. destruct (ascii_dec a c) as [->|]; [|exact IH].
  simpl in Hu. congruence.
Qed.

Lemma spaceAhead_plain (c : ascii) (s : string) :
  plain c = true ->
  strings.spaceAhead strings.unicodeSpaces (String c s) = None /\
  strings.spaceAhead (List.map strings.rev strings.unicodeSpaces) (String c s) = None.
Proof.
  intros H. unfold strings.spaceAhead.
  assert (Hsp : strings.isAsciiSpace c = false).
  { unfold plain in H. destruct (strings.isAsciiSpace c); [discriminate|reflexivity]. }
  rewrite Hsp.
  split; rewrite (find_prefix_plain c s _ H); try reflexivity;
    repeat constructor; discriminate.
Qed.

Lemma trimAhead_plain fuel encodings (s : string) :
  strings.spaceAhead encodings s = None -> strings.trimAhead fuel encodings s = s.
Proof. intros H. destruct fuel; simpl; [reflexivity|rewrite H; reflexivity]. Qed.

Lemma trimAhead_spaces encodings (lead : string) : forall fuel t,
  asciiSpaces lead = true -> (String.length lead <= fuel)%nat ->
  strings.trimAhead fuel encodings (String.append lead t)
  = strings.trimAhead (fuel - String.length lead) encodings t.
Proof.
  induction lead as [|c lead IH]; intros fuel t Hsp Hlen.
  - simpl. rewrite Nat.sub_0_r. reflexivity.
  - simpl in Hsp. apply andb_true_iff in Hsp as [Hc Hsp].
    destruct fuel as [|fuel]; [simpl in Hlen; lia|].
    simpl. rewrite Hc. simpl. apply IH; [exact Hsp|simpl in Hlen; lia].
Qed.

(** [TrimSpace] removes ASCII white space around a text that starts and
    ends with a plain byte, and nothing else. *)
Lemma TrimSpace_around (lead s trail : string) :
  asciiSpaces lead = true -> asciiSpaces trail = true ->
  startsPlain s = true -> startsPlain (strings.rev s) = true ->
  strings.TrimSpace (String.append lead (String.append s trail)) = s.
Proof.
  intros Hlead Htrail Hfirst Hlast. unfold strings.TrimSpace.
  rewrite (trimAhead_spaces _ lead _ _ Hlead)
    by (rewrite length_append; lia).
  destruct s as [|c s]; [discriminate|]. simpl in Hfirst.
  change (String.append (String c s) trail) with (String c (String.append s trail)).
  destruct (spaceAhead_plain c (String.append s trail) Hfirst) as [Hc _].
  rewrite (trimAhead_plain _ _ _ Hc). cbv zeta.
  change (String c (String.append s trail)) with (String.append (String c s) trail).
  rewrite rev_append.
  rewrite (trimAhead_spaces _ (strings.rev trail) _ _ (asciiSpaces_rev _ Htrail))
    by (rewrite length_rev, length_append; lia).
  destruct (strings.rev (String c s)) as [|d r] eqn:Er; [discriminate|].
  simpl in Hlast.
  destruct (spaceAhead_plain d r Hlast) as [_ Hd].
  rewrite (trimAhead_plain _ _ _ Hd).
  rewrite <- Er. apply rev_rev.
Qed.

(** ** Frames *)

Lemma isDigit_plain (c : ascii) : isDigit c = true -> plain c = true.
Proof. destruct c as [[] [] [] [] [] [] [] []]; intros H; try discriminate H; reflexivity. Qed.

Lemma isDigit_not_newline (c : ascii) :
  isDigit c = true -> Ascii.eqb c (ascii_of_nat 10) = false.
Proof.
  intros H. destruct (Ascii.eqb_spec c (ascii_of_nat 10)) as [->|]; [discriminate H|reflexivity].
Qed.

(** A text without the delimiter is read through. *)
Lemma ReadString_append (pre t : string) (delim : ascii) :
  bufio.ReadString pre delim = None ->
  bufio.ReadString (String.append pre t) delim
  = match bufio.ReadString t delim with
    | Some (line, rest) => Some (String.append pre line, rest)
    | None => None
    end.
Proof.
  induction pre as [|c pre IH]; intros H.
  - change (String.append EmptyString t) with t.
    destruct (bufio.ReadString t _) as [[l r]|]; reflexivity.
  - change (String.append (String c pre) t) with (String c (String.append pre t)).
    cbn [bufio.ReadString] in H |- *.
    destruct (Ascii.eqb c delim); [discriminate|].
    destruct (bufio.ReadString pre delim) as [[l r]|]; [discriminate|].
    rewrite (IH eq_refl).
    destruct (bufio.ReadString t _) as [[l r]|]; reflexivity.
Qed.

Lemma ReadString_numeral (num : string) :
  numeral num = true -> bufio.ReadString num (ascii_of_nat 10) = None.
Proof.
  induction num as [|c num IH]; intros H; [reflexivity|].
  simpl in H. apply andb_true_iff in H as [Hc Hn].
  cbn [bufio.ReadString]. rewrite (isDigit_not_newline c Hc), (IH Hn). reflexivity.
Qed.

Lemma numeral_Forall (s : string) :
  numeral s = true <-> Forall (fun c => isDigit c = true) (list_ascii_of_string s).
Proof.
  induction s as [|c s IH]; simpl.
  - split; [constructor|reflexivity].
  - rewrite andb_true_iff, IH. split.
    + intros [H1 H2]. constructor; assumption.
    + intros H. inversion H. auto.
Qed.

(** A numeral starts and ends with a plain byte. *)
Lemma numeral_startsPlain (num t : string) :
  numeral num = true -> num <> EmptyString ->
  startsPlain (String.append num t) = true /\
  startsPlain (String.append (strings.rev num) t) = true.
Proof.
  intros Hnum Hne. split.
  - destruct num as [|c num]; [contradiction|].
    simpl in Hnum. apply andb_true_iff in Hnum as [Hc _].
    apply (isDigit_plain c Hc).
  - apply numeral_Forall in Hnum. unfold strings.rev.
    assert (Hl : list_ascii_of_string num <> []).
    { destruct num; [contradiction|discriminate]. }
    apply List.Forall_rev in Hnum.
    destruct (List.rev (list_ascii_of_string num)) as [|d l] eqn:E.
    + apply (f_equal (@List.rev ascii)) in E. rewrite List.rev_involutive in E.
      contradiction.
    + inversion Hnum as [|? ? Hd _]. apply (isDigit_plain d Hd).
Qed.

Lemma substring_append (a b : string) :
  String.substring 0 (String.length a) (String.append a b) = a.
Proof. induction a as [|x a IH]; [destruct b; reflexivity|exact (f_equal (String x) IH)]. Qed.

Lemma ReadFull_append (a b : string) :
  bufio.ReadFull (String.append a b) (String.length a) = Some (a, b).
Proof.
  unfold bufio.ReadFull. rewrite length_append.
  replace (String.length a <=? String.length a + String.length b)%nat with true
    by (symmetry; apply Nat.leb_le; lia).
  rewrite substring_append, drop_append. reflexivity.
Qed.

(** The header loop on a header line that bears a numeral, and the blank
    line. *)
Lemma readHeaders_numeral (num body : string) (fuel : nat) (c : Gopls.GoplsClient) :
  numeral num = true -> num <> EmptyString ->
  Gopls.stdout c
  = String.append "Content-Length: "
      (String.append num (String.append Gopls.crlf (String.append Gopls.crlf body))) ->
  Gopls.readHeaders (S (S fuel)) ∅ c
  = (Ok (<["Content-Length" := num]> ∅), Gopls.set_stdout body c).
Proof.
  intros Hnum Hne Hout.
  destruct (numeral_startsPlain num EmptyString Hnum Hne) as [Hfirst Hlast].
  rewrite append_nil_r in Hfirst, Hlast.
  assert (Hline : strings.TrimSpace
            (String.append "Content-Length: " (String.append num Gopls.crlf))
          = String.append "Content-Length: " num).
  { rewrite <- append_assoc.
    apply (TrimSpace_around EmptyString (String.append "Content-Length: " num) Gopls.crlf);
      try reflexivity.
    rewrite rev_append.
    apply (numeral_startsPlain num _ Hnum Hne). }
  assert (Hvalue : strings.TrimSpace (String.append " " num) = num).
  { rewrite <- (append_nil_r num) at 1.
    apply (TrimSpace_around " " num EmptyString); try reflexivity; assumption. }
  cbn [Gopls.readHeaders]. rewrite Hout.
  rewrite (ReadString_append "Content-Length: " _ (ascii_of_nat 10) eq_refl).
  rewrite (ReadString_append num _ _ (ReadString_numeral num Hnum)).
  change (bufio.ReadString
            (String.append Gopls.crlf (String.append Gopls.crlf body)) (ascii_of_nat 10))
    with (Some (Gopls.crlf, String.append Gopls.crlf body)).
  cbv iota beta. rewrite Hline.
  change (String.eqb (String.append "Content-Length: " num) "") with false.
  cbv iota.
  change (strings.Cut (String.append "Content-Length: " num) ":")
    with (Some ("Content-Length", String.append " " num)).
  cbv iota beta. rewrite Hvalue.
  change (strings.TrimSpace "Content-Length") with "Content-Length".
  cbn [Gopls.stdout Gopls.set_stdout].
  change (bufio.ReadString (String.append Gopls.crlf body) (ascii_of_nat 10))
    with (Some (Gopls.crlf, body)).
  cbv iota beta.
  change (strings.TrimSpace Gopls.crlf) with EmptyString.
  reflexivity.
Qed.

(** [readMessage] on an output that starts with the header for [n] bytes. *)
Lemma readMessage_header (json_Unmarshal : string -> option Gopls.Msg)
    (n : nat) (body : string) (c : Gopls.GoplsClient) :
  Z.of_nat n <= GoInt.max_int ->
  Gopls.stdout c = String.append (Gopls.header n) body ->
  Gopls.readMessage json_Unmarshal c
  = match bufio.ReadFull body n with
    | None => (Err ErrTransport, Gopls.set_stdout EmptyString c)
    | Some (content, rest) =>
        (match json_Unmarshal content with Some msg => Ok msg | None => Err ErrJSON end,
         Gopls.set_stdout rest c)
    end.
Proof.
  intros Hmax Hout.
  destruct (Itoa_numeral n) as [Hnum Hne].
  assert (Hout' : Gopls.stdout c
          = String.append "Content-Length: "
              (String.append (strconv.Itoa (Z.of_nat n))
                 (String.append Gopls.crlf (String.append Gopls.crlf body)))).
  { rewrite Hout. unfold Gopls.header. rewrite !append_assoc. reflexivity. }
  unfold Gopls.readMessage, bind, get.
  assert (Hfuel : exists fuel, String.length (Gopls.stdout c) = S fuel).
  { rewrite Hout'. eexists. reflexivity. }
  destruct Hfuel as [fuel ->].
  rewrite (readHeaders_numeral _ _ fuel c Hnum Hne Hout').
  rewrite lookup_insert_eq, (Atoi_Itoa _ Hmax).
  replace (Z.of_nat n <? 0) with false by (symmetry; apply Z.ltb_ge; lia).
  cbn [Gopls.stdout Gopls.set_stdout]. rewrite Nat2Z.id.
  destruct (bufio.ReadFull body n) as [[content rest]|]; [|destruct c; reflexivity].
  destruct (json_Unmarshal content); destruct c; reflexivity.
Qed.

(** A frame is read back: on an output that starts with the packet of a
    payload, [readMessage] decodes that payload and leaves exactly what
    follows the packet. *)
Lemma readMessage_packet (json_Unmarshal : string -> option Gopls.Msg)
    (data rest : string) (c : Gopls.GoplsClient) :
  Z.of_nat (String.length data) <= GoInt.max_int ->
  Gopls.stdout c = String.append (packet data) rest ->
  Gopls.readMessage json_Unmarshal c
  = (match json_Unmarshal data with Some msg => Ok msg | None => Err ErrJSON end,
     Gopls.set_stdout rest c).
Proof.
  intros Hmax Hout. unfold packet in Hout. rewrite append_assoc in Hout.
  rewrite (readMessage_header _ _ _ _ Hmax Hout), ReadFull_append. reflexivity.
Qed.

Lemma sendMessage_inv (json_Marshal : Gopls.Msg -> string) msg c c1 :
  Gopls.sendMessage json_Marshal msg c = (Ok tt, c1) ->
  Gopls.stdinOpen c = true /\ c1 = sent json_Marshal msg c.
Proof.
  unfold Gopls.sendMessage, sent.
  destruct (Gopls.stdinOpen c); [|discriminate]. cbn [negb].
  destruct (Gopls.writeFails c) as [|[] w]; [|discriminate|]; intros [= <-]; auto.
Qed.

Lemma sendMessage_err (json_Marshal : Gopls.Msg -> string) msg c e c1 :
  Gopls.sendMessage json_Marshal msg c = (Err e, c1) ->
  e = ErrTransport /\ Gopls.stdin c1 = Gopls.stdin c /\
  Gopls.stdout c1 = Gopls.stdout c /\ Gopls.seq c1 = Gopls.seq c /\
  Gopls.stdinOpen c1 = Gopls.stdinOpen c.
Proof.
  unfold Gopls.sendMessage.
  destruct (Gopls.stdinOpen c) eqn:Eopen; cbn [negb].
  - destruct (Gopls.writeFails c) as [|[] w]; [discriminate| |discriminate].
    intros [= <- <-]. repeat split. exact Eopen.
  - intros [= <- <-]. repeat split. exact Eopen.
Qed.

(** ** Requests and responses *)

(** X2.  What [sendMessage] writes, [readMessage] reads back: a successful
    [sendMessage] appends the packet of the encoded message to the
    subprocess input and nothing else, and a reader whose input starts with
    that packet gets the decoding of the encoded message (the decoder's
    error if it has one) and is left with exactly what follows the packet. *)
Theorem sendMessage_readMessage_round_trip
    (json_Marshal : Gopls.Msg -> string)
    (json_Unmarshal : string -> option Gopls.Msg)
    (msg : Gopls.Msg) (c c1 : Gopls.GoplsClient) :
  Z.of_nat (String.length (json_Marshal msg)) <= GoInt.max_int ->
  Gopls.sendMessage json_Marshal msg c = (Ok tt, c1) ->
  Gopls.stdin c1 = String.append (Gopls.stdin c) (packet (json_Marshal msg)) /\
  Gopls.stdout c1 = Gopls.stdout c /\
  forall (peer : Gopls.GoplsClient) (rest : string),
    Gopls.stdout peer = String.append (packet (json_Marshal msg)) rest ->
    Gopls.readMessage json_Unmarshal peer
    = (match json_Unmarshal (json_Marshal msg) with
       | Some m => Ok m
       | None => Err ErrJSON
       end, Gopls.set_stdout rest peer).
Proof.
  intros Hmax Hsend. destruct (sendMessage_inv _ _ _ _ Hsend) as [_ ->].
  split; [reflexivity|]. split; [reflexivity|].
  intros peer rest Hout. apply readMessage_packet; assumption.
Qed.

Lemma sendMessage_readMessage_round_trip_witness :
  Z.of_nat (String.length (Sample.json_Marshal Sample.logMessage)) <= GoInt.max_int /\
  Gopls.sendMessage Sample.json_Marshal Sample.logMessage
    (Gopls.started EmptyString [] false)
  = (Ok tt, Gopls.set_stdin (Sample.frame Sample.logMessage) []
              (Gopls.started EmptyString [] false)) /\
  Gopls.readMessage Sample.json_Unmarshal
    (Gopls.started (String.append (Sample.frame Sample.logMessage) "next") [] false)
  = (Ok Sample.logMessage, Gopls.started "next" [] false).
Proof.
  split; [vm_compute; discriminate|]. split; [reflexivity|].
  exact (proj2 (proj2
    (sendMessage_readMessage_round_trip Sample.json_Marshal Sample.json_Unmarshal
       Sample.logMessage (Gopls.started EmptyString [] false)
       (Gopls.set_stdin (Sample.frame Sample.logMessage) []
          (Gopls.started EmptyString [] false))
       ltac:(vm_compute; discriminate) eq_refl))
    (Gopls.started (String.append (Sample.frame Sample.logMessage) "next") [] false)
    "next" eq_refl).
Defined.

(** The response loop only reads: it changes nothing of the client but the
    unread output. *)
Lemma awaitResponse_reads (json_Unmarshal : string -> option Gopls.Msg) fuel want :
  forall c, exists r s,
    Gopls.awaitResponse json_Unmarshal fuel want c = (r, Gopls.set_stdout s c).
Proof.
  induction fuel as [|fuel IH]; intros c.
  - exists (Err (Panic "out of fuel")), (Gopls.stdout c). destruct c; reflexivity.
  - rewrite awaitResponse_step.
    destruct (readMessage_reads json_Unmarshal c) as (r & s & -> & _).
    destruct r as [m|e]; [|eauto].
    destruct (Gopls.idMatches m want) as [[|]|e]; [eauto| |eauto].
    destruct (IH (Gopls.set_stdout s c)) as (r' & s' & ->).
    exists r', s'. reflexivity.
Qed.

(** The result of the response loop does not depend on the fuel, once that
    exceeds the length of the unread output. *)
Lemma awaitResponse_enough (json_Unmarshal : string -> option Gopls.Msg) want :
  forall fuel1 fuel2 c,
    (String.length (Gopls.stdout c) < fuel1)%nat ->
    (String.length (Gopls.stdout c) < fuel2)%nat ->
    Gopls.awaitResponse json_Unmarshal fuel1 want c
    = Gopls.awaitResponse json_Unmarshal fuel2 want c.
Proof.
  induction fuel1 as [|fuel1 IH]; intros fuel2 c H1 H2; [inversion H1|].
  destruct fuel2 as [|fuel2]; [inversion H2|].
  rewrite !awaitResponse_step.
  destruct (readMessage_reads json_Unmarshal c) as (r & s & -> & _ & Hlen & _).
  destruct r as [m|e]; [|reflexivity].
  specialize (Hlen m eq_refl).
  destruct (Gopls.idMatches m want) as [[|]|e]; try reflexivity.
  apply IH; simpl; lia.
Qed.

Lemma FindReferences_ok
    (json_Marshal : Gopls.Msg -> string)
    (json_Unmarshal : string -> option Gopls.Msg)
    (filename : string) (line character : Z)
    (c c' : Gopls.GoplsClient) (matches : list Gopls.Match) :
  Gopls.FindReferences json_Marshal json_Unmarshal filename line character c
  = (Ok matches, c') ->
  Gopls.seq c' = GoInt.add (Gopls.seq c) 1 /\
  Gopls.stdin c'
  = String.append (Gopls.stdin c)
      (packet (json_Marshal
                 (Gopls.referencesRequest (Gopls.seq c') filename line character))) /\
  exists resp,
    Gopls.idMatches resp (Gopls.seq c') = Ok true /\
    Gopls.parseReferences resp = Ok matches.
Proof.
  unfold Gopls.FindReferences, bind, Gopls.getSeq, get.
  destruct (Gopls.sendMessage json_Marshal _ _) as [[[]|e] c1] eqn:Esend; [|discriminate].
  destruct (sendMessage_inv _ _ _ _ Esend) as [_ ->].
  destruct (awaitResponse_reads json_Unmarshal
              (Gopls.enoughFuel (sent json_Marshal
                 (Gopls.referencesRequest (GoInt.add (Gopls.seq c) 1) filename line character)
                 (Gopls.set_seq (GoInt.add (Gopls.seq c) 1) c)))
              (GoInt.add (Gopls.seq c) 1)
              (sent json_Marshal
                 (Gopls.referencesRequest (GoInt.add (Gopls.seq c) 1) filename line character)
                 (Gopls.set_seq (GoInt.add (Gopls.seq c) 1) c)))
    as (r & s & Hawait).
  rewrite Hawait. destruct r as [resp|e]; [|discriminate].
  apply awaitResponse_matches in Hawait.
  destruct (Gopls.parseReferences resp) as [ms|e] eqn:Eparse; [|discriminate].
  intros [= <- <-]. cbn [Gopls.seq Gopls.stdin Gopls.set_stdout sent Gopls.set_stdin
                         Gopls.set_seq].
  split; [reflexivity|]. split; [reflexivity|].
  exists resp. split; [exact Hawait|exact Eparse].
Qed.



Lemma sendMessage_ok (json_Marshal : Gopls.Msg -> string) msg c :
  Gopls.stdinOpen c = true -> List.hd false (Gopls.writeFails c) = false ->
  Gopls.sendMessage json_Marshal msg c = (Ok tt, sent json_Marshal msg c).
Proof.
  intros Hopen Hw. unfold Gopls.sendMessage, sent. rewrite Hopen. cbn [negb].
  destruct (Gopls.writeFails c) as [|[] w]; [reflexivity|discriminate Hw|reflexivity].
Qed.

(** X4.  A frame that bears another number as id, or no id, is invisible to
    [FindReferences]: when the request can be written and the first frame
    of the output is such a frame, the call gives what it gives on the
    client that has that frame already behind it, result and final state
    alike. *)
Theorem FindReferences_skips_other_frames
    (json_Marshal : Gopls.Msg -> string)
    (json_Unmarshal : string -> option Gopls.Msg)
    (filename : string) (line character : Z)
    (c c1 : Gopls.GoplsClient) (m : Gopls.Msg) :
  Gopls.stdinOpen c = true ->
  List.hd false (Gopls.writeFails c) = false ->
  Gopls.readMessage json_Unmarshal c = (Ok m, c1) ->
  Gopls.idMatches m (GoInt.add (Gopls.seq c) 1) = Ok false ->
  Gopls.FindReferences json_Marshal json_Unmarshal filename line character c
  = Gopls.FindReferences json_Marshal json_Unmarshal filename line character c1.
Proof.
  intros Hopen Hw Hread Hid.
  destruct (readMessage_reads json_Unmarshal c) as (r & s & H1 & H2 & Hlen & _).
  rewrite H1 in Hread. injection Hread as -> <-. specialize (Hlen m eq_refl).
  unfold Gopls.FindReferences, bind, Gopls.getSeq, get.
  rewrite !sendMessage_ok by assumption.
  cbn [Gopls.seq Gopls.set_stdout].
  set (want := GoInt.add (Gopls.seq c) 1) in *.
  set (req := Gopls.referencesRequest want filename line character).
  assert (Hloop :
    Gopls.awaitResponse json_Unmarshal
      (Gopls.enoughFuel (sent json_Marshal req (Gopls.set_seq want c))) want
      (sent json_Marshal req (Gopls.set_seq want c))
    = Gopls.awaitResponse json_Unmarshal
        (Gopls.enoughFuel
           (sent json_Marshal req (Gopls.set_seq want (Gopls.set_stdout s c)))) want
        (sent json_Marshal req (Gopls.set_seq want (Gopls.set_stdout s c)))).
  { unfold Gopls.enoughFuel at 1. rewrite awaitResponse_step.
    rewrite (H2 (sent json_Marshal req (Gopls.set_seq want c)) eq_refl), Hid.
    apply awaitResponse_enough; unfold sent, Gopls.enoughFuel;
      cbn [Gopls.stdout Gopls.set_stdin Gopls.set_seq Gopls.set_stdout]; lia. }
  rewrite Hloop. reflexivity.
Qed.

Lemma FindReferences_skips_other_frames_witness :
  Gopls.readMessage Sample.json_Unmarshal answering
  = (Ok Sample.logMessage,
     Gopls.started (Sample.frame (Sample.response 1 Sample.referencesToG)) [] false) /\
  Gopls.idMatches Sample.logMessage (GoInt.add (Gopls.seq answering) 1) = Ok false /\
  Gopls.FindReferences Sample.json_Marshal Sample.json_Unmarshal Sample.path 9 6 answering
  = Gopls.FindReferences Sample.json_Marshal Sample.json_Unmarshal Sample.path 9 6
      (Gopls.started (Sample.frame (Sample.response 1 Sample.referencesToG)) [] false).
Proof.
  split; [vm_compute; reflexivity|]. split; [reflexivity|].
  apply (FindReferences_skips_other_frames Sample.json_Marshal Sample.json_Unmarshal
           Sample.path 9 6 answering
           (Gopls.started (Sample.frame (Sample.response 1 Sample.referencesToG)) [] false)
           Sample.logMessage).
  - reflexivity.
  - reflexivity.
  - vm_compute. reflexivity.
  - reflexivity.
Defined.

(** X5.  [Close] on success: it has advanced the sequence number by one,
    written the shutdown request with that number as id and then the exit
    notification, closed the pipe, and the subprocess has ended without
    error.  From then on the client is spent: a later [FindReferences]
    fails on the closed pipe, and neither writes a byte nor reads one. *)
Theorem Close_ends_the_session
    (json_Marshal : Gopls.Msg -> string)
    (json_Unmarshal : string -> option Gopls.Msg)
    (c c1 : Gopls.GoplsClient) :
  Gopls.Close json_Marshal json_Unmarshal c = (Ok tt, c1) ->
  Gopls.stdinOpen c1 = false /\
  Gopls.waitFails c = false /\
  Gopls.seq c1 = GoInt.add (Gopls.seq c) 1 /\
  Gopls.stdin c1
  = String.append (Gopls.stdin c)
      (String.append (packet (json_Marshal (Gopls.shutdownRequest (Gopls.seq c1))))
         (packet (json_Marshal Gopls.exitNotification))) /\
  forall filename line character,
    exists c2,
      Gopls.FindReferences json_Marshal json_Unmarshal filename line character c1
      = (Err ErrTransport, c2) /\
      Gopls.stdin c2 = Gopls.stdin c1 /\ Gopls.stdout c2 = Gopls.stdout c1.
Proof.
  unfold Gopls.Close, bind, Gopls.getSeq, get, modify.
  destruct (Gopls.sendMessage json_Marshal _ _) as [[[]|e] ca] eqn:Esend; [|discriminate].
  destruct (sendMessage_inv _ _ _ _ Esend) as [_ ->].
  destruct (awaitResponse_reads json_Unmarshal
              (Gopls.enoughFuel (sent json_Marshal
                 (Gopls.shutdownRequest (GoInt.add (Gopls.seq c) 1))
                 (Gopls.set_seq (GoInt.add (Gopls.seq c) 1) c)))
              (GoInt.add (Gopls.seq c) 1)
              (sent json_Marshal
                 (Gopls.shutdownRequest (GoInt.add (Gopls.seq c) 1))
                 (Gopls.set_seq (GoInt.add (Gopls.seq c) 1) c)))
    as (r & s & ->).
  destruct r as [resp|e]; [|discriminate].
  destruct (Gopls.sendMessage json_Marshal Gopls.exitNotification _)
    as [[[]|e] cb] eqn:Eexit; [|discriminate].
  destruct (sendMessage_inv _ _ _ _ Eexit) as [_ ->].
  cbn [Gopls.waitFails Gopls.close_stdin sent Gopls.set_stdin Gopls.set_stdout
       Gopls.set_seq].
  destruct (Gopls.waitFails c) eqn:Ewait; [discriminate|].
  intros [= <-]. unfold sent.
  cbn [Gopls.stdinOpen Gopls.seq Gopls.stdin Gopls.stdout Gopls.close_stdin
       Gopls.set_stdin Gopls.set_stdout Gopls.set_seq].
  split; [reflexivity|]. split; [reflexivity|]. split; [reflexivity|].
  split; [rewrite append_assoc; reflexivity|].
  intros filename line character. eexists.
  unfold Gopls.FindReferences, bind, Gopls.getSeq, Gopls.sendMessage.
  cbn [Gopls.stdinOpen Gopls.set_seq negb]. split; [reflexivity|].
  split; reflexivity.
Qed.

Lemma Close_ends_the_session_witness :
  Gopls.Close Sample.json_Marshal Sample.json_Unmarshal closing = (Ok tt, closed) /\
  Gopls.stdinOpen closed = false /\
  exists c2,
    Gopls.FindReferences Sample.json_Marshal Sample.json_Unmarshal Sample.path 9 6 closed
    = (Err ErrTransport, c2) /\
    Gopls.stdin c2 = Gopls.stdin closed /\ Gopls.stdout c2 = Gopls.stdout closed.
Proof.
  split; [vm_compute; reflexivity|]. split; [reflexivity|].
  exact (proj2 (proj2 (proj2 (proj2
    (Close_ends_the_session Sample.json_Marshal Sample.json_Unmarshal closing closed
       ltac:(vm_compute; reflexivity))))) Sample.path 9 6).
Defined.

(** X6.  When [Close] fails before the subprocess is waited for, it leaves
    the pipe open: no error of the shutdown exchange closes the input of
    the subprocess. *)
Theorem Close_failure_leaves_pipe_open
    (json_Marshal : Gopls.Msg -> string)
    (json_Unmarshal : string -> option Gopls.Msg)
    (c c1 : Gopls.GoplsClient) (e : Error) :
  Gopls.stdinOpen c = true ->
  Gopls.waitFails c = false ->
  Gopls.Close json_Marshal json_Unmarshal c = (Err e, c1) ->
  Gopls.stdinOpen c1 = true.
Proof.
  intros Hopen Hwait.
  unfold Gopls.Close, bind, Gopls.getSeq, get, modify.
  destruct (Gopls.sendMessage json_Marshal _ _) as [[[]|e1] ca] eqn:Esend.
  2:{ intros [= _ <-]. destruct (sendMessage_err _ _ _ _ _ Esend) as (_ & _ & _ & _ & ->).
      exact Hopen. }
  destruct (sendMessage_inv _ _ _ _ Esend) as [_ ->].
  destruct (awaitResponse_reads json_Unmarshal
              (Gopls.enoughFuel (sent json_Marshal
                 (Gopls.shutdownRequest (GoInt.add (Gopls.seq c) 1))
                 (Gopls.set_seq (GoInt.add (Gopls.seq c) 1) c)))
              (GoInt.add (Gopls.seq c) 1)
              (sent json_Marshal
                 (Gopls.shutdownRequest (GoInt.add (Gopls.seq c) 1))
                 (Gopls.set_seq (GoInt.add (Gopls.seq c) 1) c)))
    as (r & s & ->).
  destruct r as [resp|e1]; [|intros [= _ <-]; exact Hopen].
  destruct (Gopls.sendMessage json_Marshal Gopls.exitNotification _)
    as [[[]|e1] cb] eqn:Eexit.
  2:{ intros [= _ <-]. destruct (sendMessage_err _ _ _ _ _ Eexit) as (_ & _ & _ & _ & ->).
      exact Hopen. }
  destruct (sendMessage_inv _ _ _ _ Eexit) as [_ ->].
  cbn [Gopls.waitFails Gopls.close_stdin sent Gopls.set_stdin Gopls.set_stdout
       Gopls.set_seq].
  rewrite Hwait. discriminate.
Qed.

Lemma Close_failure_leaves_pipe_open_witness :
  Gopls.stdinOpen silent = true /\
  Gopls.waitFails silent = false /\
  Gopls.Close Sample.json_Marshal Sample.json_Unmarshal silent
  = (Err ErrTransport,
     sent Sample.json_Marshal (Gopls.shutdownRequest 1) (Gopls.set_seq 1 silent)) /\
  Gopls.stdinOpen
    (sent Sample.json_Marshal (Gopls.shutdownRequest 1) (Gopls.set_seq 1 silent)) = true.
Proof.
  split; [reflexivity|]. split; [reflexivity|]. split; [vm_compute; reflexivity|].
  apply (Close_failure_leaves_pipe_open Sample.json_Marshal Sample.json_Unmarshal
           silent
           (sent Sample.json_Marshal (Gopls.shutdownRequest 1) (Gopls.set_seq 1 silent))
           ErrTransport).
  - reflexivity.
  - reflexivity.
  - vm_compute. reflexivity.
Defined.




(** X8.  The handshake of [initialize], when the pipe takes every write:
    the initialize request goes out first, with the next sequence number
    as id; the call fails exactly when no frame can be read then, with the
    error of that read and nothing more written; otherwise the initialized
    notification and the configuration notification follow, in that
    order. *)
Theorem initialize_handshake
    (json_Marshal : Gopls.Msg -> string)
    (json_Unmarshal : string -> option Gopls.Msg)
    (projectRoot : string) (c : Gopls.GoplsClient) :
  Gopls.stdinOpen c = true ->
  Gopls.writeFails c = [] ->
  let request :=
    packet (json_Marshal
              (Gopls.initializeRequest (GoInt.add (Gopls.seq c) 1) projectRoot)) in
  let outcome := Gopls.initialize json_Marshal json_Unmarshal projectRoot c in
  Gopls.seq (snd outcome) = GoInt.add (Gopls.seq c) 1 /\
  match fst (Gopls.readMessage json_Unmarshal c) with
  | Ok _ =>
      fst outcome = Ok tt /\
      Gopls.stdin (snd outcome)
      = String.append (Gopls.stdin c)
          (String.append request
             (String.append (packet (json_Marshal Gopls.initializedNotification))
                (packet (json_Marshal Gopls.didChangeConfigNotification))))
  | Err e =>
      fst outcome = Err e /\
      Gopls.stdin (snd outcome) = String.append (Gopls.stdin c) request
  end.
Proof.
  intros Hopen Hw request outcome. subst request outcome.
  destruct (readMessage_reads json_Unmarshal c) as (r & s & H1 & H2 & _).
  rewrite H1. cbn [fst].
  unfold Gopls.initialize, bind, Gopls.getSeq.
  rewrite sendMessage_ok by (cbn [Gopls.stdinOpen Gopls.writeFails Gopls.set_seq];
                             rewrite ?Hw; auto).
  rewrite (H2 (sent json_Marshal _ (Gopls.set_seq _ c)) eq_refl).
  destruct r as [m|e]; [|split; [reflexivity|split; reflexivity]].
  rewrite sendMessage_ok
    by (unfold sent; cbn [Gopls.stdinOpen Gopls.writeFails Gopls.set_seq
                          Gopls.set_stdin Gopls.set_stdout]; rewrite ?Hw; auto).
  rewrite sendMessage_ok
    by (unfold sent; cbn [Gopls.stdinOpen Gopls.writeFails Gopls.set_seq
                          Gopls.set_stdin Gopls.set_stdout]; rewrite ?Hw; auto).
  unfold sent. cbn [fst snd Gopls.seq Gopls.stdin Gopls.set_stdin Gopls.set_stdout
                    Gopls.set_seq].
  split; [reflexivity|]. split; [reflexivity|].
  rewrite !append_assoc. reflexivity.
Qed.

Lemma initialize_handshake_witness :
  Gopls.stdinOpen closing = true /\
  Gopls.writeFails closing = [] /\
  Gopls.seq (snd (Gopls.initialize Sample.json_Marshal Sample.json_Unmarshal
                    Sample.root closing)) = GoInt.add (Gopls.seq closing) 1 /\
  match fst (Gopls.readMessage Sample.json_Unmarshal closing) with
  | Ok _ =>
      fst (Gopls.initialize Sample.json_Marshal Sample.json_Unmarshal Sample.root closing)
      = Ok tt /\
      Gopls.stdin (snd (Gopls.initialize Sample.json_Marshal Sample.json_Unmarshal
                          Sample.root closing))
      = String.append (Gopls.stdin closing)
          (String.append
             (packet (Sample.json_Marshal
                        (Gopls.initializeRequest (GoInt.add (Gopls.seq closing) 1)
                           Sample.root)))
             (String.append (packet (Sample.json_Marshal Gopls.initializedNotification))
                (packet (Sample.json_Marshal Gopls.didChangeConfigNotification))))
  | Err e =>
      fst (Gopls.initialize Sample.json_Marshal Sample.json_Unmarshal Sample.root closing)
      = Err e /\
      Gopls.stdin (snd (Gopls.initialize Sample.json_Marshal Sample.json_Unmarshal
                          Sample.root closing))
      = String.append (Gopls.stdin closing)
          (packet (Sample.json_Marshal
                     (Gopls.initializeRequest (GoInt.add (Gopls.seq closing) 1)
                        Sample.root)))
  end.
Proof.
  split; [reflexivity|]. split; [reflexivity|].
  exact (initialize_handshake Sample.json_Marshal Sample.json_Unmarshal
           Sample.root closing eq_refl eq_refl).
Defined.


(** ** The analyzer only grows *)

Lemma grows_refl a : grows a a.
Proof.
  split; [intros f x H; exact H|]. split; [exists []; rewrite app_nil_r; reflexivity|auto].
Qed.

Lemma grows_trans a b c : grows a b -> grows b c -> grows a c.
Proof.
  intros (H1 & [m1 H2] & H3) (K1 & [m2 K2] & K3).
  split; [intros f x H; apply K1, H1, H|]. split.
  - exists (m1 ++ m2). rewrite K2, H2, app_assoc. reflexivity.
  - auto.
Qed.

Lemma FileOf_range s p tf :
  token.FileOf s p = Some tf -> token.base tf <= p <= token.base tf + token.size tf.
Proof.
  unfold token.FileOf. destruct (p =? token.NoPos); [discriminate|].
  destruct (token.searchFiles (token.files s) p) as [f|] eqn:E; [|discriminate].
  destruct (p <=? token.base f + token.size f) eqn:E2; [|discriminate].
  intros [= <-]. split; [|lia].
  clear E2. revert E. generalize (token.files s). intros fl.
  induction fl as [|g fl IH]; [discriminate|]. simpl.
  destruct (token.searchFiles fl p) as [h|] eqn:Eh.
  - intros [= <-]. apply IH. reflexivity.
  - destruct (token.base g <=? p) eqn:Eg; [|discriminate].
    intros [= <-]. lia.
Qed.

Lemma grows_keepsPositions a a' :
  token.wf (Analyzer.fset a) -> grows a a' -> keepsPositions a a'.
Proof.
  intros Hwf (_ & [more Hfiles] & Hwf') p tf Hp.
  assert (Hp' : token.FileOf (Analyzer.fset a') p = Some tf).
  { apply FileOf_owner; [apply Hwf', Hwf| |eapply FileOf_range, Hp].
    rewrite Hfiles. apply in_or_app. left. eapply FileOf_In, Hp. }
  split; [exact Hp'|]. unfold token.PositionOf. rewrite Hp, Hp'. reflexivity.
Qed.

Section AnalyzerGrows.

Variable ReadFile : string -> option string.
Variable parser_ParseFile : string -> Z -> string -> list Z * option goast.File.
Variable build_Import : string -> option (string * list string).
Variable filepath_Join : string -> string -> string.
Variable IsExported : string -> bool.

Lemma ParseFile_grows filePath a :
  grows a (snd (Analyzer.ParseFile ReadFile parser_ParseFile filePath a)).
Proof.
  split; [|split; [|apply ParseFile_wf]].
  - intros f x Hf. unfold Analyzer.ParseFile.
    destruct (Analyzer.fileMap a !! filePath) eqn:E; [exact Hf|].
    destruct (ReadFile filePath) as [src|]; [|exact Hf].
    destruct (parser_ParseFile _ _ _) as [added parsed].
    destruct (token.AddFile _ _ _ _) as [tf fset'].
    destruct parsed as [file|]; [|exact Hf].
    cbn [snd Analyzer.fileMap]. rewrite lookup_insert_ne; [exact Hf|].
    intros ->. rewrite E in Hf. discriminate.
  - unfold Analyzer.ParseFile.
    destruct (Analyzer.fileMap a !! filePath);
      [exists []; rewrite app_nil_r; reflexivity|].
    destruct (ReadFile filePath) as [src|];
      [|exists []; rewrite app_nil_r; reflexivity].
    destruct (parser_ParseFile _ _ _) as [added parsed].
    unfold token.AddFile. destruct parsed; eexists; reflexivity.
Qed.

Lemma getPosition_state filePath line character a :
  snd (Analyzer.getPosition filePath line character a) = a.
Proof.
  unfold Analyzer.getPosition.
  destruct (Analyzer.fileMap a !! filePath) as [f|]; [|reflexivity].
  destruct (token.FileOf _ _) as [tf|]; [|reflexivity].
  destruct ((line <? 1) || (token.LineCount tf <? line)); [reflexivity|].
  destruct (token.LineStart tf line); reflexivity.
Qed.

(** The queries change the analyzer through [ParseFile] only. *)
Lemma ExtractFullCall_state filePath line character a :
  snd (Analyzer.ExtractFullCall ReadFile parser_ParseFile filePath line character a)
  = snd (Analyzer.ParseFile ReadFile parser_ParseFile filePath a).
Proof.
  unfold Analyzer.ExtractFullCall, bind, get, fail, ret.
  destruct (Analyzer.ParseFile ReadFile parser_ParseFile filePath a) as [[[]|e] a1];
    [|reflexivity].
  cbn [snd]. destruct (ReadFile filePath) as [src|]; [|reflexivity].
  pose proof (getPosition_state filePath line character a1) as Hst.
  destruct (Analyzer.getPosition filePath line character a1) as [[position|e] a2];
    cbn [snd] in Hst; subst a2; [|reflexivity].
  destruct (position =? token.NoPos); [reflexivity|].
  destruct (Analyzer.fileMap a1 !! filePath) as [file|]; [|reflexivity].
  destruct (goast.Inspect _ _ _) as [target|]; [|reflexivity].
  cbv zeta. destruct (_ || _); reflexivity.
Qed.

Lemma GetEnclosingFunctionName_state filePath line character a :
  snd (Analyzer.GetEnclosingFunctionName ReadFile parser_ParseFile filePath line
         character a)
  = snd (Analyzer.ParseFile ReadFile parser_ParseFile filePath a).
Proof.
  unfold Analyzer.GetEnclosingFunctionName, bind, get, fail, ret.
  destruct (Analyzer.ParseFile ReadFile parser_ParseFile filePath a) as [[[]|e] a1];
    [|reflexivity].
  cbn [snd]. destruct (Analyzer.fileMap a1 !! filePath) as [file|]; [|reflexivity].
  pose proof (getPosition_state filePath line character a1) as Hst.
  destruct (Analyzer.getPosition filePath line character a1) as [[position|e] a2];
    cbn [snd] in Hst; subst a2; [|reflexivity].
  destruct (position =? token.NoPos); [reflexivity|].
  cbv zeta. destruct (negb _); reflexivity.
Qed.

Lemma scanFiles_grows dir pkgPath funcPattern goFiles : forall matches a,
  grows a (snd (Analyzer.scanFiles ReadFile parser_ParseFile filepath_Join IsExported
                  dir pkgPath funcPattern goFiles matches a)).
Proof.
  induction goFiles as [|file rest IH]; intros matches a; [apply grows_refl|].
  cbn [Analyzer.scanFiles]. unfold bind, get, fail.
  pose proof (ParseFile_grows (filepath_Join dir file) a) as Hg.
  destruct (Analyzer.ParseFile ReadFile parser_ParseFile (filepath_Join dir file) a)
    as [[[]|e] a1]; cbn [snd] in Hg |- *; [|exact Hg].
  destruct (Analyzer.fileMap a1 !! filepath_Join dir file) as [node|]; [|exact Hg].
  eapply grows_trans; [exact Hg|apply IH].
Qed.

Lemma FindFuncDefinitions_grows pkgPath funcPattern a :
  grows a (snd (Analyzer.FindFuncDefinitions ReadFile parser_ParseFile build_Import
                  filepath_Join IsExported pkgPath funcPattern a)).
Proof.
  unfold Analyzer.FindFuncDefinitions.
  destruct (build_Import pkgPath) as [[dir goFiles]|]; [|apply grows_refl].
  apply scanFiles_grows.
Qed.

End AnalyzerGrows.

(** X9.  The cache of parsed files never loses or replaces an entry: a
    path that has a tree in the cache has the same tree after [ParseFile],
    [ExtractFullCall], [GetEnclosingFunctionName] and [FindFuncDefinitions],
    on any path or package, whether the operation succeeds or fails. *)
Theorem cache_entries_are_kept
    (ReadFile : string -> option string)
    (parser_ParseFile : string -> Z -> string -> list Z * option goast.File)
    (build_Import : string -> option (string * list string))
    (filepath_Join : string -> string -> string)
    (IsExported : string -> bool)
    (a : Analyzer.ASTProcessor) :
  (forall filePath,
     keepsCache a (snd (Analyzer.ParseFile ReadFile parser_ParseFile filePath a))) /\
  (forall filePath line character,
     keepsCache a (snd (Analyzer.ExtractFullCall ReadFile parser_ParseFile filePath
                          line character a))) /\
  (forall filePath line character,
     keepsCache a (snd (Analyzer.GetEnclosingFunctionName ReadFile parser_ParseFile
                          filePath line character a))) /\
  (forall pkgPath funcPattern,
     keepsCache a (snd (Analyzer.FindFuncDefinitions ReadFile parser_ParseFile
                          build_Import filepath_Join IsExported pkgPath funcPattern a))).
Proof.
  split; [|split; [|split]].
  - intros filePath. apply ParseFile_grows.
  - intros filePath line character. rewrite ExtractFullCall_state. apply ParseFile_grows.
  - intros filePath line character. rewrite GetEnclosingFunctionName_state.
    apply ParseFile_grows.
  - intros pkgPath funcPattern. apply FindFuncDefinitions_grows.
Qed.

(** X10.  Positions stay valid.  On an analyzer whose file set is well
    formed (as that of [NewASTProcessor] is, and as every operation keeps
    it), a position that lies in a file of the file set belongs to the same
    file, and has the same file name, offset, line and column, after
    [ParseFile], [ExtractFullCall], [GetEnclosingFunctionName] and
    [FindFuncDefinitions]. *)
Theorem positions_stay_valid
    (ReadFile : string -> option string)
    (parser_ParseFile : string -> Z -> string -> list Z * option goast.File)
    (build_Import : string -> option (string * list string))
    (filepath_Join : string -> string -> string)
    (IsExported : string -> bool)
    (a : Analyzer.ASTProcessor) :
  token.wf (Analyzer.fset a) ->
  (forall filePath,
     keepsPositions a (snd (Analyzer.ParseFile ReadFile parser_ParseFile filePath a))) /\
  (forall filePath line character,
     keepsPositions a (snd (Analyzer.ExtractFullCall ReadFile parser_ParseFile filePath
                              line character a))) /\
  (forall filePath line character,
     keepsPositions a (snd (Analyzer.GetEnclosingFunctionName ReadFile parser_ParseFile
                              filePath line character a))) /\
  (forall pkgPath funcPattern,
     keepsPositions a (snd (Analyzer.FindFuncDefinitions ReadFile parser_ParseFile
                              build_Import filepath_Join IsExported pkgPath
                              funcPattern a))).
Proof.
  intros Hwf. split; [|split; [|split]].
  - intros filePath. apply grows_keepsPositions, ParseFile_grows. exact Hwf.
  - intros filePath line character. rewrite ExtractFullCall_state.
    apply grows_keepsPositions, ParseFile_grows. exact Hwf.
  - intros filePath line character. rewrite GetEnclosingFunctionName_state.
    apply grows_keepsPositions, ParseFile_grows. exact Hwf.
  - intros pkgPath funcPattern.
    apply grows_keepsPositions, FindFuncDefinitions_grows. exact Hwf.
Qed.

Lemma positions_stay_valid_witness :
  token.wf (Analyzer.fset Sample.parsed) /\
  token.FileOf (Analyzer.fset Sample.parsed) 36 = Some Sample.tokenFile /\
  token.PositionOf (Analyzer.fset Sample.afterBad) 36
  = token.PositionOf (Analyzer.fset Sample.parsed) 36.
Proof.
  assert (Hwf : token.wf (Analyzer.fset Sample.parsed)).
  { apply (ParseFile_wf Sample.ReadFile Sample.parser_ParseFile Sample.path
             Analyzer.NewASTProcessor), NewFileSet_wf. }
  split; [exact Hwf|]. split; [reflexivity|].
  exact (proj2 (proj1 (positions_stay_valid Sample.ReadFile Sample.parser_ParseFile
                         Sample.build_Import Sample.filepath_Join Sample.IsExported
                         Sample.parsed Hwf) Sample.badPath 36 Sample.tokenFile eq_refl)).
Defined.

(** ** Definitions of a package *)

Section DefinitionsFacts.

Variable ReadFile : string -> option string.
Variable parser_ParseFile : string -> Z -> string -> list Z * option goast.File.
Variable build_Import : string -> option (string * list string).
Variable filepath_Join : string -> string -> string.
Variable IsExported : string -> bool.

Lemma omap_cons_eq {A B} (f : A -> option B) (x : A) (l : list A) :
  omap f (x :: l) = match f x with Some y => y :: omap f l | None => omap f l end.
Proof. reflexivity. Qed.

Lemma scanDecls_signatures fs pkgPath funcPattern decls : forall matches,
  List.map signature (Analyzer.scanDecls IsExported fs pkgPath funcPattern decls matches)
  = List.map signature matches
    ++ omap (definitionIn IsExported pkgPath funcPattern) decls.
Proof.
  induction decls as [|decl rest IH]; intros matches.
  - cbn. rewrite app_nil_r. reflexivity.
  - cbn [Analyzer.scanDecls]. rewrite IH, omap_cons_eq.
    unfold definitionIn at 2.
    destruct (goast.kind decl) as [fd| | |]; try reflexivity.
    destruct (IsExported (goast.Name fd)); cbn [negb andb]; [|reflexivity].
    destruct (Analyzer.isFuncMatch fd funcPattern); cbn [negb]; [|reflexivity].
    destruct (Analyzer.extractRecvType fd) as [recvType recvName].
    rewrite List.map_app, <- app_assoc. reflexivity.
Qed.

Lemma ParseFile_err_kind filePath a e a1 :
  Analyzer.ParseFile ReadFile parser_ParseFile filePath a = (Err e, a1) ->
  e = ErrReadFile filePath \/ e = ErrParseFile filePath.
Proof.
  unfold Analyzer.ParseFile.
  destruct (Analyzer.fileMap a !! filePath); [discriminate|].
  destruct (ReadFile filePath) as [src|]; [|intros [= <- _]; auto].
  destruct (parser_ParseFile _ _ _) as [added parsed].
  destruct (token.AddFile _ _ _ _) as [tf fset'].
  destruct parsed; [discriminate|intros [= <- _]; auto].
Qed.

Lemma scanFiles_signatures dir pkgPath funcPattern goFiles : forall matches a result a1,
  Analyzer.scanFiles ReadFile parser_ParseFile filepath_Join IsExported
    dir pkgPath funcPattern goFiles matches a = (Ok result, a1) ->
  List.map signature result
  = List.map signature matches
    ++ flat_map (fun file =>
                   omap (definitionIn IsExported pkgPath funcPattern)
                     (declsOf a1 (filepath_Join dir file))) goFiles.
Proof.
  induction goFiles as [|file rest IH]; intros matches a result a1.
  - cbn. intros [= <- _]. rewrite app_nil_r. reflexivity.
  - cbn [Analyzer.scanFiles flat_map]. unfold bind, get, fail.
    destruct (Analyzer.ParseFile ReadFile parser_ParseFile (filepath_Join dir file) a)
      as [[[]|e] a0]; [|discriminate].
    destruct (Analyzer.fileMap a0 !! filepath_Join dir file) as [node|] eqn:Enode;
      [|discriminate].
    intros Hscan.
    pose proof (scanFiles_grows ReadFile parser_ParseFile filepath_Join IsExported
                  dir pkgPath funcPattern rest
                  (Analyzer.scanDecls IsExported (Analyzer.fset a0) pkgPath funcPattern
                     (goast.Decls node) matches) a0) as (Hkeep & _).
    rewrite Hscan in Hkeep. cbn [snd] in Hkeep.
    rewrite (IH _ _ _ _ Hscan), scanDecls_signatures, <- app_assoc.
    unfold declsOf at 2. rewrite (Hkeep _ _ Enode). reflexivity.
Qed.

Lemma scanFiles_errors dir pkgPath funcPattern goFiles : forall matches a e a1,
  Analyzer.scanFiles ReadFile parser_ParseFile filepath_Join IsExported
    dir pkgPath funcPattern goFiles matches a = (Err e, a1) ->
  exists file,
    In file goFiles /\
    (e = ErrReadFile (filepath_Join dir file) \/
     e = ErrParseFile (filepath_Join dir file)) /\
    Analyzer.fileMap a1 !! filepath_Join dir file = None.
Proof.
  induction goFiles as [|file rest IH]; intros matches a e a1; [discriminate|].
  cbn [Analyzer.scanFiles]. unfold bind, get, fail.
  destruct (Analyzer.ParseFile ReadFile parser_ParseFile (filepath_Join dir file) a)
    as [[[]|e0] a0] eqn:Eparse.
  - destruct (ParseFile_ok _ _ _ _ _ Eparse) as [node Hnode]. rewrite Hnode.
    intros Hscan. destruct (IH _ _ _ _ Hscan) as (f & Hin & He & Hnone).
    exists f. split; [right; exact Hin|]. split; assumption.
  - intros [= <- <-]. exists file. split; [left; reflexivity|]. split.
    + eapply ParseFile_err_kind, Eparse.
    + destruct (ParseFile_err _ _ _ _ _ _ Eparse) as [Hnone Hsame].
      rewrite Hsame. exact Hnone.
Qed.

End DefinitionsFacts.

(** X11.  [FindFuncDefinitions] returns exactly the exported function
    declarations that match: in the order of the package's files and, within
    a file, of its top-level declarations, one definition for each function
    declaration whose name is exported and that [isFuncMatch] accepts, and
    nothing else; each bears the package path it was asked for, the receiver
    type and name of [extractRecvType], and the function name. *)
Theorem FindFuncDefinitions_lists_matching_declarations
    (ReadFile : string -> option string)
    (parser_ParseFile : string -> Z -> string -> list Z * option goast.File)
    (build_Import : string -> option (string * list string))
    (filepath_Join : string -> string -> string)
    (IsExported : string -> bool)
    (pkgPath : string) (funcPattern : list string)
    (a a1 : Analyzer.ASTProcessor) (matches : list Analyzer.Match) :
  Analyzer.FindFuncDefinitions ReadFile parser_ParseFile build_Import filepath_Join
    IsExported pkgPath funcPattern a = (Ok matches, a1) ->
  exists dir goFiles,
    build_Import pkgPath = Some (dir, goFiles) /\
    Forall (fun file => is_Some (Analyzer.fileMap a1 !! filepath_Join dir file)) goFiles /\
    List.map signature matches
    = flat_map (fun file =>
                  omap (definitionIn IsExported pkgPath funcPattern)
                    (declsOf a1 (filepath_Join dir file))) goFiles.
Proof.
  unfold Analyzer.FindFuncDefinitions.
  destruct (build_Import pkgPath) as [[dir goFiles]|]; [|discriminate].
  intros Hscan. exists dir, goFiles. split; [reflexivity|]. split.
  - clear -Hscan. revert Hscan. generalize (@nil Analyzer.Match). revert a.
    induction goFiles as [|file rest IH]; intros a acc Hscan; [constructor|].
    cbn [Analyzer.scanFiles] in Hscan. unfold bind, get, fail in Hscan.
    destruct (Analyzer.ParseFile ReadFile parser_ParseFile (filepath_Join dir file) a)
      as [[[]|e] a0]; [|discriminate].
    destruct (Analyzer.fileMap a0 !! filepath_Join dir file) as [node|] eqn:Enode;
      [|discriminate].
    constructor; [|eapply IH, Hscan].
    pose proof (scanFiles_grows ReadFile parser_ParseFile filepath_Join IsExported
                  dir pkgPath funcPattern rest
                  (Analyzer.scanDecls IsExported (Analyzer.fset a0) pkgPath funcPattern
                     (goast.Decls node) acc) a0) as (Hkeep & _).
    rewrite Hscan in Hkeep. exists node. apply Hkeep, Enode.
  - apply (scanFiles_signatures _ _ _ _ _ _ _ _ _ _ _ _ Hscan).
Qed.

Lemma FindFuncDefinitions_lists_matching_declarations_witness :
  Analyzer.FindFuncDefinitions Sample.ReadFile Sample.parser_ParseFile
    Sample.build_Import Sample.filepath_Join Sample.IsExported
    Sample.pkgPath ["G"; "T.*"] Analyzer.NewASTProcessor
  = (Ok [ {| Analyzer.Pkg := Sample.pkgPath; Analyzer.RecvType := "";
             Analyzer.RecvName := ""; Analyzer.FuncName := "G";
             Analyzer.Filename := Sample.path;
             Analyzer.OffsetLine := 9; Analyzer.OffsetCol := 6 |};
          {| Analyzer.Pkg := Sample.pkgPath; Analyzer.RecvType := "*T";
             Analyzer.RecvName := "s"; Analyzer.FuncName := "M";
             Analyzer.Filename := Sample.path;
             Analyzer.OffsetLine := 11; Analyzer.OffsetCol := 13 |} ],
     Sample.parsed) /\
  exists dir goFiles,
    Sample.build_Import Sample.pkgPath = Some (dir, goFiles) /\
    Forall (fun file =>
              is_Some (Analyzer.fileMap Sample.parsed !! Sample.filepath_Join dir file))
      goFiles /\
    [ (Sample.pkgPath, "", "", "G"); (Sample.pkgPath, "*T", "s", "M") ]
    = flat_map (fun file =>
                  omap (definitionIn Sample.IsExported Sample.pkgPath ["G"; "T.*"])
                    (declsOf Sample.parsed (Sample.filepath_Join dir file))) goFiles.
Proof.
  split; [vm_compute; reflexivity|].
  exact (FindFuncDefinitions_lists_matching_declarations
           Sample.ReadFile Sample.parser_ParseFile Sample.build_Import
           Sample.filepath_Join Sample.IsExported Sample.pkgPath ["G"; "T.*"]
           Analyzer.NewASTProcessor Sample.parsed _ ltac:(vm_compute; reflexivity)).
Defined.

(** X12.  [FindFuncDefinitions] fails in three ways only, and never by a
    panic: the package cannot be resolved; or a file of the package cannot
    be read; or one cannot be parsed.  In the last two cases the error
    names the file, and that file has no entry in the cache. *)
Theorem FindFuncDefinitions_errors
    (ReadFile : string -> option string)
    (parser_ParseFile : string -> Z -> string -> list Z * option goast.File)
    (build_Import : string -> option (string * list string))
    (filepath_Join : string -> string -> string)
    (IsExported : string -> bool)
    (pkgPath : string) (funcPattern : list string)
    (a a1 : Analyzer.ASTProcessor) (e : Error) :
  Analyzer.FindFuncDefinitions ReadFile parser_ParseFile build_Import filepath_Join
    IsExported pkgPath funcPattern a = (Err e, a1) ->
  (build_Import pkgPath = None /\ e = ErrImport pkgPath /\ a1 = a) \/
  (exists dir goFiles file,
     build_Import pkgPath = Some (dir, goFiles) /\
     In file goFiles /\
     (e = ErrReadFile (filepath_Join dir file) \/
      e = ErrParseFile (filepath_Join dir file)) /\
     Analyzer.fileMap a1 !! filepath_Join dir file = None).
Proof.
  unfold Analyzer.FindFuncDefinitions.
  destruct (build_Import pkgPath) as [[dir goFiles]|].
  - intros Hscan. right.
    destruct (scanFiles_errors _ _ _ _ _ _ _ _ _ _ _ _ Hscan) as (file & H).
    exists dir, goFiles, file. split; [reflexivity|exact H].
  - intros [= <- <-]. left. auto.
Qed.

Lemma FindFuncDefinitions_errors_witness :
  Analyzer.FindFuncDefinitions Sample.ReadFile Sample.parser_ParseFile importWithBad
    Sample.filepath_Join Sample.IsExported Sample.pkgPath ["*"] Analyzer.NewASTProcessor
  = (Err (ErrParseFile Sample.badPath), Sample.afterBad) /\
  ((importWithBad Sample.pkgPath = None /\
    ErrParseFile Sample.badPath = ErrImport Sample.pkgPath /\
    Sample.afterBad = Analyzer.NewASTProcessor) \/
   (exists dir goFiles file,
      importWithBad Sample.pkgPath = Some (dir, goFiles) /\
      In file goFiles /\
      (ErrParseFile Sample.badPath = ErrReadFile (Sample.filepath_Join dir file) \/
       ErrParseFile Sample.badPath = ErrParseFile (Sample.filepath_Join dir file)) /\
      Analyzer.fileMap Sample.afterBad !! Sample.filepath_Join dir file = None)).
Proof.
  split; [vm_compute; reflexivity|].
  exact (FindFuncDefinitions_errors Sample.ReadFile Sample.parser_ParseFile
           importWithBad Sample.filepath_Join Sample.IsExported Sample.pkgPath ["*"]
           Analyzer.NewASTProcessor Sample.afterBad (ErrParseFile Sample.badPath)
           ltac:(vm_compute; reflexivity)).
Defined.

(** ** Patterns *)

Lemma isFuncMatch_loop_cons recvType funcName pattern rest :
  Analyzer.isFuncMatch_loop recvType funcName (pattern :: rest)
  = Analyzer.isFuncMatch_loop recvType funcName [pattern]
    || Analyzer.isFuncMatch_loop recvType funcName rest.
Proof.
  cbn [Analyzer.isFuncMatch_loop].
  destruct (strings.Cut pattern ".") as [[structName methodName]|].
  - destruct (glob.Glob structName recvType); cbn [negb]; [|reflexivity].
    destruct (glob.Glob methodName funcName); reflexivity.
  - destruct (glob.Glob pattern funcName); reflexivity.
Qed.

(** X13.  The patterns of [isFuncMatch] are alternatives: a declaration
    matches a list of patterns exactly when it matches one of them taken
    alone. *)
Theorem isFuncMatch_patterns_are_alternatives
    (fd : goast.FuncDeclInfo) (funcPatterns : list string) :
  Analyzer.isFuncMatch fd funcPatterns
  = existsb (fun pattern => Analyzer.isFuncMatch fd [pattern]) funcPatterns.
Proof.
  unfold Analyzer.isFuncMatch.
  induction funcPatterns as [|pattern rest IH]; [reflexivity|].
  rewrite isFuncMatch_loop_cons, IH. reflexivity.
Qed.

Lemma TrimPrefix_star (s : string) :
  strings.TrimPrefix (String.append "*" s) "*" = s.
Proof.
  unfold strings.TrimPrefix, strings.HasPrefix.
  change (String.prefix "*" (String.append "*" s)) with (String.prefix "" s).
  destruct s; reflexivity.
Qed.

(** X14.  A method on a pointer receiver matches like the method on the
    value receiver: for a receiver type [T] that does not itself start
    with a star, [isFuncMatch] gives the same answer for a declaration with
    receiver [*T] and for one with receiver [T] and the same name, whatever
    the patterns and the receiver names. *)
Theorem isFuncMatch_ignores_pointer_receiver
    (fd fd' : goast.FuncDeclInfo) (names names' : list string) (T : goast.Expr)
    (funcPatterns : list string) :
  goast.Name fd = goast.Name fd' ->
  goast.Recv fd = Some [ {| goast.Names := names; goast.Type_ := goast.StarExpr T |} ] ->
  goast.Recv fd' = Some [ {| goast.Names := names'; goast.Type_ := T |} ] ->
  strings.HasPrefix (Analyzer.exprToString T) "*" = false ->
  Analyzer.isFuncMatch fd funcPatterns = Analyzer.isFuncMatch fd' funcPatterns.
Proof.
  intros Hname Hrecv Hrecv' Hstar.
  unfold Analyzer.isFuncMatch, Analyzer.extractRecvType.
  rewrite Hrecv, Hrecv', Hname. cbn [fst goast.Type_ Analyzer.exprToString].
  rewrite TrimPrefix_star. unfold strings.TrimPrefix. rewrite Hstar. reflexivity.
Qed.

Lemma isFuncMatch_ignores_pointer_receiver_witness :
  strings.HasPrefix (Analyzer.exprToString (goast.Ident "T")) "*" = false /\
  Analyzer.isFuncMatch
    {| goast.Name := "M"; goast.NamePos := 72;
       goast.Recv := Some [ {| goast.Names := ["s"];
                               goast.Type_ := goast.StarExpr (goast.Ident "T") |} ] |}
    ["T.M"]
  = Analyzer.isFuncMatch
      {| goast.Name := "M"; goast.NamePos := 10;
         goast.Recv := Some [ {| goast.Names := [];
                                 goast.Type_ := goast.Ident "T" |} ] |}
      ["T.M"].
Proof.
  split; [reflexivity|].
  apply (isFuncMatch_ignores_pointer_receiver _ _ ["s"] [] (goast.Ident "T"));
    reflexivity.
Defined.

(** ** From a position to line and column, and back *)

Lemma searchInts_spec (ls : list Z) (x : Z) :
  -1 <= token.searchInts ls x < Z.of_nat (List.length ls) /\
  (0 <= token.searchInts ls x ->
   List.nth (Z.to_nat (token.searchInts ls x)) ls 0 <= x).
Proof.
  induction ls as [|l ls IH]; [simpl; lia|].
  cbn [token.searchInts List.length]. destruct (l <=? x) eqn:E; [|lia].
  destruct IH as [IH1 IH2]. split; [lia|].
  intros _. destruct (Z.eq_dec (token.searchInts ls x) (-1)) as [->|Hne].
  - simpl. lia.
  - replace (Z.to_nat (1 + token.searchInts ls x))
      with (S (Z.to_nat (token.searchInts ls x))) by lia.
    cbn [List.nth]. apply IH2. lia.
Qed.

Lemma searchInts_nonneg (ls : list Z) (x : Z) :
  List.hd_error ls = Some 0 -> 0 <= x -> 0 <= token.searchInts ls x.
Proof.
  destruct ls as [|l ls]; [discriminate|]. intros [= ->] Hx.
  cbn [token.searchInts]. destruct (0 <=? x) eqn:E; [|lia].
  pose proof (searchInts_spec ls x). lia.
Qed.

Lemma AddLine_linesOk sz ls offset :
  List.hd_error ls = Some 0 -> Forall (fun l => 0 <= l) ls ->
  List.hd_error (token.AddLine sz ls offset) = Some 0 /\
  Forall (fun l => 0 <= l) (token.AddLine sz ls offset).
Proof.
  intros Hhd Hall. unfold token.AddLine.
  destruct ((List.last ls (-1) <? offset) && (offset <? sz)) eqn:E; [|auto].
  apply andb_true_iff in E as [E _]. apply Z.ltb_lt in E.
  split; [destruct ls; [discriminate|exact Hhd]|].
  apply Forall_app. split; [exact Hall|]. constructor; [|constructor].
  destruct ls as [|l ls]; [discriminate|].
  assert (Hlast : 0 <= List.last (l :: ls) (-1)).
  { assert (Hin : In (List.last (l :: ls) (-1)) (l :: ls)).
    { clear. revert l. induction ls as [|k ls IH]; intros l; [left; reflexivity|].
      right. apply IH. }
    rewrite List.Forall_forall in Hall. apply Hall, Hin. }
  lia.
Qed.

Lemma AddFile_linesOk s filename sz added :
  linesOk (fst (token.AddFile s filename sz added)).
Proof.
  unfold linesOk, token.AddFile. cbn [fst token.lines].
  assert (H : List.hd_error [0] = Some 0 /\ Forall (fun l => 0 <= l) [0]).
  { split; [reflexivity|]. constructor; [lia|constructor]. }
  revert H. generalize [0]. induction added as [|o added IH]; intros ls [H1 H2].
  - auto.
  - cbn [fold_left]. apply IH. apply AddLine_linesOk; assumption.
Qed.

(** Every operation keeps the line tables of the file set in that state. *)
Lemma ParseFile_linesOk ReadFile parser_ParseFile filePath a :
  Forall linesOk (token.files (Analyzer.fset a)) ->
  Forall linesOk
    (token.files (Analyzer.fset
                    (snd (Analyzer.ParseFile ReadFile parser_ParseFile filePath a)))).
Proof.
  intros H. unfold Analyzer.ParseFile.
  destruct (Analyzer.fileMap a !! filePath); [exact H|].
  destruct (ReadFile filePath) as [src|]; [|exact H].
  destruct (parser_ParseFile _ _ _) as [added parsed].
  pose proof (AddFile_linesOk (Analyzer.fset a) filePath (Z.of_nat (String.length src))
                added) as Hnew.
  unfold token.AddFile in *. cbn [fst] in Hnew.
  destruct parsed; cbn [snd Analyzer.fset token.files];
    (apply Forall_app; split; [exact H|constructor; [exact Hnew|constructor]]).
Qed.

(** Without line infos, [FileSet.Position] is the unadjusted position. *)
Lemma PositionAt_without_infos s infosOf p tf :
  token.FileOf s p = Some tf -> infosOf tf = [] ->
  token.PositionAt s infosOf p = token.PositionOf s p.
Proof.
  intros Hfile Hinfos. unfold token.PositionAt, token.PositionFor, token.PositionOf.
  rewrite Hfile. unfold token.unpack. rewrite Hinfos.
  cbn [List.length Nat.eqb negb andb].
  destruct (0 <=? token.searchInts (token.lines tf) (p - token.base tf)); reflexivity.
Qed.

(** X15.  Line and column lead back to the position, in a file without
    [//line] directives.  In a well-formed file set whose line tables are
    as the scanner leaves them, let [p] be a position in the token file of
    a cached path, within the range of [int], and let that file have no
    line infos.  Then the file name that [Position] reports for [p] is the
    name of the file, and the line and column it reports (what
    [FindFuncDefinitions] puts in a definition) are accepted by
    [getPosition] for that path, and it answers [p]. *)
Theorem position_line_column_round_trip
    (filePath : string) (a : Analyzer.ASTProcessor) (tf : token.File)
    (infosOf : token.File -> list token.lineInfo) (p : token.Pos) :
  token.wf (Analyzer.fset a) ->
  tokenFileOf a filePath = Some tf ->
  linesOk tf ->
  infosOf tf = [] ->
  token.base tf <= p <= token.base tf + token.size tf ->
  GoInt.in_range p ->
  token.Filename (token.PositionAt (Analyzer.fset a) infosOf p) = token.name tf /\
  1 <= token.Line (token.PositionAt (Analyzer.fset a) infosOf p) <= token.LineCount tf /\
  1 <= token.Column (token.PositionAt (Analyzer.fset a) infosOf p) /\
  Analyzer.getPosition filePath
    (token.Line (token.PositionAt (Analyzer.fset a) infosOf p))
    (token.Column (token.PositionAt (Analyzer.fset a) infosOf p)) a
  = (Ok p, a).
Proof.
  intros Hwf Htf [Hhd Hall] Hinfos Hp Hrange.
  assert (Hin : In tf (token.files (Analyzer.fset a))).
  { unfold tokenFileOf in Htf.
    destruct (Analyzer.fileMap a !! filePath); [|discriminate].
    eapply FileOf_In, Htf. }
  pose proof (ranges_from_lower _ _ _ _ Hwf Hin) as Hbase.
  pose proof (FileOf_owner _ _ _ Hwf Hin Hp) as Hfile.
  rewrite (PositionAt_without_infos _ _ _ _ Hfile Hinfos).
  unfold token.PositionOf. rewrite Hfile.
  pose proof (searchInts_spec (token.lines tf) (p - token.base tf)) as [Hi Hnth].
  pose proof (searchInts_nonneg (token.lines tf) (p - token.base tf) Hhd ltac:(lia))
    as Hi0.
  specialize (Hnth Hi0).
  set (i := token.searchInts (token.lines tf) (p - token.base tf)) in *.
  assert (Hn0 : 0 <= List.nth (Z.to_nat i) (token.lines tf) 0).
  { rewrite List.Forall_forall in Hall. apply Hall, List.nth_In. lia. }
  destruct (0 <=? i) eqn:Ei; [|lia].
  cbn [token.Filename token.Line token.Column].
  split; [reflexivity|]. unfold token.LineCount. split; [lia|]. split; [lia|].
  rewrite (getPosition_in_range filePath (i + 1) _ a tf Htf)
    by (unfold token.LineCount; lia).
  replace (i + 1 - 1) with i by lia.
  f_equal. f_equal.
  unfold GoInt.in_range, GoInt.min_int, GoInt.max_int in Hrange.
  unfold GoInt.add, GoInt.sub.
  rewrite (GoInt_wrap_id (p - token.base tf - List.nth (Z.to_nat i) (token.lines tf) 0
                          + 1 - 1))
    by (unfold GoInt.in_range, GoInt.min_int, GoInt.max_int; lia).
  rewrite <- (GoInt_wrap_id p) at 2
    by (unfold GoInt.in_range, GoInt.min_int, GoInt.max_int; lia).
  f_equal. lia.
Qed.

Lemma position_line_column_round_trip_witness :
  token.wf (Analyzer.fset Sample.parsed) /\
  tokenFileOf Sample.parsed Sample.path = Some Sample.tokenFile /\
  linesOk Sample.tokenFile /\
  Generated.infosOf Sample.tokenFile = [] /\
  token.PositionAt (Analyzer.fset Sample.parsed) Generated.infosOf 52
  = {| token.Filename := Sample.path; token.Offset := 51;
       token.Line := 9; token.Column := 6 |} /\
  Analyzer.getPosition Sample.path
    (token.Line (token.PositionAt (Analyzer.fset Sample.parsed) Generated.infosOf 52))
    (token.Column (token.PositionAt (Analyzer.fset Sample.parsed) Generated.infosOf 52))
    Sample.parsed
  = (Ok 52, Sample.parsed).
Proof.
  assert (Hwf : token.wf (Analyzer.fset Sample.parsed)).
  { apply (ParseFile_wf Sample.ReadFile Sample.parser_ParseFile Sample.path
             Analyzer.NewASTProcessor), NewFileSet_wf. }
  assert (Hok : linesOk Sample.tokenFile).
  { split; [reflexivity|]. repeat constructor; discriminate. }
  split; [exact Hwf|]. split; [reflexivity|]. split; [exact Hok|].
  split; [reflexivity|]. split; [reflexivity|].
  apply (position_line_column_round_trip Sample.path Sample.parsed Sample.tokenFile
           Generated.infosOf 52 Hwf eq_refl Hok eq_refl).
  - vm_compute. split; discriminate.
  - vm_compute. split; discriminate.
Defined.

(** The condition on line infos is needed.  In the generated file the
    name [F] is on line 3, column 6, position 33; the directive
    [//line foo.y:100] governs that line, so [Position] reports line 100 of
    [foo.y] and no column, and [getPosition] on the path of the file
    rejects line 100 of a file of 3 lines. *)
Example line_directive_breaks_round_trip :
  tokenFileOf Generated.parsed Generated.path = Some Generated.tokenFile /\
  token.PositionOf (Analyzer.fset Generated.parsed) 33
  = {| token.Filename := Generated.path; token.Offset := 32;
       token.Line := 3; token.Column := 6 |} /\
  token.PositionAt (Analyzer.fset Generated.parsed) Generated.infosOf 33
  = {| token.Filename := "/work/proj/pkg/foo.y"; token.Offset := 32;
       token.Line := 100; token.Column := 0 |} /\
  token.LineCount Generated.tokenFile = 3 /\
  Analyzer.getPosition Generated.path 100 0 Generated.parsed
  = (Ok token.NoPos, Generated.parsed).
Proof. repeat split; reflexivity. Qed.

(** ** No call expression at the position *)

Lemma callStep_fold_None position l : forall target,
  fold_left (callStep position) l target = None ->
  target = None /\
  forall D, In D l -> isCall D = true -> spans D position = false.
Proof.
  induction l as [|n l IH]; intros target H.
  - split; [exact H|intros D []].
  - cbn [fold_left] in H. destruct (IH _ H) as [Hstep Hrest].
    unfold callStep in Hstep.
    destruct (isCall n && spans n position) eqn:E; [discriminate|].
    split; [exact Hstep|].
    intros D [<-|HD] Hcall; [|apply Hrest; assumption].
    rewrite Hcall in E. exact E.
Qed.

(** X16.  [ExtractFullCall] reports that there is no call expression
    exactly when no call expression of the file contains the position, the
    ends of its span included: on a file that parses and can be read, at a
    line and column that denote a position, the error is "no corresponding
    call expression found" if and only if every call expression of the tree
    fails the span test. *)
Theorem ExtractFullCall_no_call_iff_none_spans
    (ReadFile : string -> option string)
    (parser_ParseFile : string -> Z -> string -> list Z * option goast.File)
    (filePath : string) (line character : Z) (a a1 : Analyzer.ASTProcessor)
    (file : goast.File) (src : string) (position : token.Pos) :
  Analyzer.ParseFile ReadFile parser_ParseFile filePath a = (Ok tt, a1) ->
  Analyzer.fileMap a1 !! filePath = Some file ->
  ReadFile filePath = Some src ->
  Analyzer.getPosition filePath line character a1 = (Ok position, a1) ->
  position <> token.NoPos ->
  (fst (Analyzer.ExtractFullCall ReadFile parser_ParseFile filePath line character a)
   = Err ErrNoCallExpr
   <->
   forall n, In n (goast.preorder (goast.FileNode file)) ->
             isCall n = true -> spans n position = false).
Proof.
  intros Hparse Hfile Hsrc Hpos Hnopos.
  rewrite (ExtractFullCall_parsed _ _ _ _ _ _ _ _ Hparse Hfile), Hsrc, Hpos.
  destruct (position =? token.NoPos) eqn:E; [apply Z.eqb_eq in E; contradiction|].
  rewrite callVisit_fold.
  destruct (fold_left (callStep position) (goast.preorder (goast.FileNode file)) None)
    as [target|] eqn:Efold.
  - split.
    + cbv zeta. destruct (_ || _); discriminate.
    + intros Hnone. rewrite (callStep_none _ _ _ Hnone) in Efold. discriminate.
  - split; [|reflexivity]. intros _. apply (callStep_fold_None _ _ _ Efold).
Qed.

Lemma ExtractFullCall_no_call_iff_none_spans_witness :
  Analyzer.ParseFile Sample.ReadFile Sample.parser_ParseFile Sample.path
    Analyzer.NewASTProcessor = (Ok tt, Sample.parsed) /\
  Analyzer.getPosition Sample.path 9 6 Sample.parsed = (Ok 52, Sample.parsed) /\
  (fst (Analyzer.ExtractFullCall Sample.ReadFile Sample.parser_ParseFile Sample.path
          9 6 Analyzer.NewASTProcessor) = Err ErrNoCallExpr
   <->
   forall n, In n (goast.preorder (goast.FileNode (Sample.file 1))) ->
             isCall n = true -> spans n 52 = false).
Proof.
  split; [reflexivity|]. split; [reflexivity|].
  apply (ExtractFullCall_no_call_iff_none_spans Sample.ReadFile Sample.parser_ParseFile
           Sample.path 9 6 Analyzer.NewASTProcessor Sample.parsed (Sample.file 1)
           Sample.src 52).
  - reflexivity.
  - reflexivity.
  - reflexivity.
  - reflexivity.
  - discriminate.
Defined.

(** ** The order of the results does not depend on the order of discovery *)

Lemma compareEntries_eq_key x y :
  cmpEq Plsdo.compareEntries x y = sameKey (Plsdo.Filename x) (Plsdo.Line x) y.
Proof.
  unfold cmpEq, sameKey, Plsdo.compareEntries, strings.Compare, cmp.Compare.
  destruct (String.eqb_spec (Plsdo.Filename y) (Plsdo.Filename x)) as [->|Hne].
  - rewrite String_compare_refl. change (negb (0 =? 0)) with false. cbv iota.
    cbn [andb].
    destruct (Plsdo.Line x <? Plsdo.Line y) eqn:E1;
      [|destruct (Plsdo.Line y <? Plsdo.Line x) eqn:E2];
      destruct (Z.eqb_spec (Plsdo.Line y) (Plsdo.Line x)); try reflexivity; lia.
  - cbn [andb].
    destruct (String.compare (Plsdo.Filename x) (Plsdo.Filename y)) eqn:Ec;
      [|reflexivity|reflexivity].
    apply String.compare_eq_iff in Ec. congruence.
Qed.

(** Two lists with the same entries under each key, in the same order, sort
    to the same list. *)
Lemma sort_by_key_classes (l1 l2 : list Plsdo.matchEntry) :
  (forall f ln, List.filter (sameKey f ln) l1 = List.filter (sameKey f ln) l2) ->
  slices.SortStableFunc Plsdo.compareEntries l1
  = slices.SortStableFunc Plsdo.compareEntries l2.
Proof.
  intros H.
  apply (stable_sorted_unique Plsdo.compareEntries compareEntries_antisym).
  - apply SortStableFunc_sorted; [apply compareEntries_antisym|apply compareEntries_trans].
  - apply SortStableFunc_sorted; [apply compareEntries_antisym|apply compareEntries_trans].
  - intros x.
    rewrite (List.filter_ext _ _ (compareEntries_eq_key x)).
    rewrite (List.filter_ext _ _ (compareEntries_eq_key x)).
    rewrite !(SortStableFunc_stable Plsdo.compareEntries _ (sameKey_class _ _)).
    apply H.
Qed.

Lemma sameKey_entryKey f ln e : sameKey f ln e = true <-> entryKey e = (f, ln).
Proof.
  unfold sameKey, entryKey. rewrite andb_true_iff, String.eqb_eq, Z.eqb_eq.
  split; [intros [-> ->]; reflexivity|intros [= -> ->]; auto].
Qed.

Lemma filter_none {A} (P : A -> bool) (l : list A) :
  (forall x, In x l -> P x = false) -> List.filter P l = [].
Proof.
  induction l as [|x l IH]; intros H; [reflexivity|].
  cbn [List.filter]. rewrite (H x) by (left; reflexivity).
  apply IH. intros y Hy. apply H. right. exact Hy.
Qed.

Lemma filter_NoDup_key f ln (l : list Plsdo.matchEntry) :
  List.NoDup (List.map entryKey l) ->
  (List.length (List.filter (sameKey f ln) l) <= 1)%nat.
Proof.
  induction l as [|e l IH]; [simpl; lia|].
  cbn [List.map]. intros Hnd. inversion Hnd as [|? ? Hnotin Hnd']; subst.
  cbn [List.filter]. destruct (sameKey f ln e) eqn:E; [|apply IH, Hnd'].
  rewrite filter_none; [simpl; lia|].
  intros x Hx. destruct (sameKey f ln x) eqn:Ex; [|reflexivity].
  exfalso. apply Hnotin.
  apply sameKey_entryKey in E. apply sameKey_entryKey in Ex.
  rewrite E, <- Ex. apply List.in_map, Hx.
Qed.

Lemma Permutation_filter {A} (P : A -> bool) (l l' : list A) :
  Permutation l l' -> Permutation (List.filter P l) (List.filter P l').
Proof.
  induction 1 as [|x l l' _ IH|x y l|l l' l'' _ IH1 _ IH2].
  - constructor.
  - cbn [List.filter]. destruct (P x); [constructor|]; exact IH.
  - cbn [List.filter]. destruct (P x), (P y); try reflexivity. apply perm_swap.
  - etransitivity; eassumption.
Qed.

(** X17.  The sorted result does not depend on the order in which the
    references were found: two result sets with the same entries, in any
    order, no two of which share file and line, are sorted by [sort] into
    the same list. *)
Theorem sort_independent_of_discovery_order (m1 m2 : Plsdo.Matcher) :
  Permutation (Plsdo.refs m1) (Plsdo.refs m2) ->
  List.NoDup (List.map entryKey (Plsdo.refs m1)) ->
  Plsdo.refs (snd (Plsdo.sort m1)) = Plsdo.refs (snd (Plsdo.sort m2)).
Proof.
  intros Hperm Hnd. unfold Plsdo.sort. cbn [snd Plsdo.refs].
  apply sort_by_key_classes. intros f ln.
  pose proof (Permutation_filter (sameKey f ln) _ _ Hperm) as Hp.
  pose proof (filter_NoDup_key f ln _ Hnd) as Hlen.
  destruct (List.filter (sameKey f ln) (Plsdo.refs m1)) as [|e [|e' l]].
  - symmetry. apply Permutation_nil, Hp.
  - symmetry. apply Permutation_length_1_inv, Hp.
  - simpl in Hlen. lia.
Qed.

Lemma sort_independent_of_discovery_order_witness :
  Permutation [ entry "b.go" 1 "f()"; entry "a.go" 5 "g()"; entry "a.go" 2 "h()" ]
              [ entry "a.go" 5 "g()"; entry "a.go" 2 "h()"; entry "b.go" 1 "f()" ] /\
  List.NoDup (List.map entryKey
           [ entry "b.go" 1 "f()"; entry "a.go" 5 "g()"; entry "a.go" 2 "h()" ]) /\
  Plsdo.refs (snd (Plsdo.sort
                     {| Plsdo.refs := [ entry "b.go" 1 "f()"; entry "a.go" 5 "g()";
                                        entry "a.go" 2 "h()" ];
                        Plsdo.pls := None |}))
  = Plsdo.refs (snd (Plsdo.sort
                       {| Plsdo.refs := [ entry "a.go" 5 "g()"; entry "a.go" 2 "h()";
                                          entry "b.go" 1 "f()" ];
                          Plsdo.pls := None |})).
Proof.
  assert (Hperm : Permutation
            [ entry "b.go" 1 "f()"; entry "a.go" 5 "g()"; entry "a.go" 2 "h()" ]
            [ entry "a.go" 5 "g()"; entry "a.go" 2 "h()"; entry "b.go" 1 "f()" ]).
  { apply (Permutation_cons_append
             [ entry "a.go" 5 "g()"; entry "a.go" 2 "h()" ] (entry "b.go" 1 "f()")). }
  assert (Hnd : List.NoDup (List.map entryKey
            [ entry "b.go" 1 "f()"; entry "a.go" 5 "g()"; entry "a.go" 2 "h()" ])).
  { repeat constructor; simpl; intuition discriminate. }
  split; [exact Hperm|]. split; [exact Hnd|].
  exact (sort_independent_of_discovery_order
           {| Plsdo.refs := [ entry "b.go" 1 "f()"; entry "a.go" 5 "g()";
                              entry "a.go" 2 "h()" ];
              Plsdo.pls := None |}
           {| Plsdo.refs := [ entry "a.go" 5 "g()"; entry "a.go" 2 "h()";
                              entry "b.go" 1 "f()" ];
              Plsdo.pls := None |} Hperm Hnd).
Defined.

(** ** One request for each definition *)

Section RequestsFacts.

Variable ReadFile : string -> option string.
Variable parser_ParseFile : string -> Z -> string -> list Z * option goast.File.
Variable build_Import : string -> option (string * list string).
Variable filepath_Join : string -> string -> string.
Variable IsExported : string -> bool.
Variable Format : string -> string.
Variable json_Marshal : Gopls.Msg -> string.
Variable json_Unmarshal : string -> option Gopls.Msg.
Variable pwd : string.

(** The loop over the references does not touch the client. *)
Lemma eachMatch_pls matches : forall ap m,
  Plsdo.pls (snd (snd (Plsdo.eachMatch ReadFile parser_ParseFile Format pwd
                         matches (ap, m))))
  = Plsdo.pls m.
Proof.
  induction matches as [|match_ rest IH]; intros ap m; [reflexivity|].
  cbn [Plsdo.eachMatch].
  destruct (strings.HasPrefix (Gopls.Filename match_) pwd); cbn [negb]; [|apply IH].
  unfold bind at 1. unfold Plsdo.onAnalyzer at 1.
  destruct (Plsdo.GetEnclosingFunctionName _ _ _ _ _ ap) as [[enc|e] ap1]; [|reflexivity].
  destruct enc as [[functionName receiverType] receiverName].
  unfold bind at 1. unfold Plsdo.onAnalyzer at 1.
  destruct (Plsdo.ExtractFullCall _ _ _ _ _ ap1) as [[src|e] ap2]; [|reflexivity].
  unfold bind at 1. unfold Plsdo.appendRef at 1.
  rewrite IH. reflexivity.
Qed.

Lemma eachDef_requests defs : forall ap m c ap' m',
  Plsdo.pls m = Some c ->
  Plsdo.eachDef ReadFile parser_ParseFile Format json_Marshal json_Unmarshal pwd
    defs (ap, m) = (Ok tt, (ap', m')) ->
  exists c',
    Plsdo.pls m' = Some c' /\
    Gopls.stdin c'
    = String.append (Gopls.stdin c) (requestsFor json_Marshal (Gopls.seq c) defs).
Proof.
  induction defs as [|def rest IH]; intros ap m c ap' m' Hc.
  - cbn. intros [= _ <-]. exists c. split; [exact Hc|].
    rewrite append_nil_r. reflexivity.
  - cbn [Plsdo.eachDef requestsFor]. unfold bind at 1. unfold Plsdo.onClient at 1.
    rewrite Hc.
    destruct (Gopls.FindReferences json_Marshal json_Unmarshal (Analyzer.Filename def)
                (Analyzer.OffsetLine def) (Analyzer.OffsetCol def) c)
      as [[matches|e] c1] eqn:Efind; [|discriminate].
    destruct (FindReferences_ok _ _ _ _ _ _ _ _ Efind) as (Hseq & Hin & _).
    unfold bind at 1.
    pose proof (eachMatch_pls matches ap
                  {| Plsdo.refs := Plsdo.refs m; Plsdo.pls := Some c1 |}) as Hpls.
    destruct (Plsdo.eachMatch ReadFile parser_ParseFile Format pwd matches
                (ap, {| Plsdo.refs := Plsdo.refs m; Plsdo.pls := Some c1 |}))
      as [[[]|e] [ap1 m1]]; [|discriminate].
    cbn [snd Plsdo.pls] in Hpls.
    intros Hrest. destruct (IH _ _ c1 _ _ Hpls Hrest) as (c' & Hc' & Hstdin).
    exists c'. split; [exact Hc'|].
    rewrite Hstdin, Hin, Hseq, append_assoc. reflexivity.
Qed.

End RequestsFacts.

(** X18.  [FindFuncReferences] asks once for each definition: when it
    succeeds, the definitions are those [FindFuncDefinitions] finds with a
    fresh analyzer, and what the client has written is one references
    request for each of them, in their order, at the position of the
    definition, with consecutive ids, and nothing else. *)
Theorem FindFuncReferences_one_request_per_definition
    (ReadFile : string -> option string)
    (parser_ParseFile : string -> Z -> string -> list Z * option goast.File)
    (build_Import : string -> option (string * list string))
    (filepath_Join : string -> string -> string)
    (IsExported : string -> bool)
    (Format : string -> string)
    (json_Marshal : Gopls.Msg -> string)
    (json_Unmarshal : string -> option Gopls.Msg)
    (pwd pkgName : string) (patterns : list string)
    (m m' : Plsdo.Matcher) (c : Gopls.GoplsClient) :
  Plsdo.pls m = Some c ->
  Plsdo.FindFuncReferences ReadFile parser_ParseFile build_Import filepath_Join
    IsExported Format json_Marshal json_Unmarshal pwd pkgName patterns m
  = (Ok tt, m') ->
  exists defs c',
    fst (Analyzer.FindFuncDefinitions ReadFile parser_ParseFile build_Import
           filepath_Join IsExported pkgName patterns Analyzer.NewASTProcessor)
    = Ok defs /\
    Plsdo.pls m' = Some c' /\
    Gopls.stdin c'
    = String.append (Gopls.stdin c) (requestsFor json_Marshal (Gopls.seq c) defs).
Proof.
  intros Hc. unfold Plsdo.FindFuncReferences, Plsdo.FindFuncDefinitions.
  destruct (Analyzer.FindFuncDefinitions ReadFile parser_ParseFile build_Import
              filepath_Join IsExported pkgName patterns Analyzer.NewASTProcessor)
    as [[defs|e] ap']; [|discriminate].
  destruct (Plsdo.eachDef ReadFile parser_ParseFile Format json_Marshal json_Unmarshal
              pwd defs (ap', m)) as [r [ap1 m1]] eqn:Eeach.
  intros [= -> ->].
  destruct (eachDef_requests _ _ _ _ _ _ _ _ _ _ _ _ Hc Eeach) as (c' & Hc' & Hstdin).
  exists defs, c'. split; [reflexivity|]. split; assumption.
Qed.

Lemma FindFuncReferences_one_request_per_definition_witness :
  Plsdo.pls Sample.matcher = Some answering /\
  fst (Plsdo.FindFuncReferences Sample.ReadFile Sample.parser_ParseFile
         Sample.build_Import Sample.filepath_Join Sample.IsExported Sample.Format
         Sample.json_Marshal Sample.json_Unmarshal Sample.root Sample.pkgPath ["G"]
         Sample.matcher) = Ok tt /\
  exists defs c',
    fst (Analyzer.FindFuncDefinitions Sample.ReadFile Sample.parser_ParseFile
           Sample.build_Import Sample.filepath_Join Sample.IsExported Sample.pkgPath
           ["G"] Analyzer.NewASTProcessor) = Ok defs /\
    Plsdo.pls (snd (Plsdo.FindFuncReferences Sample.ReadFile Sample.parser_ParseFile
                      Sample.build_Import Sample.filepath_Join Sample.IsExported
                      Sample.Format Sample.json_Marshal Sample.json_Unmarshal
                      Sample.root Sample.pkgPath ["G"] Sample.matcher)) = Some c' /\
    Gopls.stdin c'
    = String.append (Gopls.stdin answering)
        (requestsFor Sample.json_Marshal (Gopls.seq answering) defs).
Proof.
  split; [reflexivity|]. split; [vm_compute; reflexivity|].
  apply (FindFuncReferences_one_request_per_definition
           Sample.ReadFile Sample.parser_ParseFile Sample.build_Import
           Sample.filepath_Join Sample.IsExported Sample.Format Sample.json_Marshal
           Sample.json_Unmarshal Sample.root Sample.pkgPath ["G"] Sample.matcher
           _ answering).
  - reflexivity.
  - vm_compute. reflexivity.
Defined.

(** ** Queries on a cached file *)

(** X19.  What the queries ask of the file system once a file is cached.
    [GetEnclosingFunctionName] asks nothing: its answer is the same whatever
    the file system and the parser have become.  [ExtractFullCall] reads the
    file again at every call and never parses it again: its answer depends
    on the present content of that one file only, and when the file can no
    longer be read it fails with the read error, leaving the analyzer as it
    was. *)
Theorem queries_on_a_cached_file
    (ReadFile ReadFile' : string -> option string)
    (parser_ParseFile parser_ParseFile'
       : string -> Z -> string -> list Z * option goast.File)
    (filePath : string) (line character : Z) (a : Analyzer.ASTProcessor)
    (file : goast.File) :
  Analyzer.fileMap a !! filePath = Some file ->
  Analyzer.GetEnclosingFunctionName ReadFile parser_ParseFile filePath line character a
  = Analyzer.GetEnclosingFunctionName ReadFile' parser_ParseFile' filePath line
      character a /\
  (ReadFile filePath = ReadFile' filePath ->
   Analyzer.ExtractFullCall ReadFile parser_ParseFile filePath line character a
   = Analyzer.ExtractFullCall ReadFile' parser_ParseFile' filePath line character a) /\
  (ReadFile filePath = None ->
   Analyzer.ExtractFullCall ReadFile parser_ParseFile filePath line character a
   = (Err (ErrReadFile filePath), a)).
Proof.
  intros Hfile.
  pose proof (ParseFile_hit ReadFile parser_ParseFile _ _ _ Hfile) as Hhit.
  pose proof (ParseFile_hit ReadFile' parser_ParseFile' _ _ _ Hfile) as Hhit'.
  split; [|split].
  - rewrite (GetEnclosingFunctionName_parsed _ _ _ _ _ _ _ _ Hhit Hfile).
    rewrite (GetEnclosingFunctionName_parsed _ _ _ _ _ _ _ _ Hhit' Hfile).
    reflexivity.
  - intros Hsame.
    rewrite (ExtractFullCall_parsed _ _ _ _ _ _ _ _ Hhit Hfile).
    rewrite (ExtractFullCall_parsed _ _ _ _ _ _ _ _ Hhit' Hfile).
    rewrite Hsame. reflexivity.
  - intros Hnone.
    rewrite (ExtractFullCall_parsed _ _ _ _ _ _ _ _ Hhit Hfile), Hnone. reflexivity.
Qed.

Lemma queries_on_a_cached_file_witness :
  Analyzer.fileMap Sample.parsed !! Sample.path = Some (Sample.file 1) /\
  Analyzer.GetEnclosingFunctionName Sample.ReadFile Sample.parser_ParseFile
    Sample.path 5 3 Sample.parsed
  = Analyzer.GetEnclosingFunctionName (fun _ => None) Sample.parser_ParseFile
      Sample.path 5 3 Sample.parsed /\
  Analyzer.ExtractFullCall (fun _ => None) Sample.parser_ParseFile Sample.path 5 3
    Sample.parsed
  = (Err (ErrReadFile Sample.path), Sample.parsed).
Proof.
  split; [reflexivity|].
  pose proof (queries_on_a_cached_file (fun _ => None) Sample.ReadFile
                Sample.parser_ParseFile Sample.parser_ParseFile Sample.path 5 3
                Sample.parsed (Sample.file 1) eq_refl) as (H1 & _ & H3).
  split; [symmetry; exact H1|exact (H3 eq_refl)].
Defined.

(** ** Printing the results *)

Lemma sort_idempotent (m : Plsdo.Matcher) :
  snd (Plsdo.sort (snd (Plsdo.sort m))) = snd (Plsdo.sort m).
Proof.
  unfold Plsdo.sort. cbn [snd Plsdo.refs Plsdo.pls]. f_equal.
  apply (SortStableFunc_idempotent Plsdo.compareEntries compareEntries_antisym
           compareEntries_trans).
Qed.

(** X20.  Printing is repeatable.  [PrettyPrint] and [Json] leave the
    results of the matcher sorted, both in the same order; and on a matcher
    that either has left, each of them writes what it wrote the first
    time and leaves the matcher as it is. *)
Theorem printing_is_repeatable
    (highlight : string -> string -> option string)
    (json_Encode : Plsdo.matchEntry -> string)
    (style : string) (m : Plsdo.Matcher) (w : io.Writer) :
  fst (snd (Plsdo.PrettyPrint highlight style (m, w))) = snd (Plsdo.sort m) /\
  fst (snd (Plsdo.Json json_Encode (m, w))) = snd (Plsdo.sort m) /\
  forall w',
    Plsdo.PrettyPrint highlight style (snd (Plsdo.sort m), w')
    = Plsdo.PrettyPrint highlight style (m, w') /\
    Plsdo.Json json_Encode (snd (Plsdo.sort m), w') = Plsdo.Json json_Encode (m, w').
Proof.
  split; [reflexivity|]. split.
  - unfold Plsdo.Json. destruct (Plsdo.encodeAll _ _ _). reflexivity.
  - intros w'. unfold Plsdo.PrettyPrint, Plsdo.Json.
    rewrite sort_idempotent. split; reflexivity.
Qed.





(** ** One header for each file *)

Lemma sourceLines_no_header line formattedLines : forall i,
  List.filter isFileHeader (Plsdo.sourceLines line i formattedLines) = [].
Proof.
  induction formattedLines as [|l rest IH]; intros i; [reflexivity|]. cbn. apply IH.
Qed.

Lemma String_compare_empty (s : string) :
  EmptyString = s \/ String.compare EmptyString s = Lt.
Proof. destruct s; [left|right]; reflexivity. Qed.

Lemma String_compare_lt_irrefl (s : string) : String.compare s s <> Lt.
Proof. rewrite String_compare_refl. discriminate. Qed.

Lemma filter_app_length {A} (P : A -> bool) (l1 l2 : list A) :
  List.length (List.filter P (l1 ++ l2))
  = (List.length (List.filter P l1) + List.length (List.filter P l2))%nat.
Proof. rewrite List.filter_app, List.length_app. reflexivity. Qed.

Lemma elem_of_filenames (s : string) (l : list Plsdo.matchEntry) :
  s ∈ (list_to_set (List.map Plsdo.Filename l) : gset string) <->
  exists e, In e l /\ Plsdo.Filename e = s.
Proof.
  rewrite elem_of_list_to_set, list_elem_of_In, List.in_map_iff.
  split; intros (e & H1 & H2); exists e; auto.
Qed.

Lemma size_with_name (x : string) (Y : gset string) :
  size ({[x]} ∪ Y) = S (size (Y ∖ {[x]})).
Proof. rewrite size_union_alt, size_singleton. reflexivity. Qed.

Section Headers.

Variable highlight : string -> string -> option string.
Variable style : string.

(** The loop prints a file header when, and only when, the file name
    changes; on entries ordered by file name that is once for each name
    that differs from the name the loop starts with. *)
Lemma printRefs_headers (l : list Plsdo.matchEntry) : forall lastFilename lastEnc,
  StronglySorted entryLe l ->
  (forall e, In e l ->
     lastFilename = Plsdo.Filename e \/
     String.compare lastFilename (Plsdo.Filename e) = Lt) ->
  List.length (List.filter isFileHeader
                 (Plsdo.printRefs highlight style l lastFilename lastEnc))
  = size ((list_to_set (List.map Plsdo.Filename l) : gset string) ∖ {[ lastFilename ]}).
Proof.
  induction l as [|e l IH]; intros lastFilename lastEnc Hsorted Hlast.
  - cbn [Plsdo.printRefs List.filter List.length List.map list_to_set foldr].
    rewrite empty_difference_L, size_empty. reflexivity.
  - apply StronglySorted_inv in Hsorted as [Hsorted Hle].
    rewrite List.Forall_forall in Hle.
    cbn [Plsdo.printRefs List.map]. rewrite list_to_set_cons.
    rewrite !filter_app_length, sourceLines_no_header.
    destruct (String.eqb_spec (Plsdo.Filename e) lastFilename) as [Heq|Hne]; cbn [negb].
    + rewrite IH; [|exact Hsorted|intros e' He'; apply Hlast; right; exact He'].
      replace (List.length (List.filter isFileHeader
                 (if negb (String.eqb lastEnc (Plsdo.fmtEnc e))
                  then [Plsdo.Blank; Plsdo.Enclosing (Plsdo.fmtEnc e)]
                  else [Plsdo.Ellipsis]))) with 0%nat
        by (destruct (negb _); reflexivity).
      cbn [List.filter List.length Nat.add]. f_equal. rewrite Heq.
      apply set_eq. intros s. set_unfold. tauto.
    + assert (Hlt : String.compare lastFilename (Plsdo.Filename e) = Lt).
      { destruct (Hlast e (or_introl eq_refl)) as [H|H]; [congruence|exact H]. }
      assert (Hfresh : lastFilename ∉
                (list_to_set (List.map Plsdo.Filename l) : gset string)).
      { rewrite elem_of_filenames. intros (e' & He' & Hname).
        destruct (Hle e' He') as [H|[H _]].
        - rewrite Hname in H.
          apply (String_compare_lt_irrefl lastFilename).
          eapply String_compare_lt_trans; eassumption.
        - congruence. }
      rewrite IH;
        [|exact Hsorted
         |intros e' He'; destruct (Hle e' He') as [H|[H _]]; [right; exact H|left; exact H]].
      replace (List.length (List.filter isFileHeader
                 (if negb (String.eqb EmptyString (Plsdo.fmtEnc e))
                  then [Plsdo.Blank; Plsdo.Enclosing (Plsdo.fmtEnc e)]
                  else [Plsdo.Ellipsis]))) with 0%nat
        by (destruct (negb _); reflexivity).
      cbn [List.filter isFileHeader List.length Nat.add].
      replace (({[Plsdo.Filename e]} ∪ list_to_set (List.map Plsdo.Filename l))
               ∖ {[lastFilename]} : gset string)
        with ({[Plsdo.Filename e]} ∪ list_to_set (List.map Plsdo.Filename l)
              : gset string)
        by (apply set_eq; intros s; set_unfold; split;
            [intros [Hs|Hs]; (split; [auto|intros ->; auto; congruence])|tauto]).
      rewrite size_with_name. reflexivity.
Qed.

End Headers.

(** X22.  [PrettyPrint] announces each file once: the number of file
    headers it prints is the number of distinct file names among the
    results, the empty name not counted (an entry with the empty file name
    gets no header). *)
Theorem PrettyPrint_one_header_per_file
    (highlight : string -> string -> option string)
    (style : string) (m : Plsdo.Matcher) :
  List.length
    (List.filter isFileHeader
       (Plsdo.printRefs highlight style (Plsdo.refs (snd (Plsdo.sort m)))
          EmptyString EmptyString))
  = size (filesOf (Plsdo.refs m)) /\
  forall w,
    io.failing w = [] ->
    io.written (snd (snd (Plsdo.PrettyPrint highlight style (m, w))))
    = io.written w
      ++ List.map Plsdo.render
           (Plsdo.printRefs highlight style (Plsdo.refs (snd (Plsdo.sort m)))
              EmptyString EmptyString).
Proof.
  split.
  - rewrite printRefs_headers.
    + unfold filesOf. f_equal. f_equal. apply set_eq. intros s.
      rewrite !elem_of_filenames. unfold Plsdo.sort. cbn [snd Plsdo.refs].
      split; intros (e & He & Hs); exists e; (split; [|exact Hs]).
      * eapply Permutation_in; [|exact He]. symmetry. apply SortStableFunc_Permutation.
      * eapply Permutation_in; [|exact He]. apply SortStableFunc_Permutation.
    + unfold Plsdo.sort. cbn [snd Plsdo.refs].
      eapply StronglySorted_mono;
        [|apply (SortStableFunc_sorted Plsdo.compareEntries compareEntries_antisym
                   compareEntries_trans)].
      intros a b. unfold cmpLe. apply compareEntries_le.
    + intros e _. apply String_compare_empty.
  - intros w Hw. unfold Plsdo.PrettyPrint. cbn [snd].
    generalize (Plsdo.printRefs highlight style (Plsdo.refs (snd (Plsdo.sort m)))
                  EmptyString EmptyString).
    intros chunks. revert w Hw. unfold Plsdo.writeAll.
    induction chunks as [|c chunks IH]; intros w Hw.
    + cbn. rewrite app_nil_r. reflexivity.
    + cbn [fold_left List.map]. unfold io.Write at 2. rewrite Hw. cbn [snd].
      rewrite IH by reflexivity. cbn [io.written]. rewrite <- app_assoc. reflexivity.
Qed.

Lemma PrettyPrint_one_header_per_file_witness :
  io.failing (io.mkWriter [] []) = [] /\
  List.length
    (List.filter isFileHeader
       (Plsdo.printRefs (fun _ _ => None) "none"
          (Plsdo.refs (snd (Plsdo.sort {| Plsdo.refs := found3; Plsdo.pls := None |})))
          EmptyString EmptyString)) = 2%nat /\
  io.written (snd (snd (Plsdo.PrettyPrint (fun _ _ => None) "none"
                          ({| Plsdo.refs := found3; Plsdo.pls := None |},
                           io.mkWriter [] []))))
  = io.written (io.mkWriter [] [])
    ++ List.map Plsdo.render
         (Plsdo.printRefs (fun _ _ => None) "none"
            (Plsdo.refs (snd (Plsdo.sort {| Plsdo.refs := found3; Plsdo.pls := None |})))
            EmptyString EmptyString).
Proof.
  split; [reflexivity|]. split; [vm_compute; reflexivity|].
  exact (proj2 (PrettyPrint_one_header_per_file (fun _ _ => None) "none"
                  {| Plsdo.refs := found3; Plsdo.pls := None |})
           (io.mkWriter [] []) eq_refl).
Defined.

(** ** Write errors *)

Lemma encodeAll_accepting (json_Encode : Plsdo.matchEntry -> string)
    (refs : list Plsdo.matchEntry) : forall out,
  Plsdo.encodeAll json_Encode refs {| io.written := out; io.failing := [] |}
  = (Ok tt, {| io.written := out ++ List.map json_Encode refs; io.failing := [] |}).
Proof.
  induction refs as [|me rest IH]; intros out.
  - cbn. rewrite app_nil_r. reflexivity.
  - cbn [Plsdo.encodeAll List.map]. unfold bind, io.Write. cbn [io.failing io.written].
    rewrite IH, <- app_assoc. reflexivity.
Qed.

Lemma encodeAll_failsAfter (json_Encode : Plsdo.matchEntry -> string)
    (k : nat) : forall (refs : list Plsdo.matchEntry) out rest,
  (k < List.length refs)%nat ->
  Plsdo.encodeAll json_Encode refs (failsAfter k out rest)
  = (Err ErrTransport,
     {| io.written := out ++ List.map json_Encode (List.firstn k refs);
        io.failing := rest |}).
Proof.
  induction k as [|k IH]; intros refs out rest Hlen.
  - destruct refs as [|me refs]; [simpl in Hlen; lia|].
    cbn. rewrite app_nil_r. reflexivity.
  - destruct refs as [|me refs]; [simpl in Hlen; lia|].
    cbn [Plsdo.encodeAll List.firstn List.map]. unfold bind, io.Write, failsAfter.
    cbn [io.failing io.written List.repeat app].
    change {| io.written := out ++ [json_Encode me];
              io.failing := List.repeat false k ++ true :: rest |}
      with (failsAfter k (out ++ [json_Encode me]) rest).
    rewrite IH by (simpl in Hlen; lia). rewrite <- app_assoc. reflexivity.
Qed.

(** X23.  [Json] writes one document for each result, in sorted order,
    and stops at the first write that fails: on a writer that accepts [k]
    writes and fails at the next, with more than [k] results, it returns
    the error, having written the documents of the first [k] results in
    sorted order and attempted nothing after the failure; on a writer that
    accepts every write it returns no error and has written them all.
    Either way it leaves the results sorted. *)
Theorem Json_stops_at_first_failed_write
    (json_Encode : Plsdo.matchEntry -> string)
    (m : Plsdo.Matcher) (k : nat) (out : list string) (rest : list bool) :
  (k < List.length (Plsdo.refs m))%nat ->
  Plsdo.Json json_Encode (m, failsAfter k out rest)
  = (Err ErrTransport,
     (snd (Plsdo.sort m),
      {| io.written :=
           out ++ List.map json_Encode
                    (List.firstn k (Plsdo.refs (snd (Plsdo.sort m))));
         io.failing := rest |})) /\
  Plsdo.Json json_Encode (m, {| io.written := out; io.failing := [] |})
  = (Ok tt,
     (snd (Plsdo.sort m),
      {| io.written := out ++ List.map json_Encode (Plsdo.refs (snd (Plsdo.sort m)));
         io.failing := [] |})).
Proof.
  intros Hlen. unfold Plsdo.Json. split.
  - rewrite encodeAll_failsAfter; [reflexivity|].
    unfold Plsdo.sort. cbn [snd Plsdo.refs].
    rewrite <- (Permutation_length (SortStableFunc_Permutation Plsdo.compareEntries _)).
    exact Hlen.
  - rewrite encodeAll_accepting. reflexivity.
Qed.

Lemma Json_stops_at_first_failed_write_witness :
  (1 < List.length (Plsdo.refs {| Plsdo.refs := found3; Plsdo.pls := None |}))%nat /\
  Plsdo.Json Plsdo.OrgSource
    ({| Plsdo.refs := found3; Plsdo.pls := None |}, failsAfter 1 [] [false])
  = (Err ErrTransport,
     ({| Plsdo.refs := [ entry "a.go" 2 "h()"; entry "a.go" 5 "g()";
                         entry "b.go" 1 "f()" ];
         Plsdo.pls := None |},
      {| io.written := ["h()"]; io.failing := [false] |})).
Proof.
  assert (Hlen : (1 < List.length
                        (Plsdo.refs {| Plsdo.refs := found3; Plsdo.pls := None |}))%nat)
    by (vm_compute; lia).
  split; [exact Hlen|].
  exact (proj1 (Json_stops_at_first_failed_write Plsdo.OrgSource
                  {| Plsdo.refs := found3; Plsdo.pls := None |} 1 [] [false] Hlen)).
Defined.

(** ** After [Close] *)

(** X24.  After [Close] the matcher keeps its results and has no client.
    A second [Close] exchanges nothing with a subprocess.
    [FindFuncReferences] on the closed matcher adds no result: it fails
    with the error of [FindFuncDefinitions] if that fails, succeeds if no
    definition matches, and panics on the nil client as soon as one
    does. *)
Theorem Matcher_Close_then_use
    (ReadFile : string -> option string)
    (parser_ParseFile : string -> Z -> string -> list Z * option goast.File)
    (build_Import : string -> option (string * list string))
    (filepath_Join : string -> string -> string)
    (IsExported : string -> bool)
    (Format : string -> string)
    (json_Marshal : Gopls.Msg -> string)
    (json_Unmarshal : string -> option Gopls.Msg)
    (pwd pkgName : string) (patterns : list string) (m : Plsdo.Matcher) :
  let closed := snd (Plsdo.Close json_Marshal json_Unmarshal m) in
  Plsdo.refs closed = Plsdo.refs m /\
  Plsdo.pls closed = None /\
  Plsdo.Close json_Marshal json_Unmarshal closed = (Ok None, closed) /\
  Plsdo.FindFuncReferences ReadFile parser_ParseFile build_Import filepath_Join
    IsExported Format json_Marshal json_Unmarshal pwd pkgName patterns closed
  = (match fst (Analyzer.FindFuncDefinitions ReadFile parser_ParseFile build_Import
                  filepath_Join IsExported pkgName patterns Analyzer.NewASTProcessor)
     with
     | Err e => Err e
     | Ok [] => Ok tt
     | Ok (_ :: _) => Err (Panic "nil pointer dereference")
     end, closed).
Proof.
  intros closed. subst closed. unfold Plsdo.Close. cbn [snd Plsdo.refs Plsdo.pls].
  split; [reflexivity|]. split; [reflexivity|]. split; [reflexivity|].
  unfold Plsdo.FindFuncReferences, Plsdo.FindFuncDefinitions.
  destruct (Analyzer.FindFuncDefinitions ReadFile parser_ParseFile build_Import
              filepath_Join IsExported pkgName patterns Analyzer.NewASTProcessor)
    as [[[|def defs]|e] ap]; reflexivity.
Qed.
